(** * habr.py: the fetch-and-extract pipeline of the Habr company-articles scraper

    A shallow embedding of [src/habr.py] and proofs about it.

    Conventions.
    - A Python [str] is a [string]; a character stands for the code point
      of the same number (code points below 256).
    - A Python function that can raise returns [exc A]; [try/except] is
      [try_except].
    - Library code the program calls is either written out after the
      library (urllib.parse of CPython 3.11, posixpath.join, str methods,
      int) or taken as a section variable (the HTML parser, the
      clock-time parser, the network, the file system).  A variable that
      stands for a call that can raise returns [exc A].
    - What the program prints is not modelled: [print] is taken to
      return. *)

From Stdlib Require Import Ascii ZArith DecimalString.
From Stdlib Require DecimalPos DecimalZ.
From stdpp Require Import base option list gmap strings.

Local Open Scope Z_scope.

(** ** Exceptions *)

(** The exceptions the program meets, all of them subclasses of
    [Exception].  [ValueError] carries the reason in place of the message
    text. *)
Inductive value_error :=
  | LinkMissing          (* raised by normalize_company_articles_url *)
  | InvalidIPv6URL       (* urlsplit, _check_bracketed_netloc *)
  | BracketedHostInvalid (* _check_bracketed_host *)
  | NetlocNFKC           (* _checknetloc *)
  | InvalidLiteral.      (* int() *)

Inductive exn :=
  | ValueError (why : value_error)
  | IndexError
  | ClientConnectionError
  | TimeoutError
  | ClientResponseError (status : Z)
  | ClientPayloadError
  | OtherException (tag : string).

Inductive exc (A : Type) :=
  | Ret (a : A)
  | Raise (e : exn).
Arguments Ret {A} a.
Arguments Raise {A} e.

Definition exc_bind {A B} (m : exc A) (k : A -> exc B) : exc B :=
  match m with
  | Ret a => k a
  | Raise e => Raise e
  end.

(** [try: body  except Exception: handler] *)
Definition try_except {A} (body : exc A) (handler : exn -> exc A) : exc A :=
  match body with
  | Ret a => Ret a
  | Raise e => handler e
  end.

Declare Scope exc_scope.
Delimit Scope exc_scope with exc.
Notation "'let*' x := m 'in' k" := (exc_bind m (fun x => k))
  (at level 10, x pattern, m at level 100, k at level 200) : exc_scope.
Notation "m ;;; k" := (exc_bind m (fun _ => k))
  (at level 100, right associativity) : exc_scope.

(** ** Python strings *)

Module PyStr.

Definition code (c : ascii) : N := N_of_ascii c.

(** str.isspace for one code point below 256 *)
Definition isspace (c : ascii) : bool :=
  let n := code c in
  ((9 <=? n) && (n <=? 13) || (28 <=? n) && (n <=? 32)
   || (n =? 133) || (n =? 160))%N.

Definition isascii (c : ascii) : bool := (code c <? 128)%N.

Definition isupper (c : ascii) : bool := ((65 <=? code c) && (code c <=? 90))%N.
Definition islower (c : ascii) : bool := ((97 <=? code c) && (code c <=? 122))%N.
Definition isdigit (c : ascii) : bool := ((48 <=? code c) && (code c <=? 57))%N.

(** [c.isascii() and c.isalpha()] *)
Definition isascii_alpha (c : ascii) : bool := isupper c || islower c.

Definition lower_char (c : ascii) : ascii :=
  if isupper c then ascii_of_N (code c + 32) else c.

Definition eqc (a b : ascii) : bool := Ascii.eqb a b.

Fixpoint all (p : ascii -> bool) (s : string) : bool :=
  match s with
  | EmptyString => true
  | String c s' => p c && all p s'
  end.

(** [c in s] *)
Fixpoint contains (c : ascii) (s : string) : bool :=
  match s with
  | EmptyString => false
  | String x s' => eqc x c || contains c s'
  end.

Fixpoint map (f : ascii -> ascii) (s : string) : string :=
  match s with
  | EmptyString => EmptyString
  | String c s' => String (f c) (map f s')
  end.

(** the characters satisfying [p] deleted *)
Fixpoint remove (p : ascii -> bool) (s : string) : string :=
  match s with
  | EmptyString => EmptyString
  | String c s' => if p c then remove p s' else String c (remove p s')
  end.

Fixpoint lstrip (p : ascii -> bool) (s : string) : string :=
  match s with
  | EmptyString => EmptyString
  | String c s' => if p c then lstrip p s' else s
  end.

Fixpoint rstrip (p : ascii -> bool) (s : string) : string :=
  match s with
  | EmptyString => EmptyString
  | String c s' =>
      match rstrip p s' with
      | EmptyString => if p c then EmptyString else String c EmptyString
      | r => String c r
      end
  end.

(** [s.strip()] when [p] is [isspace]; [s.strip(chars)] otherwise *)
Definition strip (p : ascii -> bool) (s : string) : string :=
  rstrip p (lstrip p s).

(** [s[:i]] for the first index [i] whose character satisfies [p];
    all of [s] when there is none *)
Fixpoint before (p : ascii -> bool) (s : string) : string :=
  match s with
  | EmptyString => EmptyString
  | String c s' => if p c then EmptyString else String c (before p s')
  end.

(** [s[i:]] for the same index; empty when there is none *)
Fixpoint from (p : ascii -> bool) (s : string) : string :=
  match s with
  | EmptyString => EmptyString
  | String c s' => if p c then s else from p s'
  end.

Definition tail (s : string) : string :=
  match s with
  | EmptyString => EmptyString
  | String _ s' => s'
  end.

(** [s[i+1:]] *)
Definition after (p : ascii -> bool) (s : string) : string := tail (from p s).

(** [s[s.rfind(c):]] and [s[:s.rfind(c)]], for [c in s] *)
Fixpoint rfrom (c : ascii) (s : string) : string :=
  match s with
  | EmptyString => EmptyString
  | String x s' =>
      if contains c s' then rfrom c s'
      else if eqc x c then s else EmptyString
  end.

Fixpoint rbefore (c : ascii) (s : string) : string :=
  match s with
  | EmptyString => EmptyString
  | String x s' =>
      if contains c s' then String x (rbefore c s') else EmptyString
  end.

(** [s.rpartition(c)[2]] *)
Definition rpartition_2 (c : ascii) (s : string) : string :=
  if contains c s then tail (rfrom c s) else s.

(** [s.split(c)] *)
Fixpoint split (c : ascii) (s : string) : list string :=
  match s with
  | EmptyString => [EmptyString]
  | String x s' =>
      if eqc x c then EmptyString :: split c s'
      else match split c s' with
           | h :: t => String x h :: t
           | [] => [String x EmptyString]
           end
  end.

(** [sep.join(l)] *)
Fixpoint join (sep : string) (l : list string) : string :=
  match l with
  | [] => EmptyString
  | [x] => x
  | x :: t => x +:+ sep +:+ join sep t
  end.

Definition startswith (c : ascii) (s : string) : bool :=
  match s with
  | String x _ => eqc x c
  | EmptyString => false
  end.

Fixpoint endswith (c : ascii) (s : string) : bool :=
  match s with
  | EmptyString => false
  | String x EmptyString => eqc x c
  | String _ s' => endswith c s'
  end.

(** [s[:n]] *)
Fixpoint take (n : nat) (s : string) : string :=
  match n, s with
  | S n', String c s' => String c (take n' s')
  | _, _ => EmptyString
  end.

(** [s[n:]] *)
Fixpoint drop (n : nat) (s : string) : string :=
  match n, s with
  | S n', String _ s' => drop n' s'
  | _, _ => s
  end.

(** truthiness of a str *)
Definition nonempty (s : string) : bool :=
  match s with EmptyString => false | _ => true end.

(** [a or b] on strings *)
Definition or_else (a b : string) : string :=
  if nonempty a then a else b.

(** [x in l] for a list of strings *)
Definition mem (x : string) (l : list string) : bool :=
  existsb (String.eqb x) l.

End PyStr.

(** ** urllib.parse (CPython 3.11) *)

Module UrlLib.
Import PyStr.

Record ParseResult := mkParseResult {
  scheme : string; netloc : string; path : string;
  params : string; query : string; fragment : string }.

Definition uses_netloc : list string :=
  [""; "ftp"; "http"; "gopher"; "nntp"; "telnet"; "imap"; "wais"; "file";
   "mms"; "https"; "shttp"; "snews"; "prospero"; "rtsp"; "rtspu"; "rsync";
   "svn"; "svn+ssh"; "sftp"; "nfs"; "git"; "git+ssh"; "ws"; "wss"].

Definition uses_params : list string :=
  [""; "ftp"; "hdl"; "prospero"; "http"; "imap"; "https"; "shttp"; "rtsp";
   "rtspu"; "sip"; "sips"; "mms"; "sftp"; "tel"].

Definition is_scheme_char (c : ascii) : bool :=
  islower c || isupper c || isdigit c
  || eqc c "+" || eqc c "-" || eqc c ".".

(** _WHATWG_C0_CONTROL_OR_SPACE *)
Definition is_c0_control_or_space (c : ascii) : bool := (code c <=? 32)%N.

(** _UNSAFE_URL_BYTES_TO_REMOVE *)
Definition is_unsafe_url_byte (c : ascii) : bool :=
  eqc c "009" || eqc c "013" || eqc c "010".

(** the delimiters that end the network location *)
Definition is_netloc_delim (c : ascii) : bool :=
  eqc c "/" || eqc c "?" || eqc c "#".

Definition _splitnetloc (url : string) (start : nat) : string * string :=
  let rest := drop start url in
  (before is_netloc_delim rest, from is_netloc_delim rest).

Definition _splitparams (url : string) : string * string :=
  if contains "/" url then
    let tl := rfrom "/" url in
    if contains ";" tl
    then (rbefore "/" url +:+ before (eqc ";") tl, after (eqc ";") tl)
    else (url, "")
  else (before (eqc ";") url, after (eqc ";") url).

Section Checks.
(** [_check_bracketed_host] consults the ipaddress module and a regular
    expression, and [_checknetloc] consults the Unicode tables for a
    network location that is not ASCII; both are parameters here. *)
Variable _check_bracketed_host : string -> exc unit.
Variable _checknetloc_nfkc : string -> exc unit.

Definition _check_bracketed_netloc (netloc : string) : exc unit :=
  let hostname_and_port := rpartition_2 "@" netloc in
  if contains "[" hostname_and_port then
    let before_bracket := before (eqc "[") hostname_and_port in
    let bracketed := after (eqc "[") hostname_and_port in
    if nonempty before_bracket then Raise (ValueError InvalidIPv6URL)
    else
      let hostname := before (eqc "]") bracketed in
      let port := after (eqc "]") bracketed in
      if nonempty port && negb (startswith ":" port)
      then Raise (ValueError InvalidIPv6URL)
      else _check_bracketed_host hostname
  else _check_bracketed_host (before (eqc ":") hostname_and_port).

Definition _checknetloc (netloc : string) : exc unit :=
  if negb (nonempty netloc) || all isascii netloc then Ret tt
  else _checknetloc_nfkc netloc.

(** the scheme and what follows it, [url.find(':')] onwards *)
Definition split_scheme (url : string) : string * string :=
  if contains ":" url then
    let pre := before (eqc ":") url in
    match pre with
    | String c0 _ =>
        if isascii_alpha c0 && all is_scheme_char pre
        then (map lower_char pre, after (eqc ":") url)
        else ("", url)
    | EmptyString => ("", url)
    end
  else ("", url).

Definition check_brackets (netloc : string) : exc unit :=
  let o := contains "[" netloc in
  let c := contains "]" netloc in
  if (o && negb c) || (c && negb o) then Raise (ValueError InvalidIPv6URL)
  else if o && c then _check_bracketed_netloc netloc
  else Ret tt.

(** [urlsplit(url)], as the 5 components in a [ParseResult] with no
    params *)
Definition urlsplit (url : string) : exc ParseResult :=
  let url := lstrip is_c0_control_or_space url in
  let url := remove is_unsafe_url_byte url in
  let '(scheme, url) := split_scheme url in
  (let* (netloc, url) :=
      if String.eqb (take 2 url) "//" then
        let '(netloc, url) := _splitnetloc url 2 in
        (check_brackets netloc ;;; Ret (netloc, url))
      else Ret ("", url) in
    let '(url, fragment) :=
      if contains "#" url
      then (before (eqc "#") url, after (eqc "#") url) else (url, "") in
    let '(url, query) :=
      if contains "?" url
      then (before (eqc "?") url, after (eqc "?") url) else (url, "") in
    (_checknetloc netloc ;;;
     Ret (mkParseResult scheme netloc url "" query fragment)))%exc.

Definition urlparse (url : string) : exc ParseResult :=
  (let* r := urlsplit url in
   if mem (scheme r) uses_params && contains ";" (path r) then
     let '(url, params) := _splitparams (path r) in
     Ret (mkParseResult (scheme r) (netloc r) url params
                        (query r) (fragment r))
   else Ret r)%exc.
End Checks.

Definition urlunsplit (scheme netloc url query fragment : string) : string :=
  let url :=
    if nonempty netloc
       || (nonempty scheme && mem scheme uses_netloc
           && negb (String.eqb (take 2 url) "//"))
    then
      let url :=
        if nonempty url && negb (startswith "/" url)
        then "/" +:+ url else url in
      "//" +:+ netloc +:+ url
    else url in
  let url := if nonempty scheme then scheme +:+ ":" +:+ url else url in
  let url := if nonempty query then url +:+ "?" +:+ query else url in
  if nonempty fragment then url +:+ "#" +:+ fragment else url.

Definition urlunparse (r : ParseResult) : string :=
  let url :=
    if nonempty (params r) then path r +:+ ";" +:+ params r else path r in
  urlunsplit (scheme r) (netloc r) url (query r) (fragment r).

End UrlLib.

(** ** BeautifulSoup documents *)

Module Bs4.
Import PyStr.

(** An element with its name, the values of its [class] attribute, its
    other attributes, and its contents; or a run of character data.  A
    [NavigableString] of a document is a string that [.text] shows: the
    comments, declarations and processing instructions of the markup,
    which [.text] passes over, are no nodes of the document. *)
#[warnings="-register-all"]
Inductive node :=
  | Tag (name : string) (classes : list string)
        (attrs : gmap string string) (contents : list node)
  | NavigableString (s : string).

(** The filter of [find] and [find_all]: the name, [class_] and [attrs]. *)
Record strainer := mkStrainer {
  s_name : string;
  s_class : option string;
  s_attrs : list (string * string) }.

(** [tag.get(key)] *)
Definition get (n : node) (key : string) : option string :=
  match n with
  | Tag _ _ attrs _ => attrs !! key
  | NavigableString _ => None
  end.

(** A [class_] string matches one of the classes, or all of them joined
    by single spaces. *)
Definition matches_class (cls : string) (classes : list string) : bool :=
  mem cls classes
  || match classes with
     | [] => false
     | _ => String.eqb (join " " classes) cls
     end.

Definition matches (f : strainer) (n : node) : bool :=
  match n with
  | NavigableString _ => false
  | Tag name classes attrs _ =>
      String.eqb name (s_name f)
      && match s_class f with
         | Some cls => matches_class cls classes
         | None => true
         end
      && forallb (fun kv => match attrs !! kv.1 with
                            | Some v => String.eqb v kv.2
                            | None => false
                            end) (s_attrs f)
  end.

(** [tag.descendants]: everything below the tag, in document order *)
Fixpoint descendants (n : node) : list node :=
  match n with
  | NavigableString _ => []
  | Tag _ _ _ contents =>
      (fix go (l : list node) : list node :=
         match l with
         | [] => []
         | c :: l' => c :: descendants c ++ go l'
         end) contents
  end.

(** [tag.text] *)
Fixpoint text (n : node) : string :=
  match n with
  | NavigableString s => s
  | Tag _ _ _ contents =>
      (fix go (l : list node) : string :=
         match l with
         | [] => ""
         | c :: l' => text c +:+ go l'
         end) contents
  end.

Definition find_all (n : node) (f : strainer) : list node :=
  List.filter (matches f) (descendants n).

Definition find (n : node) (f : strainer) : option node :=
  head (find_all n f).

(** the document an empty markup gives *)
Definition empty_document : node := Tag "[document]" [] ∅ [].
End Bs4.

(** ** datetime *)

Module Datetime.
Record datetime := mkDatetime {
  year : Z; month : Z; day : Z; hour : Z; minute : Z; second : Z;
  microsecond : Z; utcoffset : option Z }.

Definition digit (n : Z) : ascii := ascii_of_N (48 + Z.to_N (n mod 10)).

(** two decimal digits, as [%m], [%d], [%H] and [%M] print *)
Definition pad2 (n : Z) : string :=
  String (digit (n / 10)) (String (digit n) "").

Definition decimal (n : Z) : string := NilZero.string_of_int (Z.to_int n).

Section Strftime.
(** [%Y] of a year below 1000 is printed by the C library, with or
    without leading zeros. *)
Variable small_year : Z -> string.

Definition fmt_Y (y : Z) : string :=
  if y <? 1000 then small_year y else decimal y.

(** [dt.strftime("%Y-%m-%d")] *)
Definition strftime_Ymd (dt : datetime) : string :=
  fmt_Y (year dt) +:+ "-" +:+ pad2 (month dt) +:+ "-" +:+ pad2 (day dt).

(** [dt.strftime("%H:%M")] *)
Definition strftime_HM (dt : datetime) : string :=
  pad2 (hour dt) +:+ ":" +:+ pad2 (minute dt).
End Strftime.
End Datetime.

(** ** int() *)

Module PyInt.
Import PyStr.

(** the digits of a literal, underscores allowed between two digits *)
Fixpoint digits (s : string) (acc : Z) (count : nat) (after_digit : bool)
  : option (Z * nat) :=
  match s with
  | EmptyString => if after_digit then Some (acc, count) else None
  | String c s' =>
      if isdigit c
      then digits s' (10 * acc + Z.of_N (code c - 48)) (S count) true
      else if eqc c "_" && after_digit then digits s' acc count false
      else None
  end.

(** sys.int_max_str_digits *)
Definition int_max_str_digits : nat := 4300.

Definition unsigned (s : string) : exc Z :=
  match digits s 0 0%nat false with
  | Some (v, count) =>
      if (int_max_str_digits <? count)%nat
      then Raise (ValueError InvalidLiteral) else Ret v
  | None => Raise (ValueError InvalidLiteral)
  end.

(** [int(s)] for a str *)
Definition int (s : string) : exc Z :=
  match strip isspace s with
  | String "-" s' => (let* v := unsigned s' in Ret (- v))%exc
  | String "+" s' => unsigned s'
  | s' => unsigned s'
  end.

(** [str(n)] *)
Definition str (n : Z) : string := NilZero.string_of_int (Z.to_int n).
End PyInt.

(** ** aiohttp responses *)

Record response := mkResponse {
  status : Z;
  body_text : exc string  (* [await resp.text()] *) }.

(** [resp.raise_for_status()] of aiohttp: ClientResponseError for a status
    of 400 or above, nothing for a status below 400 *)
Definition raise_for_status (resp : response) : exc unit :=
  if 400 <=? status resp then Raise (ClientResponseError (status resp))
  else Ret tt.

(** ** Requests *)

(** A computation that issues HTTP requests: it receives the URLs requested
    so far and returns its outcome with the URLs requested by its end. *)
Definition io (A : Type) : Type := list string -> exc A * list string.

Definition io_ret {A} (a : A) : io A := fun log => (Ret a, log).

Definition io_bind {A B} (m : io A) (k : A -> io B) : io B :=
  fun log =>
    match m log with
    | (Ret a, log') => k a log'
    | (Raise e, log') => (Raise e, log')
    end.

Definition io_lift {A} (m : exc A) : io A := fun log => (m, log).

Definition io_try {A} (body : io A) (handler : exn -> io A) : io A :=
  fun log =>
    match body log with
    | (Ret a, log') => (Ret a, log')
    | (Raise e, log') => handler e log'
    end.

Declare Scope io_scope.
Delimit Scope io_scope with io.
Notation "'do*' x := m 'in' k" := (io_bind m (fun x => k))
  (at level 10, x pattern, m at level 100, k at level 200) : io_scope.

(** the outcome of a computation started with no request issued, and the
    requests it issued *)
Definition outcome {A} (m : io A) : exc A := fst (m []).
Definition requests {A} (m : io A) : list string := snd (m []).

(** ** os.path, on POSIX *)

Module OsPath.
Import PyStr.

(** [posixpath.join(a, b)] *)
Definition join (a b : string) : string :=
  if startswith "/" b then b
  else if negb (nonempty a) || endswith "/" a then a +:+ b
  else a +:+ "/" +:+ b.
End OsPath.

(** ** The program *)

Module Habr.

Definition BASE_URL : string := "https://habr.com".

(** the "unavailable" value of a field *)
Definition NA : string := "N/A".

Definition nbsp : ascii := ascii_of_N 160.

Definition format_number (text : string) : string :=
  if negb (PyStr.nonempty text) then NA
  else PyStr.map (fun c => if PyStr.eqc c nbsp then " "%char else c)
                 (PyStr.strip PyStr.isspace text).

(** *** Record extractor *)

Section Extractor.
Import PyStr Bs4 Datetime.

(** [BeautifulSoup(html, "html.parser")]: the document, or the exception
    with which the parser rejects the markup *)
Variable BeautifulSoup : string -> exc node.
(** [datetime.fromisoformat] *)
Variable fromisoformat : string -> exc datetime.
Variable small_year : Z -> string.

(** [iso.replace("Z", "+00:00")] *)
Fixpoint replace_Z (iso : string) : string :=
  match iso with
  | EmptyString => EmptyString
  | String c s' =>
      if eqc c "Z" then "+00:00" +:+ replace_Z s' else String c (replace_Z s')
  end.

(** [l[1]] *)
Definition item_1 (l : list string) : exc string :=
  match l !! 1%nat with
  | Some x => Ret x
  | None => Raise IndexError
  end.

(** The date and the time of a non-empty [datetime] attribute: the body of
    [if time_element and time_element.get("datetime")] in
    parse_article_block. *)
Definition parse_datetime_attribute (attribute : string)
  : exc (string * string) :=
  let iso := strip isspace attribute in
  try_except
    (let* dt := fromisoformat (replace_Z iso) in
     Ret (strftime_Ymd small_year dt, strftime_HM dt))%exc
    (fun _ =>
       let date_str := take 10 iso in
       (let* time_str :=
          try_except
            (let* part := item_1 (split "T" iso) in Ret (take 5 part))
            (fun _ => Ret NA) in
        Ret (date_str, time_str))%exc).

(** The returned dict is a finite map from the field names to strings. *)
Definition parse_article_block (article_block : node)
  : exc (gmap string string) :=
  let title_element :=
    find article_block
         (mkStrainer "h2" (Some "tm-title tm-title_h2")
                     [("data-test-id", "articleTitle")]) in
  let link_element :=
    find article_block
         (mkStrainer "a" (Some "tm-title__link")
                     [("data-article-link", "true");
                      ("data-test-id", "article-snippet-title-link")]) in
  let title :=
    match title_element with
    | Some te =>
        match find te (mkStrainer "span" None []) with
        | Some sp => strip isspace (text sp)
        | None => NA
        end
    | None => NA
    end in
  let url :=
    match link_element with
    | Some le =>
        match get le "href" with
        | Some href => if nonempty href then BASE_URL +:+ href else NA
        | None => NA
        end
    | None => NA
    end in
  let author_element :=
    find article_block
         (mkStrainer "span" (Some "tm-user-info__user")
                     [("data-test-id", "user-info-description")]) in
  let author_name :=
    match author_element with
    | Some ae =>
        match find ae (mkStrainer "a" (Some "tm-user-info__username") []) with
        | Some a_user => strip isspace (text a_user)
        | None => NA
        end
    | None => NA
    end in
  let time_element := find article_block (mkStrainer "time" None []) in
  (let* (date_str, time_str) :=
    match time_element with
    | Some te =>
        match get te "datetime" with
        | Some attribute =>
            if nonempty attribute then parse_datetime_attribute attribute
            else Ret (NA, NA)
        | None => Ret (NA, NA)
        end
    | None => Ret (NA, NA)
    end in
  let views_parent_span :=
    find article_block
         (mkStrainer "span" (Some "tm-icon-counter tm-data-icons__item") []) in
  let views_value :=
    match views_parent_span with
    | Some vp =>
        match find vp (mkStrainer "span" (Some "tm-icon-counter__value") []) with
        | Some vv =>
            format_number (or_else (default "" (get vv "title")) (text vv))
        | None => NA
        end
    | None => NA
    end in
  let votes_element :=
    find article_block
         (mkStrainer "div" (Some "tm-votes-meter tm-data-icons__item") []) in
  let votes_value :=
    match votes_element with
    | Some ve =>
        match find ve (mkStrainer "span" (Some "tm-votes-meter__value")
                                  [("data-test-id", "votes-meter-value")]) with
        | Some vm => if nonempty (text vm) then strip isspace (text vm) else NA
        | None => NA
        end
    | None => NA
    end in
  let comments_wrapper :=
    find article_block
         (mkStrainer "div"
            (Some "article-comments-counter-link-wrapper tm-data-icons__item")
            []) in
  let comments_value :=
    match comments_wrapper with
    | Some cw =>
        match find cw (mkStrainer "span" (Some "value") []) with
        | Some span_val =>
            if nonempty (text span_val) then strip isspace (text span_val)
            else NA
        | None => NA
        end
    | None => NA
    end in
  let bookmarks_button :=
    find article_block
         (mkStrainer "button" (Some "bookmarks-button tm-data-icons__item") []) in
  let bookmarks_value :=
    match bookmarks_button with
    | Some bb =>
        match find bb (mkStrainer "span" (Some "bookmarks-button__counter") []) with
        | Some counter_span =>
            let text_val :=
              if nonempty (text counter_span)
              then strip isspace (text counter_span) else "" in
            let title_val :=
              strip isspace (default "" (get counter_span "title")) in
            format_number (or_else text_val title_val)
        | None => NA
        end
    | None => NA
    end in
  Ret (list_to_map
         [("url", url); ("title", title); ("author", author_name);
          ("date", date_str); ("time", time_str); ("votes", votes_value);
          ("comments", comments_value); ("bookmarks", bookmarks_value);
          ("views", views_value)]))%exc.

(** The loop of [parse_articles_list], for any block parser: a block
    whose parse raises is skipped. *)
Fixpoint collect_articles (parse_block : node -> exc (gmap string string))
    (article_blocks : list node) (results : list (gmap string string))
  : exc (list (gmap string string)) :=
  match article_blocks with
  | [] => Ret results
  | block :: rest =>
      (let* results :=
         try_except
           (let* row := parse_block block in Ret (results ++ [row]))
           (fun _ => Ret results) in
       collect_articles parse_block rest results)%exc
  end.

(** [soup.find_all("article", class_="tm-articles-list__item")] *)
Definition article_blocks_of (soup : node) : list node :=
  find_all soup (mkStrainer "article" (Some "tm-articles-list__item") []).

(** The parser is called outside the [try] of the loop: its exception
    leaves the function. *)
Definition parse_articles_list_with
    (parse_block : node -> exc (gmap string string)) (html : string)
  : exc (list (gmap string string)) :=
  (let* soup := BeautifulSoup html in
   collect_articles parse_block (article_blocks_of soup) [])%exc.

Definition parse_articles_list (html : string)
  : exc (list (gmap string string)) :=
  parse_articles_list_with parse_article_block html.

(** *** Pagination detector *)

(** The [try] holds the conversion of the text only: an exception of the
    parser leaves the function. *)
Definition parse_pagination_last_page (html : string) : exc Z :=
  (let* soup := BeautifulSoup html in
   match find soup (mkStrainer "div" (Some "tm-pagination")
                               [("data-test-id", "pagination")]) with
   | None => Ret 1
   | Some pagination_block =>
       match last (find_all pagination_block
                            (mkStrainer "a" (Some "tm-pagination__page") [])) with
       | None => Ret 1
       | Some last_link =>
           try_except (PyInt.int (strip isspace (text last_link)))
                      (fun _ => Ret 1)
       end
   end)%exc.

End Extractor.

(** *** URL normalizer *)

Section Normalizer.
Import PyStr UrlLib.

Variable _check_bracketed_host : string -> exc unit.
Variable _checknetloc_nfkc : string -> exc unit.

Definition normalize_company_articles_url (raw_url : string) : exc string :=
  if negb (nonempty raw_url) then Raise (ValueError LinkMissing)
  else
    (let* parsed := urlparse _check_bracketed_host _checknetloc_nfkc
                             (strip isspace raw_url) in
     let scheme := or_else (scheme parsed) "https" in
     let netloc := or_else (netloc parsed) "habr.com" in
     let path := or_else (path parsed) "/" in
     let path :=
       "/" +:+ join "/" (List.filter (fun p => nonempty p) (split "/" path)) in
     let parts := split "/" (strip (eqc "/") path) in
     let path :=
       if (3 <=? length parts)%nat
          && match parts !! 1%nat with
             | Some p => String.eqb p "companies"
             | None => false
             end
       then
         if negb (mem "articles" parts)
         then "/" +:+ join "/" (List.firstn 3 parts ++ ["articles"]) +:+ "/"
         else if negb (endswith "/" path) then path +:+ "/" else path
       else
         if negb (endswith "/" path) then path +:+ "/" else path in
     Ret (urlunparse (mkParseResult scheme netloc path "" "" "")))%exc.

End Normalizer.

(** *** The report

    [render_html_table], which the entry point calls on the rows of the
    scrape and the normalized address.  The template of a table row is
    written out; the fixed texts of the page around it are variables. *)

Module Renderer.
Import PyStr.

Definition dq : string := String (ascii_of_N 34) "".
Definition nl : string := String (ascii_of_N 10) "".

(** [r[key]] of a dict with string keys *)
Definition getitem (r : gmap string string) (key : string) : exc string :=
  match r !! key with
  | Some v => Ret v
  | None => Raise (OtherException "KeyError")
  end.

(** the table row of a record: the fields are looked up in the order of
    the template and put into it as they are *)
Definition table_row (r : gmap string string) : exc string :=
  (let* url := getitem r "url" in
   let* url1 := getitem r "url" in
   let* title := getitem r "title" in
   let* author := getitem r "author" in
   let* date := getitem r "date" in
   let* time := getitem r "time" in
   let* votes := getitem r "votes" in
   let* comments := getitem r "comments" in
   let* bookmarks := getitem r "bookmarks" in
   let* views := getitem r "views" in
   Ret (nl +:+
        "            <tr class=" +:+ dq
          +:+ "hover:bg-gray-50 dark:hover:bg-gray-800" +:+ dq +:+ ">"
        +:+ nl +:+
        "                <td class=" +:+ dq +:+ "py-3 px-4" +:+ dq
          +:+ "><a class=" +:+ dq
          +:+ "text-primary-DEFAULT hover:text-primary-hover" +:+ dq
          +:+ " href=" +:+ dq +:+ url +:+ dq +:+ " target=" +:+ dq
          +:+ "_blank" +:+ dq +:+ " rel=" +:+ dq +:+ "noopener noreferrer"
          +:+ dq +:+ ">" +:+ url1 +:+ "</a></td>"
        +:+ nl +:+
        "                <td class=" +:+ dq
          +:+ "py-3 px-4 text-text-light dark:text-text-dark" +:+ dq +:+ ">"
          +:+ title +:+ "</td>"
        +:+ nl +:+
        "                <td class=" +:+ dq +:+ "py-3 px-4" +:+ dq +:+ ">"
          +:+ author +:+ "</td>"
        +:+ nl +:+
        "                <td class=" +:+ dq +:+ "py-3 px-4" +:+ dq +:+ ">"
          +:+ date +:+ "</td>"
        +:+ nl +:+
        "                <td class=" +:+ dq +:+ "py-3 px-4" +:+ dq +:+ ">"
          +:+ time +:+ "</td>"
        +:+ nl +:+
        "                <td class=" +:+ dq +:+ "py-3 px-4 numeric" +:+ dq
          +:+ ">" +:+ votes +:+ "</td>"
        +:+ nl +:+
        "                <td class=" +:+ dq +:+ "py-3 px-4 numeric" +:+ dq
          +:+ ">" +:+ comments +:+ "</td>"
        +:+ nl +:+
        "                <td class=" +:+ dq +:+ "py-3 px-4 numeric" +:+ dq
          +:+ ">" +:+ bookmarks +:+ "</td>"
        +:+ nl +:+
        "                <td class=" +:+ dq +:+ "py-3 px-4 numeric" +:+ dq
          +:+ ">" +:+ views +:+ "</td>"
        +:+ nl +:+
        "            </tr>"))%exc.

(** the loop over [rows] *)
Fixpoint table_rows (rows : list (gmap string string)) : exc (list string) :=
  match rows with
  | [] => Ret []
  | r :: rest =>
      (let* row := table_row r in
       let* more := table_rows rest in
       Ret (row :: more))%exc
  end.

(** the text of the page between the two occurrences of the source
    address *)
Definition page_link : string :=
  dq +:+ " target=" +:+ dq +:+ "_blank" +:+ dq +:+ " rel=" +:+ dq
  +:+ "noopener noreferrer" +:+ dq +:+ ">".

Section Page.
(** [datetime.now().strftime("%Y-%m-%d %H:%M:%S")] *)
Variable generated_at : string.

(** The fixed texts of the page between the places that are filled in;
    they hold the style sheet, the script and captions outside Latin-1,
    and are not written out. *)
Variable page_open : string.
Variable page_source : string.
Variable page_table : string.
Variable page_total : string.
Variable page_close : string.

Definition render_html_table (rows : list (gmap string string))
    (source_url : string) : exc string :=
  (let* built := table_rows rows in
   let rows_html := join nl built in
   Ret (page_open +:+ generated_at +:+ page_source +:+ source_url
        +:+ page_link +:+ source_url +:+ page_table +:+ rows_html
        +:+ page_total +:+ PyInt.str (Z.of_nat (length rows))
        +:+ page_close))%exc.
End Page.
End Renderer.

(** *** Page fetcher *)

Section Scraper.
Import PyStr Bs4.

(** [session.get(url, timeout=...)]: the response of the site, or the
    exception of a connection failure or a timeout *)
Variable session_get : string -> exc response.
Variable BeautifulSoup : string -> exc node.
Variable fromisoformat : string -> exc Datetime.datetime.
Variable small_year : Z -> string.

(** one outbound request, recorded *)
Definition request (url : string) : io response :=
  fun log => (session_get url, log ++ [url]).

(** The message printed in the handler is not modelled. *)
Definition fetch_html (url : string) : io (option string) :=
  io_try
    (do* resp := request url in
     do* _ := io_lift (raise_for_status resp) in
     do* html := io_lift (body_text resp) in
     io_ret (Some html))%io
    (fun _ => io_ret None).

(** *** asyncio.gather

    [sched] lists the indices of the tasks in the order they complete;
    an index out of range or met before is passed over, and the tasks it
    leaves out complete last, in task order.  Each result is stored
    under the index of its task. *)
Fixpoint run_in_order {A} (tasks : list (io A)) (sched : list nat)
    (slots : list (option A)) : io (list (option A)) :=
  match sched with
  | [] => io_ret slots
  | i :: sched' =>
      match tasks !! i, slots !! i with
      | Some task, Some None =>
          (do* a := task in
           run_in_order tasks sched' (<[i := Some a]> slots))%io
      | _, _ => run_in_order tasks sched' slots
      end
  end.

Definition gather {A} (tasks : list (io A)) (sched : list nat)
  : io (list A) :=
  let n := length tasks in
  (do* slots := run_in_order tasks (sched ++ seq 0 n) (replicate n None) in
   io_ret (omap id slots))%io.

(** *** Scrape orchestrator *)

Definition page_url (articles_url : string) (page_num : Z) : string :=
  articles_url +:+ "page" +:+ PyInt.str page_num +:+ "/".

(** [range(2, last_page + 1)] *)
Definition range_from_2 (last_page : Z) : list Z :=
  List.map (fun k => 2 + Z.of_nat k) (seq 0 (Z.to_nat (last_page - 1))).

(** the loop over [pages_html] *)
Fixpoint extend_rows (pages_html : list (option string))
    (rows : list (gmap string string)) : exc (list (gmap string string)) :=
  match pages_html with
  | [] => Ret rows
  | html :: rest =>
      match html with
      | Some h =>
          if nonempty h then
            (let* more := parse_articles_list BeautifulSoup fromisoformat
                                              small_year h in
             extend_rows rest (rows ++ more))%exc
          else extend_rows rest rows
      | None => extend_rows rest rows
      end
  end.

(** The session, with its header and its timeout, stands behind
    [session_get]; the pause after each page is not modelled. *)
Definition scrape_company_articles (articles_url : string)
    (sched : list nat) : io (list (gmap string string)) :=
  (do* first_page_html := fetch_html articles_url in
   match first_page_html with
   | Some html =>
       if nonempty html then
         do* last_page :=
           io_lift (parse_pagination_last_page BeautifulSoup html) in
         do* rows :=
           io_lift (parse_articles_list BeautifulSoup fromisoformat
                                        small_year html) in
         if 1 <? last_page then
           let tasks :=
             List.map (fun page_num => fetch_html (page_url articles_url page_num))
                      (range_from_2 last_page) in
           do* pages_html := gather tasks sched in
           io_lift (extend_rows pages_html rows)
         else io_ret rows
       else io_ret []
   | None => io_ret []
   end)%io.

(** *** Entry point: normalize, scrape, render, write *)

Variable _check_bracketed_host : string -> exc unit.
Variable _checknetloc_nfkc : string -> exc unit.

(** the clock and the fixed texts of the page, as for the renderer *)
Variable generated_at : string.
Variable page_open page_source page_table page_total page_close : string.

(** [os.path.dirname(os.path.abspath(__file__))] *)
Variable script_dir : string.

(** [with open(path, "w", encoding="utf-8") as f: f.write(html)]: done,
    or the exception of the file system *)
Variable write_text : string -> string -> exc unit.

(** A run with the arguments [--link] and [--output], after parse_args.
    The function itself returns nothing; the value here is the file the
    run has written, its path and its text, or [None] when the link is
    refused and the run ends after the message.  Nothing catches the
    exceptions of the scrape, of the renderer and of the write. *)
Definition main_async (link output : string) (sched : list nat)
  : io (option (string * string)) :=
  match normalize_company_articles_url
          _check_bracketed_host _checknetloc_nfkc link with
  | Raise _ => io_ret None
  | Ret articles_url =>
      (do* rows := scrape_company_articles articles_url sched in
       do* html :=
         io_lift (Renderer.render_html_table
                    generated_at page_open page_source page_table
                    page_total page_close rows articles_url) in
       let out_path := OsPath.join script_dir output in
       do* _ := io_lift (write_text out_path html) in
       io_ret (Some (out_path, html)))%io
  end.

End Scraper.

End Habr.

Import Habr.

(** ** Canonical listing addresses *)

Module Canon.
Import PyStr UrlLib.

(** every segment followed by a separator *)
Fixpoint slashed (segs : list string) : string :=
  match segs with
  | [] => ""
  | s :: rest => s +:+ "/" +:+ slashed rest
  end.

(** the path of the segments, with leading and trailing separator *)
Definition canon_path (segs : list string) : string := "/" +:+ slashed segs.

(** scheme, host and path, and nothing after the path *)
Definition listing_address (sc nl : string) (segs : list string) : string :=
  sc +:+ "://" +:+ nl +:+ canon_path segs.

(** the non-empty segments of a path *)
Definition segments (path : string) : list string :=
  List.filter (fun p => nonempty p) (split "/" path).

(** a company profile: a first segment, then "companies", then a slug *)
Definition is_profile (parts : list string) : bool :=
  (3 <=? length parts)%nat
  && match parts !! 1%nat with
     | Some p => String.eqb p "companies"
     | None => false
     end.

(** the segments of the normalized path *)
Definition final_segments (segs : list string) : list string :=
  if is_profile segs && negb (mem "articles" segs)
  then List.firstn 3 segs ++ ["articles"] else segs.

(** the characters of a path: no separator of a query or a fragment and
    none of the characters urlsplit deletes *)
Definition path_char (c : ascii) : bool :=
  negb (eqc c "?") && negb (eqc c "#") && negb (is_unsafe_url_byte c).

Definition host_char (c : ascii) : bool :=
  negb (is_netloc_delim c) && negb (is_unsafe_url_byte c).

(** not one of the characters urlsplit deletes *)
Definition safe (c : ascii) : bool := negb (is_unsafe_url_byte c).

(** neither the separator of a query nor that of a fragment *)
Definition plain_char (c : ascii) : bool :=
  negb (eqc c "?") && negb (eqc c "#").

(** the address built from the parts of a parsed link *)
Definition address_of (parsed : ParseResult) : string :=
  listing_address (or_else (scheme parsed) "https")
                  (or_else (netloc parsed) "habr.com")
                  (final_segments (segments (or_else (path parsed) "/"))).

Definition good_segment (s : string) : bool :=
  nonempty s && all path_char s && negb (contains "/" s).

Definition good_scheme (sc : string) : bool :=
  match sc with
  | String c0 _ =>
      isascii_alpha c0 && all is_scheme_char sc
      && String.eqb (map lower_char sc) sc
  | EmptyString => false
  end.

Section Netloc.
Variable _check_bracketed_host : string -> exc unit.
Variable _checknetloc_nfkc : string -> exc unit.

(** a network location urlsplit reads back and accepts *)
Definition good_netloc (nl : string) : Prop :=
  nonempty nl = true /\ all host_char nl = true
  /\ check_brackets _check_bracketed_host nl = Ret tt
  /\ _checknetloc _checknetloc_nfkc nl = Ret tt.

(** an absolute address of scheme, host and separator-ended path *)
Definition canonical (url : string) : Prop :=
  exists sc nl segs,
    url = listing_address sc nl segs
    /\ good_scheme sc = true /\ good_netloc nl
    /\ Forall (fun s => good_segment s = true) segs.
End Netloc.
End Canon.

(** ** Vocabulary of the statements *)

Module Spec.
Import PyStr Bs4.

(** the nine fields of an article record *)
Definition FIELDS : list string :=
  ["url"; "title"; "author"; "date"; "time"; "votes"; "comments";
   "bookmarks"; "views"].

(** every field is present *)
Definition complete (row : gmap string string) : Prop :=
  dom row = list_to_set FIELDS /\ Forall (fun k => is_Some (row !! k)) FIELDS.

(** the record has each of the nine fields, and perhaps others *)
Definition has_fields (r : gmap string string) : Prop :=
  Forall (fun k => is_Some (r !! k)) FIELDS.

(** the time taken from a timestamp that does not parse: the first five
    characters after the first "T", up to the next "T" *)
Definition fallback_time (iso : string) : string :=
  match split "T" iso with
  | _ :: part :: _ => take 5 part
  | _ => NA
  end.

(** the row of a block whose parse returns *)
Definition row_of (r : exc (gmap string string)) : option (gmap string string) :=
  match r with
  | Ret row => Some row
  | Raise _ => None
  end.

Definition filled {A} (slots : list (option A)) (i : nat) : Prop :=
  slots !! i <> Some None.

Section Pages.
Variable session_get : string -> exc response.
Variable BeautifulSoup : string -> exc node.
Variable fromisoformat : string -> exc Datetime.datetime.
Variable small_year : Z -> string.

(** what a fetch of [url] gives: the markup, or [None] for a failure *)
Definition fetched (url : string) : option string :=
  match session_get url with
  | Ret resp =>
      if 400 <=? status resp then None
      else match body_text resp with
           | Ret html => Some html
           | Raise _ => None
           end
  | Raise _ => None
  end.

(** the records extracted from a markup, none when the extraction raises *)
Definition records (html : string) : list (gmap string string) :=
  match parse_articles_list BeautifulSoup fromisoformat small_year html with
  | Ret rows => rows
  | Raise _ => []
  end.

(** the address of page [k] of a listing *)
Definition page_address (articles_url : string) (k : Z) : string :=
  if k =? 1 then articles_url else page_url articles_url k.

(** what page [k] contributes: its records, nothing when its fetch fails
    or gives an empty body *)
Definition page_records (articles_url : string) (k : Z)
  : list (gmap string string) :=
  match fetched (page_address articles_url k) with
  | Some html => if nonempty html then records html else []
  | None => []
  end.

(** the parser accepts the body of page [k], where there is one *)
Definition page_accepted (articles_url : string) (k : Z) : Prop :=
  forall html,
    fetched (page_address articles_url k) = Some html -> html <> "" ->
    exists soup, BeautifulSoup html = Ret soup.

(** the page numbers 1, 2, ..., last_page *)
Definition page_numbers (last_page : Z) : list Z :=
  1 :: range_from_2 last_page.

(** a slot of gather is empty or holds the result of its own task *)
Definition slots_ok (urls : list string)
    (slots : list (option (option string))) : Prop :=
  Forall2 (fun u s => s = None \/ s = Some (fetched u)) urls slots.
End Pages.
End Spec.

(** ** Sample data *)

Module Sample.
Import PyStr Bs4 Datetime.

(** A parser of the timestamps [YYYY-MM-DD[*HH[:MM[:SS[.fff[fff]]]][+HH:MM]]],
    the format documented for datetime.fromisoformat; it stands for the
    library parser in the examples. *)
Definition two_digits (s : string) : option (Z * string) :=
  match s with
  | String a (String b rest) =>
      if isdigit a && isdigit b
      then Some (Z.of_N (code a - 48) * 10 + Z.of_N (code b - 48), rest)
      else None
  | _ => None
  end.

Definition is_leap (y : Z) : bool :=
  ((y mod 4 =? 0) && negb (y mod 100 =? 0)) || (y mod 400 =? 0).

Definition days_in_month (y m : Z) : Z :=
  if m =? 2 then (if is_leap y then 29 else 28)
  else if (m =? 4) || (m =? 6) || (m =? 9) || (m =? 11) then 30 else 31.

Definition parse_date (s : string) : option (Z * Z * Z * string) :=
  match two_digits s with
  | Some (c, s1) =>
      match two_digits s1 with
      | Some (y, String "-" s2) =>
          match two_digits s2 with
          | Some (m, String "-" s3) =>
              match two_digits s3 with
              | Some (d, rest) =>
                  let y := c * 100 + y in
                  if (1 <=? y) && (1 <=? m) && (m <=? 12) && (1 <=? d)
                     && (d <=? days_in_month y m)
                  then Some (y, m, d, rest) else None
              | None => None
              end
          | _ => None
          end
      | _ => None
      end
  | None => None
  end.

(** [+HH:MM] or [-HH:MM], in seconds *)
Definition parse_offset (s : string) : option (option Z) :=
  match s with
  | EmptyString => Some None
  | String sign s1 =>
      if eqc sign "+" || eqc sign "-" then
        match two_digits s1 with
        | Some (h, String ":" s2) =>
            match two_digits s2 with
            | Some (mi, EmptyString) =>
                if (h <? 24) && (mi <? 60)
                then Some (Some ((if eqc sign "-" then -1 else 1)
                                 * (h * 3600 + mi * 60)))
                else None
            | _ => None
            end
        | _ => None
        end
      else None
  end.

(** [.fff] or [.ffffff], in microseconds *)
Definition parse_fraction (s : string) : option Z :=
  if all isdigit s then
    match PyInt.digits s 0 0%nat false with
    | Some (v, 3%nat) => Some (v * 1000)
    | Some (v, 6%nat) => Some v
    | _ => None
    end
  else None.

Definition is_sign (c : ascii) : bool := eqc c "+" || eqc c "-".

(** [HH[:MM[:SS[.fff[fff]]]]] *)
Definition parse_clock (s : string) : option (Z * Z * Z * Z) :=
  match two_digits s with
  | Some (h, EmptyString) => if h <? 24 then Some (h, 0, 0, 0) else None
  | Some (h, String ":" s1) =>
      match two_digits s1 with
      | Some (mi, EmptyString) =>
          if (h <? 24) && (mi <? 60) then Some (h, mi, 0, 0) else None
      | Some (mi, String ":" s2) =>
          match two_digits s2 with
          | Some (sec, EmptyString) =>
              if (h <? 24) && (mi <? 60) && (sec <? 60)
              then Some (h, mi, sec, 0) else None
          | Some (sec, String "." s3) =>
              match parse_fraction s3 with
              | Some us =>
                  if (h <? 24) && (mi <? 60) && (sec <? 60)
                  then Some (h, mi, sec, us) else None
              | None => None
              end
          | _ => None
          end
      | _ => None
      end
  | _ => None
  end.

Definition fromisoformat (s : string) : exc datetime :=
  match parse_date s with
  | Some (y, m, d, EmptyString) => Ret (mkDatetime y m d 0 0 0 0 None)
  | Some (y, m, d, String _ t) =>
      match parse_clock (before is_sign t), parse_offset (from is_sign t) with
      | Some (h, mi, sec, us), Some off => Ret (mkDatetime y m d h mi sec us off)
      | _, _ => Raise (ValueError InvalidLiteral)
      end
  | None => Raise (ValueError InvalidLiteral)
  end.

(** [%Y] of a year below 1000 as glibc prints it, without leading zeros *)
Definition small_year (y : Z) : string := decimal y.

Definition host_ok (_ : string) : exc unit := Ret tt.

(** *** A listing of three pages, the second of which times out *)

Definition listing : string := "https://habr.com/ru/companies/acme/articles/".

Definition page1_html : string :=
  "<div class='tm-pagination' data-test-id='pagination'><a class='tm-pagination__page'>1</a><a class='tm-pagination__page'>3</a></div><article class='tm-articles-list__item'><time datetime='2024-03-05T14:30:00Z'></time></article>".

Definition page3_html : string :=
  "<article class='tm-articles-list__item'><time datetime='not-a-date'></time></article><article class='tm-articles-list__item'></article>".

Definition no_links_html : string :=
  "<div class='tm-pagination' data-test-id='pagination'></div>".

Definition bad_link_html : string :=
  "<div class='tm-pagination' data-test-id='pagination'><a class='tm-pagination__page'>next</a></div>".

Definition article (contents : list node) : node :=
  Tag "article" ["tm-articles-list__item"] ∅ contents.

Definition time_tag (attribute : string) : node :=
  Tag "time" [] {["datetime" := attribute]} [].

Definition pagination (links : list string) : node :=
  Tag "div" ["tm-pagination"] {["data-test-id" := "pagination"]}
      (List.map (fun label => Tag "a" ["tm-pagination__page"] ∅
                                  [NavigableString label]) links).

Definition document (contents : list node) : node :=
  Tag "[document]" [] ∅ contents.

(** a marked section with a keyword that html.parser does not know: the
    parser gives up on it, and BeautifulSoup raises
    ParserRejectedMarkup *)
Definition rejected_html : string := "<![foo bar]>".

(** the documents the HTML parser builds from these markups *)
Definition BeautifulSoup (html : string) : exc node :=
  if String.eqb html rejected_html
  then Raise (OtherException "ParserRejectedMarkup")
  else if String.eqb html page1_html
  then Ret (document [pagination ["1"; "3"];
                      article [time_tag "2024-03-05T14:30:00Z"]])
  else if String.eqb html page3_html
  then Ret (document [article [time_tag "not-a-date"]; article []])
  else if String.eqb html no_links_html then Ret (document [pagination []])
  else if String.eqb html bad_link_html
  then Ret (document [pagination ["next"]])
  else Ret empty_document.

Definition session_get (url : string) : exc response :=
  if String.eqb url listing then Ret (mkResponse 200 (Ret page1_html))
  else if String.eqb url (listing +:+ "page2/") then Raise TimeoutError
  else if String.eqb url (listing +:+ "page3/")
  then Ret (mkResponse 200 (Ret page3_html))
  else Ret (mkResponse 404 (Ret "")).

(** a site that is down *)
Definition site_down (url : string) : exc response :=
  Raise ClientConnectionError.

(** a site that answers with the markup the parser rejects *)
Definition broken_site (url : string) : exc response :=
  Ret (mkResponse 200 (Ret rejected_html)).

(** the listing again, its third page being that markup *)
Definition broken_page3 (url : string) : exc response :=
  if String.eqb url (listing +:+ "page3/")
  then Ret (mkResponse 200 (Ret rejected_html))
  else session_get url.

(** a file system that takes every file, and one that takes none *)
Definition disk_ok (path text : string) : exc unit := Ret tt.
Definition disk_full (path text : string) : exc unit :=
  Raise (OtherException "OSError").

(** a site that answers 300 Multiple Choices *)
Definition choices_html : string := "<p>choose</p>".
Definition multiple_choices (url : string) : exc response :=
  Ret (mkResponse 300 (Ret choices_html)).

(** a block parser that raises on an article without contents *)
Definition fragile_parser (block : node) : exc (gmap string string) :=
  match block with
  | Tag _ _ _ [] => Raise (OtherException "empty article")
  | _ => Ret ∅
  end.
End Sample.

(** ** Links as they are typed *)

Module Links.
Import PyStr UrlLib.

(** a visible ASCII character *)
Definition printable (c : ascii) : bool := ((33 <=? code c) && (code c <=? 126))%N.

(** a character of a typed path: visible ASCII, and none of the characters
    that end a path or start a scheme *)
Definition link_char (c : ascii) : bool :=
  printable c && negb (eqc c "?") && negb (eqc c "#") && negb (eqc c ";")
  && negb (eqc c ":").

(** a character of a path segment *)
Definition name_char (c : ascii) : bool := link_char c && negb (eqc c "/").

(** a non-empty path segment *)
Definition name (s : string) : bool := nonempty s && all name_char s.

(** a path that is empty or starts at the root *)
Definition rooted (p : string) : bool :=
  match p with
  | EmptyString => true
  | String c _ => eqc c "/"
  end.

(** nothing, or a query, a fragment or both *)
Definition trailer (t : string) : bool :=
  match t with
  | EmptyString => true
  | String c _ => (eqc c "?" || eqc c "#") && all printable t
  end.

(** a scheme as urlsplit accepts it, in any case *)
Definition scheme_like (sc : string) : bool :=
  match sc with
  | String c0 _ => isascii_alpha c0 && all is_scheme_char sc
  | EmptyString => false
  end.

(** a host typed in visible ASCII that urlsplit accepts *)
Definition typed_host (_check_bracketed_host : string -> exc unit)
    (nl : string) : Prop :=
  nonempty nl = true /\ all printable nl = true
  /\ all (fun c => negb (is_netloc_delim c)) nl = true
  /\ check_brackets _check_bracketed_host nl = Ret tt.
End Links.

(** ** The searches of the record extractor *)

Module Fields.
Import PyStr Bs4.

(** the element of an article container that a field is read from *)
Definition field_search (k : string) : strainer :=
  if String.eqb k "url" then
    mkStrainer "a" (Some "tm-title__link")
               [("data-article-link", "true");
                ("data-test-id", "article-snippet-title-link")]
  else if String.eqb k "title" then
    mkStrainer "h2" (Some "tm-title tm-title_h2")
               [("data-test-id", "articleTitle")]
  else if String.eqb k "author" then
    mkStrainer "span" (Some "tm-user-info__user")
               [("data-test-id", "user-info-description")]
  else if String.eqb k "votes" then
    mkStrainer "div" (Some "tm-votes-meter tm-data-icons__item") []
  else if String.eqb k "comments" then
    mkStrainer "div"
      (Some "article-comments-counter-link-wrapper tm-data-icons__item") []
  else if String.eqb k "bookmarks" then
    mkStrainer "button" (Some "bookmarks-button tm-data-icons__item") []
  else if String.eqb k "views" then
    mkStrainer "span" (Some "tm-icon-counter tm-data-icons__item") []
  else mkStrainer "time" None [].

(** the fields read from the text of an element or from format_number *)
Definition TEXT_FIELDS : list string :=
  ["title"; "author"; "votes"; "comments"; "bookmarks"; "views"].

(** the replacement format_number makes: a space for a non-breaking space *)
Definition unbreak (c : ascii) : ascii := if eqc c nbsp then " "%char else c.

(** a string with no whitespace before or after it *)
Definition trimmed (s : string) : Prop := strip isspace s = s.

Definition is_text (n : node) : bool :=
  match n with
  | NavigableString _ => true
  | Tag _ _ _ _ => false
  end.
End Fields.

(** ** A sample article container *)

Module Showcase.
Import PyStr Bs4.

Definition element (name : string) (classes : list string)
    (attrs : list (string * string)) (contents : list node) : node :=
  Tag name classes (list_to_map attrs) contents.

(** the counter of the views: the exact number in the title attribute, the
    short form in the text *)
Definition views_counter : node :=
  element "span" ["tm-icon-counter"; "tm-data-icons__item"] []
    [element "span" ["tm-icon-counter__value"] [("title", "12345")]
       [NavigableString "12K"]].

Definition title_heading (title : string) : node :=
  element "h2" ["tm-title"; "tm-title_h2"] [("data-test-id", "articleTitle")]
    [element "a" ["tm-title__link"]
       [("href", "/ru/companies/acme/articles/1/");
        ("data-article-link", "true");
        ("data-test-id", "article-snippet-title-link")]
       [element "span" [] [] [NavigableString title]]].

Definition votes_meter : node :=
  element "div" ["tm-votes-meter"; "tm-data-icons__item"] []
    [element "span" ["tm-votes-meter__value"]
       [("data-test-id", "votes-meter-value")] [NavigableString " +7 "]].

(** an article with a title, a link, votes and views *)
Definition full_article : node :=
  Sample.article [title_heading "  Hello, Habr  "; votes_meter; views_counter].

(** an article with the views only *)
Definition views_only_article : node := Sample.article [views_counter].

(** an article with nothing but text below it *)
Definition text_article : node := Sample.article [NavigableString "soon"].

(** the counter of the bookmarks, with its text and its title attribute *)
Definition bookmarks_counter (label title : string) : node :=
  element "span" ["bookmarks-button__counter"] [("title", title)]
    [NavigableString label].

Definition bookmarks_button (label title : string) : node :=
  element "button" ["bookmarks-button"; "tm-data-icons__item"] []
    [bookmarks_counter label title].

(** a counter of the views with a blank text and no title attribute *)
Definition blank_views_value : node :=
  element "span" ["tm-icon-counter__value"] [] [NavigableString "  "].

Definition blank_views_counter : node :=
  element "span" ["tm-icon-counter"; "tm-data-icons__item"] []
    [blank_views_value].

(** an article whose counters hold blank texts *)
Definition blank_counters_article : node :=
  Sample.article [blank_views_counter; bookmarks_button "  " " 5 "].

(** a record with the nine fields and one more *)
Definition labelled_row : gmap string string :=
  list_to_map [("url", "/a/"); ("title", "<b>A & B</b>"); ("author", "N/A");
               ("date", "2024-03-05"); ("time", "14:30"); ("votes", "+7");
               ("comments", "0"); ("bookmarks", "1"); ("views", "12345");
               ("label", "draft")].
End Showcase.

(** ** The traffic of a scrape *)

Module Traffic.
Import PyStr Bs4 Spec.

Section Pages.
Variable session_get : string -> exc response.
Variable BeautifulSoup : string -> exc node.
Variable fromisoformat : string -> exc Datetime.datetime.
Variable small_year : Z -> string.

(** the addresses of the fetches that have not completed *)
Fixpoint pending (urls : list string) (slots : list (option (option string)))
  : list string :=
  match urls, slots with
  | u :: urls', s :: slots' =>
      match s with
      | None => u :: pending urls' slots'
      | Some _ => pending urls' slots'
      end
  | _, _ => []
  end.

(** what a fetched page adds to the rows: nothing when the fetch failed or
    the body is empty *)
Definition page_rows (page : option string) : list (gmap string string) :=
  match page with
  | Some html =>
      if nonempty html
      then records BeautifulSoup fromisoformat small_year html
      else []
  | None => []
  end.

(** the addresses of the pages after the first, read off the first page *)
Definition later_urls (articles_url : string) : list string :=
  match fetched session_get articles_url with
  | Some html =>
      if nonempty html then
        match parse_pagination_last_page BeautifulSoup html with
        | Ret last_page => List.map (page_url articles_url) (range_from_2 last_page)
        | Raise _ => []
        end
      else []
  | None => []
  end.

(** the rows of the whole listing, page after page, when the parser
    accepts every page *)
Definition listing_rows (articles_url : string) : list (gmap string string) :=
  page_rows (fetched session_get articles_url)
  ++ concat (List.map (fun u => page_rows (fetched session_get u))
                      (later_urls articles_url)).

(** the outcome of a scrape, which no schedule enters: the pages are
    parsed in the order of their numbers, and the first exception of the
    parser ends the scrape *)
Definition listing_outcome (articles_url : string)
  : exc (list (gmap string string)) :=
  match fetched session_get articles_url with
  | Some html =>
      if nonempty html then
        (let* last_page := parse_pagination_last_page BeautifulSoup html in
         let* rows := parse_articles_list BeautifulSoup fromisoformat
                                          small_year html in
         extend_rows BeautifulSoup fromisoformat small_year
                     (List.map (fetched session_get) (later_urls articles_url))
                     rows)%exc
      else Ret []
  | None => Ret []
  end.
End Pages.

(** a site that answers every request with an empty body *)
Definition empty_site (url : string) : exc response :=
  Ret (mkResponse 200 (Ret "")).
End Traffic.

(** * Facts *)

(** ** Strings *)

Module PyStrFacts.
Import PyStr.

Lemma str_app_cons c s t : String c s +:+ t = String c (s +:+ t).
Proof. reflexivity. Qed.

Lemma str_app_nil_r s : s +:+ "" = s.
Proof. induction s as [|c s IH]; [done|]. by rewrite ?str_app_cons, IH. Qed.

Lemma str_app_assoc s t u : (s +:+ t) +:+ u = s +:+ (t +:+ u).
Proof. induction s as [|c s IH]; [done|]. by rewrite ?str_app_cons, IH. Qed.

Lemma eqc_refl a : eqc a a = true.
Proof. apply Ascii.eqb_refl. Qed.

Lemma nonempty_true s : nonempty s = true <-> s <> "".
Proof. destruct s; simpl; split; congruence. Qed.

(** *** [all] *)

Lemma all_app p s t : all p (s +:+ t) = all p s && all p t.
Proof.
  induction s as [|c s IH]; [done|].
  rewrite ?str_app_cons. simpl. rewrite IH. by rewrite andb_assoc.
Qed.

Lemma all_impl (p q : ascii -> bool) s :
  (forall c, p c = true -> q c = true) -> all p s = true -> all q s = true.
Proof.
  intros Hpq. induction s as [|c s IH]; simpl; [done|].
  intros [Hc Hs]%andb_true_iff. rewrite (Hpq _ Hc). simpl. auto.
Qed.

Lemma all_tail p s : all p s = true -> all p (tail s) = true.
Proof. destruct s; simpl; [done|]. by intros [_ ?]%andb_true_iff. Qed.

Lemma all_before p q s : all p s = true -> all p (before q s) = true.
Proof.
  induction s as [|c s IH]; simpl; [done|].
  intros [Hc Hs]%andb_true_iff. destruct (q c); simpl; [done|].
  rewrite Hc. simpl. auto.
Qed.

Lemma all_from p q s : all p s = true -> all p (from q s) = true.
Proof.
  induction s as [|c s IH]; simpl; [done|].
  intros [Hc Hs]%andb_true_iff. destruct (q c); simpl; [|auto].
  by rewrite Hc, Hs.
Qed.

Lemma all_after p q s : all p s = true -> all p (after q s) = true.
Proof. intros. by apply all_tail, all_from. Qed.

Lemma all_rbefore p c s : all p s = true -> all p (rbefore c s) = true.
Proof.
  induction s as [|x s IH]; simpl; [done|].
  intros [Hc Hs]%andb_true_iff. destruct (contains c s); simpl; [|done].
  rewrite Hc. simpl. auto.
Qed.

Lemma all_remove p s : all (fun c => negb (p c)) (remove p s) = true.
Proof.
  induction s as [|c s IH]; simpl; [done|].
  destruct (p c) eqn:E; simpl; [done|]. by rewrite E.
Qed.

Lemma all_before_not p s : all (fun c => negb (p c)) (before p s) = true.
Proof.
  induction s as [|c s IH]; simpl; [done|].
  destruct (p c) eqn:E; simpl; [done|]. by rewrite E.
Qed.

Lemma all_map p f s : all p (map f s) = all (fun c => p (f c)) s.
Proof. induction s as [|c s IH]; simpl; [done|]. by rewrite IH. Qed.

Lemma contains_false c s :
  contains c s = false <-> all (fun x => negb (eqc x c)) s = true.
Proof.
  induction s as [|x s IH]; simpl; [done|].
  rewrite orb_false_iff, andb_true_iff, negb_true_iff. tauto.
Qed.

Lemma contains_app c s t : contains c (s +:+ t) = contains c s || contains c t.
Proof.
  induction s as [|x s IH]; [done|].
  rewrite ?str_app_cons. simpl. rewrite IH. by rewrite orb_assoc.
Qed.

(** *** [before], [from], [lstrip], [rstrip], [remove] on strings they
    leave alone *)

Lemma before_app p s c t :
  all (fun x => negb (p x)) s = true -> p c = true ->
  before p (s +:+ String c t) = s.
Proof.
  intros Hs Hc. induction s as [|x s IH]; simpl.
  - by rewrite Hc.
  - simpl in Hs. apply andb_true_iff in Hs as [Hx Hs].
    rewrite ?str_app_cons. simpl. apply negb_true_iff in Hx. rewrite Hx.
    by rewrite IH.
Qed.

Lemma from_app p s c t :
  all (fun x => negb (p x)) s = true -> p c = true ->
  from p (s +:+ String c t) = String c t.
Proof.
  intros Hs Hc. induction s as [|x s IH]; simpl.
  - by rewrite Hc.
  - simpl in Hs. apply andb_true_iff in Hs as [Hx Hs].
    rewrite ?str_app_cons. simpl. apply negb_true_iff in Hx. rewrite Hx. auto.
Qed.

Lemma remove_id p s : all (fun c => negb (p c)) s = true -> remove p s = s.
Proof.
  induction s as [|c s IH]; simpl; [done|].
  intros [Hc Hs]%andb_true_iff. apply negb_true_iff in Hc. rewrite Hc.
  by rewrite IH.
Qed.

Lemma rstrip_app_keep p s c : p c = false -> rstrip p (s +:+ String c "") = s +:+ String c "".
Proof.
  intros Hc. induction s as [|x s IH]; simpl.
  - by rewrite Hc.
  - rewrite ?str_app_cons. simpl. rewrite IH.
    destruct s; by rewrite ?str_app_cons.
Qed.

Lemma endswith_app c s : endswith c (s +:+ String c "") = true.
Proof.
  induction s as [|x s IH]; simpl; [apply eqc_refl|].
  rewrite ?str_app_cons. simpl. rewrite IH. destruct s; by rewrite ?str_app_cons.
Qed.
End PyStrFacts.

(** ** Characters *)

Module CharFacts.
Import PyStr UrlLib Canon.

Ltac by_char c :=
  destruct c as [[] [] [] [] [] [] [] []]; vm_compute; congruence.

Lemma eqc_sym a b : eqc a b = eqc b a.
Proof. unfold eqc. apply Ascii.eqb_sym. Qed.

Lemma scheme_char_safe c :
  is_scheme_char c = true -> negb (is_unsafe_url_byte c) = true.
Proof. by_char c. Qed.

Lemma scheme_char_not_colon c :
  is_scheme_char c = true -> negb (eqc ":" c) = true.
Proof. by_char c. Qed.

Lemma scheme_char_lower c :
  is_scheme_char c = true -> is_scheme_char (lower_char c) = true.
Proof. by_char c. Qed.

Lemma lower_char_idem c : lower_char (lower_char c) = lower_char c.
Proof. by_char c. Qed.

Lemma alpha_lower c :
  isascii_alpha c = true -> isascii_alpha (lower_char c) = true.
Proof. by_char c. Qed.

Lemma alpha_not_c0 c :
  isascii_alpha c = true -> is_c0_control_or_space c = false.
Proof. by_char c. Qed.

Lemma alpha_not_space c : isascii_alpha c = true -> isspace c = false.
Proof. by_char c. Qed.

Lemma host_char_not_delim c :
  host_char c = true -> negb (is_netloc_delim c) = true.
Proof. by_char c. Qed.

Lemma host_char_safe c :
  host_char c = true -> negb (is_unsafe_url_byte c) = true.
Proof. by_char c. Qed.

Lemma path_char_safe c :
  path_char c = true -> negb (is_unsafe_url_byte c) = true.
Proof. by_char c. Qed.

Lemma path_char_not_hash c : path_char c = true -> negb (eqc c "#") = true.
Proof. by_char c. Qed.

Lemma path_char_not_question c :
  path_char c = true -> negb (eqc c "?") = true.
Proof. by_char c. Qed.

Lemma delim_free_host c :
  negb (is_netloc_delim c) = true -> negb (is_unsafe_url_byte c) = true ->
  host_char c = true.
Proof. by_char c. Qed.

Lemma path_char_intro c :
  negb (eqc "?" c) = true -> negb (eqc "#" c) = true ->
  negb (is_unsafe_url_byte c) = true -> path_char c = true.
Proof. by_char c. Qed.
End CharFacts.

(** ** Canonical paths *)

Module CanonFacts.
Import PyStr PyStrFacts UrlLib Canon CharFacts.

Lemma slashed_ends segs :
  segs <> [] -> exists t, slashed segs = t +:+ "/".
Proof.
  induction segs as [|s segs IH]; [done|]. intros _. simpl.
  destruct segs as [|s' segs].
  - exists s. simpl. by rewrite str_app_nil_r.
  - destruct IH as [t Ht]; [done|]. exists (s +:+ "/" +:+ t).
    rewrite Ht. by rewrite !str_app_assoc.
Qed.

Lemma canon_path_ends segs : exists t, canon_path segs = t +:+ "/".
Proof.
  unfold canon_path. destruct segs as [|s segs].
  - by exists "".
  - destruct (slashed_ends (s :: segs)) as [t Ht]; [done|].
    exists ("/" +:+ t). by rewrite Ht.
Qed.

Lemma join_slashed segs : segs <> [] -> join "/" segs +:+ "/" = slashed segs.
Proof.
  induction segs as [|s segs IH]; [done|]. intros _.
  destruct segs as [|s' segs]; [done|].
  change (join "/" (s :: s' :: segs)) with (s +:+ "/" +:+ join "/" (s' :: segs)).
  rewrite !str_app_assoc, IH; done.
Qed.

Lemma all_slashed p segs :
  p "/"%char = true -> Forall (fun s => all p s = true) segs ->
  all p (slashed segs) = true.
Proof.
  intros Hp. induction 1 as [|s segs Hs _ IH]; simpl; [done|].
  rewrite !all_app, Hs, IH. simpl. by rewrite Hp.
Qed.

Lemma all_canon_path p segs :
  p "/"%char = true -> Forall (fun s => all p s = true) segs ->
  all p (canon_path segs) = true.
Proof.
  intros Hp Hs. unfold canon_path. rewrite all_app. simpl. rewrite Hp.
  simpl. by apply all_slashed.
Qed.

(** *** Splitting at separators *)

Lemma split_lacks c s :
  contains c s = false -> split c s = [s].
Proof.
  induction s as [|x s IH]; simpl; [done|].
  intros [Hx Hs]%orb_false_iff. rewrite Hx, IH; done.
Qed.

Lemma split_app_sep c s t :
  contains c s = false -> split c (s +:+ String c t) = s :: split c t.
Proof.
  induction s as [|x s IH]; simpl.
  - intros _. by rewrite eqc_refl.
  - intros [Hx Hs]%orb_false_iff. rewrite Hx, IH; done.
Qed.

Lemma split_all p c s :
  all p s = true -> Forall (fun x => all p x = true) (split c s).
Proof.
  induction s as [|x s IH]; simpl.
  - by repeat constructor.
  - intros [Hx Hs]%andb_true_iff. specialize (IH Hs).
    destruct (eqc x c); [by constructor|].
    destruct (split c s) as [|h t]; [by repeat constructor; simpl; rewrite Hx|].
    inversion IH; subst. constructor; [|done]. simpl. by rewrite Hx.
Qed.

Lemma split_no_sep c s :
  Forall (fun x => contains c x = false) (split c s).
Proof.
  induction s as [|x s IH]; simpl.
  - by repeat constructor.
  - destruct (eqc x c) eqn:E; [by constructor|].
    destruct (split c s) as [|h t]; [by repeat constructor; simpl; rewrite E|].
    inversion IH; subst. constructor; [|done]. simpl. by rewrite E.
Qed.

Lemma good_segment_spec s :
  good_segment s = true <->
  nonempty s = true /\ all path_char s = true /\ contains "/" s = false.
Proof.
  unfold good_segment. rewrite !andb_true_iff, negb_true_iff. tauto.
Qed.

Lemma segments_good path :
  all path_char path = true ->
  Forall (fun s => good_segment s = true) (segments path).
Proof.
  intros Hp. unfold segments.
  pose proof (split_all path_char "/" path Hp) as H1.
  pose proof (split_no_sep "/" path) as H2.
  induction (split "/" path) as [|s l IH]; simpl; [constructor|].
  inversion H1; inversion H2; subst.
  destruct (nonempty s) eqn:E; simpl; [|auto].
  constructor; [|auto]. by apply good_segment_spec.
Qed.

Lemma split_slashed segs :
  Forall (fun s => good_segment s = true) segs ->
  split "/" (slashed segs) = segs ++ [""].
Proof.
  induction 1 as [|s segs Hs _ IH]; simpl; [done|].
  apply good_segment_spec in Hs as (_ & _ & Hs).
  change (s +:+ "/" +:+ slashed segs) with (s +:+ String "/" (slashed segs)).
  by rewrite split_app_sep, IH.
Qed.

Lemma segments_canon_path segs :
  Forall (fun s => good_segment s = true) segs ->
  segments (canon_path segs) = segs.
Proof.
  intros Hs. unfold segments, canon_path.
  change ("/" +:+ slashed segs) with ("" +:+ String "/" (slashed segs)).
  rewrite split_app_sep, split_slashed by done. simpl.
  rewrite List.filter_app. simpl. rewrite List.app_nil_r.
  induction Hs as [|s segs Hs _ IH]; simpl; [done|].
  apply good_segment_spec in Hs as (-> & _). simpl. by rewrite IH.
Qed.

Lemma split_join segs :
  segs <> [] -> Forall (fun s => good_segment s = true) segs ->
  split "/" (join "/" segs) = segs.
Proof.
  intros Hne Hs. induction Hs as [|s segs Hs Hrest IH]; [done|].
  apply good_segment_spec in Hs as (_ & _ & Hs).
  destruct segs as [|s' segs].
  - simpl. by apply split_lacks.
  - change (join "/" (s :: s' :: segs))
      with (s +:+ String "/" (join "/" (s' :: segs))).
    rewrite split_app_sep by done. by rewrite IH.
Qed.

(** *** The last character *)

Lemma last_char s :
  nonempty s = true -> exists t c, s = t +:+ String c "".
Proof.
  induction s as [|x s IH]; [done|]. intros _.
  destruct s as [|y s].
  - by exists "", x.
  - destruct IH as (t & c & Ht); [done|]. exists (String x t), c.
    simpl. by rewrite Ht.
Qed.

Lemma join_last segs :
  segs <> [] -> Forall (fun s => good_segment s = true) segs ->
  exists t c, join "/" segs = t +:+ String c "" /\ eqc c "/" = false.
Proof.
  intros Hne Hs. induction Hs as [|s segs Hs Hrest IH]; [done|].
  destruct segs as [|s' segs].
  - apply good_segment_spec in Hs as (Hn & _ & Hs).
    destruct (last_char s Hn) as (t & c & ->). exists t, c. split; [done|].
    rewrite contains_app in Hs. apply orb_false_iff in Hs as [_ Hs].
    simpl in Hs. by apply orb_false_iff in Hs as [? _].
  - destruct IH as (t & c & Ht & Hc); [done|].
    exists (s +:+ "/" +:+ t), c. split; [|done].
    change (join "/" (s :: s' :: segs))
      with (s +:+ "/" +:+ join "/" (s' :: segs)).
    by rewrite Ht, !str_app_assoc.
Qed.

Lemma endswith_last c x t : endswith c (t +:+ String x "") = eqc x c.
Proof.
  induction t as [|y t IH]; simpl; [done|].
  rewrite IH. by destruct t.
Qed.

Lemma rfrom_last c t : rfrom c (t +:+ String c "") = String c "".
Proof.
  induction t as [|y t IH]; simpl.
  - by rewrite eqc_refl.
  - rewrite contains_app. simpl. rewrite eqc_refl, orb_true_r. done.
Qed.

(** *** The segments of the normalized path *)

Lemma mem_app_r x l : mem x (l ++ [x]) = true.
Proof.
  unfold mem. rewrite existsb_app. simpl.
  by rewrite String.eqb_refl, orb_true_r.
Qed.

Lemma is_profile_extended segs :
  is_profile segs = true -> is_profile (List.firstn 3 segs ++ ["articles"]) = true.
Proof.
  unfold is_profile. intros [Hlen H1]%andb_true_iff.
  apply Nat.leb_le in Hlen.
  destruct segs as [|a [|b [|c segs]]]; simpl in *; try lia. done.
Qed.

Lemma final_segments_idem segs :
  final_segments (final_segments segs) = final_segments segs.
Proof.
  unfold final_segments.
  destruct (is_profile segs && negb (mem "articles" segs)) eqn:E;
    [|by rewrite E].
  apply andb_true_iff in E as [Hp _].
  by rewrite (is_profile_extended _ Hp), mem_app_r.
Qed.

Lemma final_segments_good segs :
  Forall (fun s => good_segment s = true) segs ->
  Forall (fun s => good_segment s = true) (final_segments segs).
Proof.
  intros Hs. unfold final_segments.
  destruct (is_profile segs && negb (mem "articles" segs)); [|done].
  apply Forall_app. split; [by apply Forall_take|].
  by repeat constructor.
Qed.
End CanonFacts.


(** ** The path of the normalized address *)

Module PathFacts.
Import PyStr PyStrFacts UrlLib Canon CharFacts CanonFacts.

Lemma lstrip_head p x r : p x = false -> lstrip p (String x r) = String x r.
Proof. intros H. simpl. by rewrite H. Qed.

Lemma join_head s rest :
  good_segment s = true ->
  exists x r, join "/" (s :: rest) = String x r /\ eqc x "/" = false.
Proof.
  intros (Hn & _ & Hs)%good_segment_spec.
  destruct s as [|x s]; [done|]. simpl in Hs.
  apply orb_false_iff in Hs as [Hx _].
  destruct rest as [|s' rest]; [by exists x, s|].
  exists x, (s +:+ "/" +:+ join "/" (s' :: rest)). done.
Qed.

Lemma strip_slash_join segs :
  Forall (fun s => good_segment s = true) segs ->
  strip (eqc "/") ("/" +:+ join "/" segs) = join "/" segs.
Proof.
  intros Hs. unfold strip.
  change ("/" +:+ join "/" segs) with (String "/" (join "/" segs)).
  cbn [lstrip]. rewrite eqc_refl.
  destruct segs as [|s rest]; [done|].
  destruct (join_head s rest) as (x & r & Hj & Hx); [by inversion Hs|].
  destruct (join_last (s :: rest)) as (t & c & Ht & Hc); [done..|].
  rewrite Hj, lstrip_head by (by rewrite eqc_sym).
  rewrite <- Hj, Ht. apply rstrip_app_keep. by rewrite eqc_sym.
Qed.

(** The path logic of normalize_company_articles_url, on the non-empty
    segments of the path it is given. *)
Lemma normalized_path segs :
  Forall (fun s => good_segment s = true) segs ->
  let path := "/" +:+ join "/" segs in
  let parts := split "/" (strip (eqc "/") path) in
  (if (3 <=? length parts)%nat
      && match parts !! 1%nat with
         | Some p => String.eqb p "companies"
         | None => false
         end
   then
     if negb (mem "articles" parts)
     then "/" +:+ join "/" (List.firstn 3 parts ++ ["articles"]) +:+ "/"
     else if negb (endswith "/" path) then path +:+ "/" else path
   else
     if negb (endswith "/" path) then path +:+ "/" else path)
  = canon_path (final_segments segs).
Proof.
  intros Hs. cbv zeta. rewrite strip_slash_join by done.
  destruct segs as [|s rest].
  - reflexivity.
  - rewrite split_join by done.
    fold (is_profile (s :: rest)). unfold final_segments.
    destruct (join_last (s :: rest)) as (t & c & Ht & Hc); [done..|].
    assert (Hend : endswith "/" ("/" +:+ join "/" (s :: rest)) = false).
    { rewrite Ht.
      change ("/" +:+ t +:+ String c "") with (String "/" t +:+ String c "").
      by rewrite endswith_last. }
    rewrite Hend. cbn [negb].
    assert (Hcanon : ("/" +:+ join "/" (s :: rest)) +:+ "/"
                     = canon_path (s :: rest)).
    { unfold canon_path. by rewrite <- join_slashed, str_app_assoc. }
    destruct (is_profile (s :: rest)); cbn [andb]; [|done].
    destruct (mem "articles" (s :: rest)); cbn [negb]; [done|].
    unfold canon_path. rewrite join_slashed; [done|].
    by destruct (List.firstn 3 (s :: rest)).
Qed.

Lemma urlunparse_canonical sc nl segs :
  nonempty sc = true -> nonempty nl = true ->
  urlunparse (mkParseResult sc nl (canon_path segs) "" "" "")
  = listing_address sc nl segs.
Proof.
  intros Hsc Hnl. unfold urlunparse, urlunsplit. simpl.
  by rewrite Hsc, Hnl.
Qed.
End PathFacts.


(** ** urlparse *)

Module UrlFacts.
Import PyStr PyStrFacts UrlLib Canon CharFacts CanonFacts PathFacts.

Lemma good_scheme_spec sc :
  good_scheme sc = true <->
  exists c0 r, sc = String c0 r /\ isascii_alpha c0 = true
               /\ all is_scheme_char sc = true /\ map lower_char sc = sc.
Proof.
  unfold good_scheme. destruct sc as [|c0 r].
  - split; [done|]. by intros (? & ? & ? & _).
  - rewrite !andb_true_iff, String.eqb_eq. split.
    + intros [[? ?] ?]. by exists c0, r.
    + intros (? & ? & [= <- <-] & ? & ? & ?). done.
Qed.

Lemma good_scheme_nonempty sc : good_scheme sc = true -> nonempty sc = true.
Proof. by destruct sc. Qed.

Lemma map_lower_idem s : map lower_char (map lower_char s) = map lower_char s.
Proof.
  induction s as [|c s IH]; simpl; [done|].
  by rewrite lower_char_idem, IH.
Qed.

Lemma contains_mid c s t : contains c (s +:+ String c t) = true.
Proof.
  rewrite contains_app. cbn [contains]. by rewrite eqc_refl, orb_true_r.
Qed.

Lemma lstrip_app_head p x r t :
  p x = false -> lstrip p (String x r +:+ t) = String x r +:+ t.
Proof. intros H. rewrite str_app_cons. by apply lstrip_head. Qed.

Section Parse.
Variable _check_bracketed_host : string -> exc unit.
Variable _checknetloc_nfkc : string -> exc unit.

Local Abbreviation urlsplit := (urlsplit _check_bracketed_host _checknetloc_nfkc).
Local Abbreviation urlparse := (urlparse _check_bracketed_host _checknetloc_nfkc).
Local Abbreviation good_netloc := (good_netloc _check_bracketed_host _checknetloc_nfkc).

(** *** Reading a canonical address back *)

Lemma split_scheme_canonical sc rest :
  good_scheme sc = true ->
  split_scheme (sc +:+ String ":" rest) = (sc, rest).
Proof.
  intros (c0 & r & -> & Ha & Hall & Hlow)%good_scheme_spec.
  unfold split_scheme.
  assert (Hnc : all (fun x => negb (eqc ":" x)) (String c0 r) = true)
    by (eapply all_impl; [apply scheme_char_not_colon|done]).
  rewrite contains_mid, before_app by done.
  rewrite Ha, Hall, Hlow. cbn [andb].
  unfold after. by rewrite from_app.
Qed.

Lemma urlsplit_canonical sc nl segs :
  good_scheme sc = true -> good_netloc nl ->
  Forall (fun s => good_segment s = true) segs ->
  urlsplit (listing_address sc nl segs)
  = Ret (mkParseResult sc nl (canon_path segs) "" "" "").
Proof.
  intros Hsc (Hnl & Hhost & Hbr & Hnfkc) Hsegs.
  pose proof Hsc as (c0 & r & -> & Ha & Hall & Hlow)%good_scheme_spec.
  assert (Hpath : all path_char (canon_path segs) = true).
  { apply all_canon_path; [done|].
    eapply Forall_impl; [exact Hsegs|].
    by intros s (_ & ? & _)%good_segment_spec. }
  unfold UrlLib.urlsplit, listing_address.
  rewrite lstrip_app_head by (by apply alpha_not_c0).
  rewrite remove_id.
  2:{ rewrite !all_app. apply andb_true_iff; split.
      - eapply all_impl; [apply scheme_char_safe|done].
      - apply andb_true_iff; split; [done|]. apply andb_true_iff; split.
        + eapply all_impl; [apply host_char_safe|done].
        + eapply all_impl; [apply path_char_safe|done]. }
  change (String c0 r +:+ "://" +:+ nl +:+ canon_path segs)
    with (String c0 r +:+ String ":" (String "/" (String "/"
           (nl +:+ canon_path segs)))).
  rewrite split_scheme_canonical by done.
  cbn [take]. rewrite String.eqb_refl.
  unfold _splitnetloc, canon_path. cbn [drop].
  change ("/" +:+ slashed segs) with (String "/" (slashed segs)).
  rewrite before_app, from_app;
    [|eapply all_impl; [apply host_char_not_delim|done]|done
     |eapply all_impl; [apply host_char_not_delim|done]|done].
  rewrite Hbr. cbn [exc_bind].
  fold (canon_path segs).
  change (String "/" (slashed segs)) with (canon_path segs).
  assert (H1 : contains "#" (canon_path segs) = false).
  { apply contains_false. eapply all_impl; [apply path_char_not_hash|done]. }
  assert (H2 : contains "?" (canon_path segs) = false).
  { apply contains_false.
    eapply all_impl; [apply path_char_not_question|done]. }
  rewrite H1, H2, Hnfkc. done.
Qed.

Lemma splitparams_canonical segs :
  _splitparams (canon_path segs) = (canon_path segs, "").
Proof.
  destruct (canon_path_ends segs) as [t Ht]. unfold _splitparams.
  rewrite Ht. change (t +:+ "/") with (t +:+ String "/" "").
  by rewrite contains_mid, rfrom_last.
Qed.

Lemma urlparse_canonical sc nl segs :
  good_scheme sc = true -> good_netloc nl ->
  Forall (fun s => good_segment s = true) segs ->
  urlparse (listing_address sc nl segs)
  = Ret (mkParseResult sc nl (canon_path segs) "" "" "").
Proof.
  intros Hsc Hnl Hsegs. unfold UrlLib.urlparse.
  rewrite urlsplit_canonical by done. cbn [exc_bind scheme path].
  destruct (mem sc uses_params && contains ";" (canon_path segs)); [|done].
  by rewrite splitparams_canonical.
Qed.

Lemma strip_canonical sc nl segs :
  good_scheme sc = true ->
  strip isspace (listing_address sc nl segs) = listing_address sc nl segs.
Proof.
  intros (c0 & r & -> & Ha & _)%good_scheme_spec.
  unfold strip, listing_address.
  rewrite lstrip_app_head by (by apply alpha_not_space).
  destruct (canon_path_ends segs) as [t ->].
  rewrite <- !str_app_assoc. by apply rstrip_app_keep.
Qed.
End Parse.
End UrlFacts.


(** ** What urlparse returns *)

Module ParseFacts.
Import PyStr PyStrFacts UrlLib Canon CharFacts CanonFacts PathFacts UrlFacts.

Lemma all_drop p n s : all p s = true -> all p (drop n s) = true.
Proof.
  revert s. induction n as [|n IH]; intros [|c s]; simpl; try done.
  intros [_ ?]%andb_true_iff. auto.
Qed.

Lemma all_rfrom p c s : all p s = true -> all p (rfrom c s) = true.
Proof.
  induction s as [|x s IH]; simpl; [done|].
  intros H. pose proof H as [Hx Hs]%andb_true_iff.
  destruct (contains c s); [auto|]. by destruct (eqc x c).
Qed.

(** a string cut at the first [c], when it has one *)
Lemma cut_lacks c s :
  all (fun x => negb (eqc c x))
      (if contains c s then before (eqc c) s else s) = true.
Proof.
  destruct (contains c s) eqn:E.
  - apply (all_before_not (eqc c)).
  - apply contains_false in E. eapply all_impl; [|exact E].
    intros x. by rewrite eqc_sym.
Qed.

Lemma all_cut p c s :
  all p s = true ->
  all p (if contains c s then before (eqc c) s else s) = true.
Proof. intros H. destruct (contains c s); [by apply all_before|done]. Qed.

Lemma all_path_char s :
  all (fun x => negb (eqc "?" x)) s = true ->
  all (fun x => negb (eqc "#" x)) s = true ->
  all safe s = true -> all path_char s = true.
Proof.
  induction s as [|c s IH]; simpl; [done|].
  intros [H1 ?]%andb_true_iff [H2 ?]%andb_true_iff [H3 ?]%andb_true_iff.
  rewrite path_char_intro by done. simpl. auto.
Qed.

Lemma all_host_char s :
  all (fun x => negb (is_netloc_delim x)) s = true ->
  all safe s = true -> all host_char s = true.
Proof.
  induction s as [|c s IH]; simpl; [done|].
  intros [H1 ?]%andb_true_iff [H2 ?]%andb_true_iff.
  rewrite delim_free_host by done. simpl. auto.
Qed.

Lemma split_scheme_facts url sc rest :
  all safe url = true -> split_scheme url = (sc, rest) ->
  (sc = "" \/ good_scheme sc = true) /\ all safe rest = true.
Proof.
  intros Hsafe. unfold split_scheme.
  destruct (contains ":" url); [|intros [= <- <-]; auto].
  destruct (before (eqc ":") url) as [|c0 r] eqn:Hpre;
    [intros [= <- <-]; auto|].
  destruct (isascii_alpha c0 && all is_scheme_char (String c0 r)) eqn:E;
    [|intros [= <- <-]; auto].
  apply andb_true_iff in E as [Ha Hall]. intros [= <- <-]. split.
  - right. apply good_scheme_spec.
    exists (lower_char c0), (map lower_char r). repeat split.
    + by apply alpha_lower.
    + change (all is_scheme_char (map lower_char (String c0 r)) = true).
      rewrite all_map. eapply all_impl; [apply scheme_char_lower|done].
    + change (map lower_char (map lower_char (String c0 r))
              = map lower_char (String c0 r)).
      apply map_lower_idem.
  - by apply all_after.
Qed.

Section Parse.
Variable _check_bracketed_host : string -> exc unit.
Variable _checknetloc_nfkc : string -> exc unit.

Local Abbreviation urlsplit := (urlsplit _check_bracketed_host _checknetloc_nfkc).
Local Abbreviation urlparse := (urlparse _check_bracketed_host _checknetloc_nfkc).
Local Abbreviation good_netloc := (good_netloc _check_bracketed_host _checknetloc_nfkc).

Lemma urlsplit_facts url r :
  urlsplit url = Ret r ->
  (scheme r = "" \/ good_scheme (scheme r) = true)
  /\ (netloc r = "" \/ good_netloc (netloc r))
  /\ all path_char (path r) = true.
Proof.
  unfold UrlLib.urlsplit.
  set (u := remove is_unsafe_url_byte (lstrip is_c0_control_or_space url)).
  assert (Hu : all safe u = true) by apply all_remove.
  destruct (split_scheme u) as [sc rest] eqn:Hss.
  destruct (split_scheme_facts _ _ _ Hu Hss) as [Hsc Hrest].
  assert (Hcut : forall nl url2,
    (nl = "" \/ good_netloc nl) \/
      (nonempty nl = true -> all host_char nl = true
       /\ check_brackets _check_bracketed_host nl = Ret tt) ->
    all safe url2 = true ->
    (let '(url3, fragment) :=
       if contains "#" url2
       then (before (eqc "#") url2, after (eqc "#") url2) else (url2, "") in
     let '(url4, query) :=
       if contains "?" url3
       then (before (eqc "?") url3, after (eqc "?") url3) else (url3, "") in
     (_checknetloc _checknetloc_nfkc nl ;;;
      Ret (mkParseResult sc nl url4 "" query fragment))%exc) = Ret r ->
    (scheme r = "" \/ good_scheme (scheme r) = true)
    /\ (netloc r = "" \/ good_netloc (netloc r))
    /\ all path_char (path r) = true).
  { intros nl url2 Hnl Hsafe2 H.
    set (url3 := if contains "#" url2 then before (eqc "#") url2 else url2).
    set (url4 := if contains "?" url3 then before (eqc "?") url3 else url3).
    assert (Hr : _checknetloc _checknetloc_nfkc nl = Ret tt
                 /\ scheme r = sc /\ netloc r = nl /\ path r = url4).
    { subst url4 url3.
      destruct (contains "#" url2);
        [destruct (contains "?" (before (eqc "#") url2))
        |destruct (contains "?" url2)];
        destruct (_checknetloc _checknetloc_nfkc nl) as [[]|];
        simpl in H; try done; by injection H as <-. }
    destruct Hr as (Hck & -> & -> & ->). split; [done|]. split.
    - destruct Hnl as [Hnl|Hnl]; [done|].
      destruct nl as [|c nl]; [by left|]. right.
      destruct Hnl as [? ?]; done.
    - apply all_path_char.
      + apply cut_lacks.
      + apply all_cut, cut_lacks.
      + by apply all_cut, all_cut. }
  destruct (String.eqb (take 2 rest) "//").
  - unfold _splitnetloc. cbv zeta.
    set (nl := before is_netloc_delim (drop 2 rest)).
    destruct (check_brackets _check_bracketed_host nl) as [[]|] eqn:Hbr;
      [|by cbn [exc_bind]].
    cbn [exc_bind]. apply Hcut.
    + right. intros _. split; [|done]. apply all_host_char.
      * apply all_before_not.
      * by apply all_before, all_drop.
    + by apply all_from, all_drop.
  - cbn [exc_bind]. apply Hcut; [by left; left|done].
Qed.

Lemma splitparams_path_char url :
  all path_char url = true -> all path_char (_splitparams url).1 = true.
Proof.
  intros H. unfold _splitparams.
  destruct (contains "/" url).
  - destruct (contains ";" (rfrom "/" url)); [|done]. simpl.
    rewrite all_app, all_rbefore by done. simpl.
    by apply all_before, all_rfrom.
  - simpl. by apply all_before.
Qed.

Lemma urlparse_facts url r :
  urlparse url = Ret r ->
  (scheme r = "" \/ good_scheme (scheme r) = true)
  /\ (netloc r = "" \/ good_netloc (netloc r))
  /\ all path_char (path r) = true.
Proof.
  unfold UrlLib.urlparse.
  destruct (urlsplit url) as [r0|] eqn:Hs; [|done].
  apply urlsplit_facts in Hs as (Hsc & Hnl & Hp). cbn [exc_bind].
  destruct (mem (scheme r0) uses_params && contains ";" (path r0));
    [|by intros [= <-]].
  pose proof (splitparams_path_char _ Hp) as Hp'.
  destruct (_splitparams (path r0)) as [url' params'].
  by intros [= <-].
Qed.

Lemma default_scheme_good sc :
  sc = "" \/ good_scheme sc = true -> good_scheme (or_else sc "https") = true.
Proof.
  intros [->|H]; [done|]. unfold or_else.
  by rewrite (good_scheme_nonempty _ H).
Qed.

Lemma default_netloc_good nl :
  nl = "" \/ good_netloc nl -> good_netloc (or_else nl "habr.com").
Proof.
  intros [->|H]; [by repeat split|]. unfold or_else.
  destruct H as (Hn & ?). by rewrite Hn.
Qed.

Lemma default_path_good p :
  all path_char p = true -> all path_char (or_else p "/") = true.
Proof. intros H. unfold or_else. by destruct (nonempty p). Qed.
End Parse.
End ParseFacts.


(** ** URL normalizer *)

Module NormalizerFacts.
Import PyStr PyStrFacts UrlLib Canon CharFacts CanonFacts PathFacts UrlFacts
       ParseFacts.

Lemma scheme_char_plain c : is_scheme_char c = true -> plain_char c = true.
Proof. by_char c. Qed.

Lemma host_char_plain c : host_char c = true -> plain_char c = true.
Proof. by_char c. Qed.

Lemma path_char_plain c : path_char c = true -> plain_char c = true.
Proof. by_char c. Qed.

Lemma plain_char_not_question c :
  plain_char c = true -> negb (eqc c "?") = true.
Proof. by_char c. Qed.

Lemma plain_char_not_hash c : plain_char c = true -> negb (eqc c "#") = true.
Proof. by_char c. Qed.

Section Normalize.
Variable _check_bracketed_host : string -> exc unit.
Variable _checknetloc_nfkc : string -> exc unit.

Local Abbreviation urlparse := (urlparse _check_bracketed_host _checknetloc_nfkc).
Local Abbreviation good_netloc := (good_netloc _check_bracketed_host _checknetloc_nfkc).
Local Abbreviation canonical := (canonical _check_bracketed_host _checknetloc_nfkc).
Local Abbreviation normalize :=
  (normalize_company_articles_url _check_bracketed_host _checknetloc_nfkc).

Lemma normalize_raises raw e :
  raw <> "" -> urlparse (strip isspace raw) = Raise e ->
  normalize raw = Raise e.
Proof.
  intros Hne%nonempty_true He. unfold normalize_company_articles_url.
  by rewrite Hne, He.
Qed.

Lemma normalize_returns raw parsed :
  raw <> "" -> urlparse (strip isspace raw) = Ret parsed ->
  normalize raw = Ret (address_of parsed).
Proof.
  intros Hne%nonempty_true Hp. unfold normalize_company_articles_url.
  rewrite Hne, Hp. cbn [negb exc_bind].
  apply urlparse_facts in Hp as (Hsc & Hnl & Hpath).
  apply default_scheme_good in Hsc.
  apply (default_netloc_good _check_bracketed_host _checknetloc_nfkc) in Hnl.
  apply default_path_good, segments_good in Hpath.
  fold (segments (or_else (path parsed) "/")).
  rewrite (normalized_path _ Hpath).
  rewrite urlunparse_canonical; [done|by apply good_scheme_nonempty|].
  by destruct Hnl.
Qed.

Lemma address_of_canonical raw parsed :
  urlparse (strip isspace raw) = Ret parsed -> canonical (address_of parsed).
Proof.
  intros (Hsc & Hnl & Hpath)%urlparse_facts.
  exists (or_else (scheme parsed) "https"),
         (or_else (netloc parsed) "habr.com"),
         (final_segments (segments (or_else (path parsed) "/"))).
  split; [done|]. split; [by apply default_scheme_good|].
  split; [by apply default_netloc_good|].
  by apply final_segments_good, segments_good, default_path_good.
Qed.

(** every returned address is one of final segments *)
Lemma normalize_inv raw y :
  normalize raw = Ret y ->
  exists sc nl segs,
    y = listing_address sc nl (final_segments segs)
    /\ good_scheme sc = true /\ good_netloc nl
    /\ Forall (fun s => good_segment s = true) segs.
Proof.
  intros H. destruct raw as [|c raw]; [by vm_compute in H|].
  assert (Hne : String c raw <> "") by done.
  destruct (urlparse (strip isspace (String c raw))) as [parsed|e] eqn:Hp.
  - rewrite (normalize_returns _ _ Hne Hp) in H.
    injection H as <-.
    pose proof Hp as (Hsc & Hnl & Hpath)%urlparse_facts.
    eexists _, _, _. split; [reflexivity|].
    split; [by apply default_scheme_good|].
    split; [by apply default_netloc_good|].
    by apply segments_good, default_path_good.
  - by rewrite (normalize_raises _ _ Hne Hp) in H.
Qed.

Lemma listing_address_nonempty sc nl segs :
  good_scheme sc = true -> listing_address sc nl segs <> "".
Proof. by destruct sc. Qed.

(** a canonical address of final segments is returned as it is *)
Lemma normalize_fixpoint sc nl segs :
  good_scheme sc = true -> good_netloc nl ->
  Forall (fun s => good_segment s = true) segs ->
  normalize (listing_address sc nl (final_segments segs))
  = Ret (listing_address sc nl (final_segments segs)).
Proof.
  intros Hsc Hnl Hsegs.
  pose proof (final_segments_good _ Hsegs) as Hfin.
  rewrite (normalize_returns _
             (mkParseResult sc nl (canon_path (final_segments segs)) "" "" "")).
  - unfold address_of. cbn [scheme netloc path].
    unfold or_else at 1 2 3.
    rewrite (good_scheme_nonempty _ Hsc).
    destruct Hnl as (-> & _).
    change (nonempty (canon_path (final_segments segs))) with true.
    cbv iota. by rewrite segments_canon_path, final_segments_idem.
  - by apply listing_address_nonempty.
  - rewrite strip_canonical by done. by apply urlparse_canonical.
Qed.

(** *** No query and no fragment *)

Lemma canonical_no_query_fragment url :
  canonical url -> contains "?" url = false /\ contains "#" url = false.
Proof.
  intros (sc & nl & segs & -> & Hsc & (_ & Hnl & _) & Hsegs).
  apply good_scheme_spec in Hsc as (c0 & r & -> & _ & Hall & _).
  assert (Hp : all path_char (canon_path segs) = true).
  { apply all_canon_path; [done|]. eapply Forall_impl; [exact Hsegs|].
    by intros s (_ & ? & _)%good_segment_spec. }
  assert (H : all plain_char
                (listing_address (String c0 r) nl segs) = true).
  { unfold listing_address. rewrite !all_app.
    rewrite (all_impl _ _ _ scheme_char_plain Hall).
    rewrite (all_impl _ _ _ host_char_plain Hnl).
    by rewrite (all_impl _ _ _ path_char_plain Hp). }
  split; apply contains_false; (eapply all_impl; [|exact H]).
  - apply plain_char_not_question.
  - apply plain_char_not_hash.
Qed.
End Normalize.
End NormalizerFacts.


(** ** Record extractor *)

Module ExtractorFacts.
Import PyStr PyStrFacts Bs4 Datetime Spec.

Lemma row_complete (u t a d ti v c b vi : string) :
  complete (list_to_map
              [("url", u); ("title", t); ("author", a); ("date", d);
               ("time", ti); ("votes", v); ("comments", c);
               ("bookmarks", b); ("views", vi)]).
Proof.
  split.
  - by rewrite dom_list_to_map_L.
  - unfold FIELDS. repeat constructor; by eexists.
Qed.

Section Extract.
Variable BeautifulSoup : string -> exc node.
Variable fromisoformat : string -> exc datetime.
Variable small_year : Z -> string.

Local Abbreviation parse_datetime_attribute :=
  (parse_datetime_attribute fromisoformat small_year).
Local Abbreviation parse_article_block :=
  (parse_article_block fromisoformat small_year).

Lemma datetime_parsed attribute dt :
  fromisoformat (replace_Z (strip isspace attribute)) = Ret dt ->
  parse_datetime_attribute attribute
  = Ret (strftime_Ymd small_year dt, strftime_HM dt).
Proof. intros H. unfold Habr.parse_datetime_attribute. by rewrite H. Qed.

Lemma datetime_failed attribute e :
  fromisoformat (replace_Z (strip isspace attribute)) = Raise e ->
  parse_datetime_attribute attribute
  = Ret (take 10 (strip isspace attribute),
         fallback_time (strip isspace attribute)).
Proof.
  intros H. unfold Habr.parse_datetime_attribute, fallback_time, item_1.
  rewrite H. cbn [try_except exc_bind].
  by destruct (split "T" (strip isspace attribute)) as [|a [|b l]].
Qed.

Lemma datetime_returns attribute :
  exists d t, parse_datetime_attribute attribute = Ret (d, t).
Proof.
  destruct (fromisoformat (replace_Z (strip isspace attribute))) eqn:E.
  - eexists _, _. by apply datetime_parsed.
  - eexists _, _. by eapply datetime_failed.
Qed.

(** the date and the time of a block *)
Lemma block_datetime_returns (article_block : node) :
  exists d t,
    match find article_block (mkStrainer "time" None []) with
    | Some te =>
        match get te "datetime" with
        | Some attribute =>
            if nonempty attribute then parse_datetime_attribute attribute
            else Ret (NA, NA)
        | None => Ret (NA, NA)
        end
    | None => Ret (NA, NA)
    end = Ret (d, t).
Proof.
  destruct (find article_block _) as [te|]; [|by eexists _, _].
  destruct (get te "datetime") as [attribute|]; [|by eexists _, _].
  destruct (nonempty attribute); [|by eexists _, _].
  apply datetime_returns.
Qed.

Lemma parse_article_block_complete article_block :
  exists row, parse_article_block article_block = Ret row /\ complete row.
Proof.
  unfold Habr.parse_article_block. cbv zeta.
  destruct (block_datetime_returns article_block) as (d & t & ->).
  cbn [exc_bind]. eexists. split; [reflexivity|]. apply row_complete.
Qed.

Lemma parse_article_block_date_time article_block te attribute :
  find article_block (mkStrainer "time" None []) = Some te ->
  get te "datetime" = Some attribute -> attribute <> "" ->
  exists d t row,
    parse_datetime_attribute attribute = Ret (d, t)
    /\ parse_article_block article_block = Ret row
    /\ row !! "date" = Some d /\ row !! "time" = Some t.
Proof.
  intros Hte Ha Hne%nonempty_true.
  destruct (datetime_returns attribute) as (d & t & Hdt).
  exists d, t. unfold Habr.parse_article_block. cbv zeta.
  rewrite Hte, Ha, Hne, Hdt. cbn [exc_bind].
  eexists. split; [done|]. split; [reflexivity|]. split; reflexivity.
Qed.

(** *** The loop over the article containers *)

Lemma collect_articles_spec parse_block blocks results :
  collect_articles parse_block blocks results
  = Ret (results ++ omap (fun b => row_of (parse_block b)) blocks).
Proof.
  revert results. induction blocks as [|b blocks IH]; intros results.
  - simpl. by rewrite app_nil_r.
  - simpl. destruct (parse_block b) as [row|e]; simpl.
    + by rewrite IH, <- app_assoc.
    + apply IH.
Qed.

(** the rows of the containers of a document *)
Lemma block_rows_complete blocks :
  Forall complete (omap (fun b => row_of (parse_article_block b)) blocks)
  /\ length (omap (fun b => row_of (parse_article_block b)) blocks)
     = length blocks.
Proof.
  induction blocks as [|b l [IH1 IH2]]; [by split|].
  destruct (parse_article_block_complete b) as (row & Hrow & Hc).
  cbn. rewrite Hrow. cbn. split; [by constructor|by f_equal].
Qed.

(** *** The extraction of a page, by what the parser does *)

Lemma with_accepted parse_block html soup :
  BeautifulSoup html = Ret soup ->
  parse_articles_list_with BeautifulSoup parse_block html
  = Ret (omap (fun b => row_of (parse_block b)) (article_blocks_of soup)).
Proof.
  intros H. unfold parse_articles_list_with. rewrite H. cbn [exc_bind].
  apply collect_articles_spec.
Qed.

Lemma with_rejected parse_block html e :
  BeautifulSoup html = Raise e ->
  parse_articles_list_with BeautifulSoup parse_block html = Raise e.
Proof. intros H. unfold parse_articles_list_with. by rewrite H. Qed.

Lemma parse_articles_list_accepted html soup :
  BeautifulSoup html = Ret soup ->
  parse_articles_list BeautifulSoup fromisoformat small_year html
  = Ret (omap (fun b => row_of (parse_article_block b))
              (article_blocks_of soup)).
Proof. apply with_accepted. Qed.

Lemma parse_articles_list_rejected html e :
  BeautifulSoup html = Raise e ->
  parse_articles_list BeautifulSoup fromisoformat small_year html = Raise e.
Proof. apply with_rejected. Qed.

Lemma parse_articles_list_complete html rows :
  parse_articles_list BeautifulSoup fromisoformat small_year html = Ret rows ->
  Forall complete rows.
Proof.
  destruct (BeautifulSoup html) as [soup|e] eqn:E.
  - rewrite (parse_articles_list_accepted html soup E). intros [= <-].
    apply block_rows_complete.
  - by rewrite (parse_articles_list_rejected html e E).
Qed.

Lemma records_spec html soup :
  BeautifulSoup html = Ret soup ->
  parse_articles_list BeautifulSoup fromisoformat small_year html
  = Ret (records BeautifulSoup fromisoformat small_year html).
Proof.
  intros E. unfold records. by rewrite (parse_articles_list_accepted html soup E).
Qed.

Lemma records_returned html rows :
  parse_articles_list BeautifulSoup fromisoformat small_year html = Ret rows ->
  records BeautifulSoup fromisoformat small_year html = rows.
Proof. intros H. unfold records. by rewrite H. Qed.

Lemma records_complete html :
  Forall complete (records BeautifulSoup fromisoformat small_year html).
Proof.
  unfold records.
  destruct (parse_articles_list BeautifulSoup fromisoformat small_year html)
    as [rows|e] eqn:E; [|constructor].
  by eapply parse_articles_list_complete.
Qed.

(** *** The pagination detector, by what the parser does *)

Lemma last_page_accepted html soup :
  BeautifulSoup html = Ret soup ->
  exists n, parse_pagination_last_page BeautifulSoup html = Ret n.
Proof.
  intros E. unfold parse_pagination_last_page. rewrite E. cbn [exc_bind].
  destruct (find _ _) as [pb|]; [|by eexists].
  destruct (last _) as [l|]; [|by eexists].
  destruct (PyInt.int _) as [n|e]; by eexists.
Qed.

Lemma last_page_rejected html e :
  BeautifulSoup html = Raise e ->
  parse_pagination_last_page BeautifulSoup html = Raise e.
Proof. intros E. unfold parse_pagination_last_page. by rewrite E. Qed.

Lemma last_page_inv html n :
  parse_pagination_last_page BeautifulSoup html = Ret n ->
  exists soup, BeautifulSoup html = Ret soup.
Proof.
  destruct (BeautifulSoup html) as [soup|e] eqn:E; [by eexists|].
  by rewrite (last_page_rejected html e E).
Qed.
End Extract.
End ExtractorFacts.


(** ** Page fetcher and orchestrator *)

Module ScraperFacts.
Import PyStr PyStrFacts Bs4 Spec Traffic ExtractorFacts.

Section Scrape.
Variable session_get : string -> exc response.
Variable BeautifulSoup : string -> exc node.
Variable fromisoformat : string -> exc Datetime.datetime.
Variable small_year : Z -> string.

Local Abbreviation fetch_html := (fetch_html session_get).
Local Abbreviation fetched := (fetched session_get).
Local Abbreviation slots_ok := (slots_ok session_get).
Local Abbreviation records := (records BeautifulSoup fromisoformat small_year).
Local Abbreviation page_records :=
  (page_records session_get BeautifulSoup fromisoformat small_year).
Local Abbreviation page_rows := (page_rows BeautifulSoup fromisoformat small_year).
Local Abbreviation later_urls := (later_urls session_get BeautifulSoup).
Local Abbreviation listing_rows :=
  (listing_rows session_get BeautifulSoup fromisoformat small_year).
Local Abbreviation listing_outcome :=
  (listing_outcome session_get BeautifulSoup fromisoformat small_year).
Local Abbreviation scrape_company_articles :=
  (scrape_company_articles session_get BeautifulSoup fromisoformat small_year).

(** a fetch issues one request and returns, whatever the request does *)
Lemma fetch_html_spec url log :
  fetch_html url log = (Ret (fetched url), log ++ [url]).
Proof.
  unfold Habr.fetch_html, Spec.fetched, io_try, io_bind, request, io_lift,
    io_ret, raise_for_status.
  destruct (session_get url) as [resp|e]; [|done].
  destruct (400 <=? status resp); [done|].
  by destruct (body_text resp).
Qed.

(** *** gather *)

Lemma slots_ok_insert urls slots i u :
  slots_ok urls slots -> urls !! i = Some u ->
  slots_ok urls (<[i := Some (fetched u)]> slots).
Proof.
  intros Hok Hu. unfold Spec.slots_ok in *.
  revert i Hu. induction Hok as [|u' s urls slots Hs Hok IH]; intros i Hu;
    [done|].
  destruct i as [|i]; simpl in *.
  - injection Hu as ->. constructor; [by right|done].
  - constructor; [done|]. by apply IH.
Qed.

Lemma filled_insert (slots : list (option (option string))) i j v :
  filled slots j -> filled (<[i := Some v]> slots) j.
Proof.
  unfold filled. intros Hj. destruct (decide (i = j)) as [->|Hne].
  - destruct (decide (j < length slots)%nat).
    + by rewrite list_lookup_insert_eq.
    + by rewrite list_insert_ge by lia.
  - by rewrite list_lookup_insert_ne.
Qed.

Lemma run_in_order_spec urls sched slots log :
  slots_ok urls slots ->
  exists slots' log',
    run_in_order (List.map fetch_html urls) sched slots log
    = (Ret slots', log')
    /\ slots_ok urls slots'
    /\ (forall i, filled slots i \/ i ∈ sched -> filled slots' i).
Proof.
  revert slots log. induction sched as [|i sched IH]; intros slots log Hok.
  - exists slots, log. split; [done|]. split; [done|].
    intros i [?|Hi]; [done|]. by apply elem_of_nil in Hi.
  - simpl.
    destruct (List.map fetch_html urls !! i) as [task|] eqn:Htask.
    + destruct (slots !! i) as [[v|]|] eqn:Hslot.
      * destruct (IH slots log Hok) as (slots' & log' & Hrun & Hok' & Hf).
        exists slots', log'. split; [done|]. split; [done|].
        intros j [Hj|Hj]; [by apply Hf; left|].
        apply elem_of_cons in Hj as [->|Hj]; [|by apply Hf; right].
        apply Hf. left. unfold filled. by rewrite Hslot.
      * change (List.map fetch_html urls) with (fetch_html <$> urls) in Htask.
        rewrite list_lookup_fmap in Htask.
        destruct (urls !! i) as [u|] eqn:Hu; [|done].
        injection Htask as <-.
        unfold io_bind. rewrite fetch_html_spec.
        destruct (IH (<[i := Some (fetched u)]> slots) (log ++ [u]))
          as (slots' & log' & Hrun & Hok' & Hf);
          [by apply slots_ok_insert|].
        exists slots', log'. split; [done|]. split; [done|].
        intros j [Hj|Hj].
        -- apply Hf. left. by apply filled_insert.
        -- apply elem_of_cons in Hj as [->|Hj]; [|by apply Hf; right].
           apply Hf. left. unfold filled.
           rewrite list_lookup_insert_eq; [done|].
           by eapply lookup_lt_Some.
      * destruct (IH slots log Hok) as (slots' & log' & Hrun & Hok' & Hf).
        exists slots', log'. split; [done|]. split; [done|].
        intros j [Hj|Hj]; [by apply Hf; left|].
        apply elem_of_cons in Hj as [->|Hj]; [|by apply Hf; right].
        apply Hf. left. unfold filled. by rewrite Hslot.
    + destruct (IH slots log Hok) as (slots' & log' & Hrun & Hok' & Hf).
      exists slots', log'. split.
      { by destruct (slots !! i). }
      split; [done|].
      intros j [Hj|Hj]; [by apply Hf; left|].
      apply elem_of_cons in Hj as [->|Hj]; [|by apply Hf; right].
      apply Hf. left. unfold filled.
      change (List.map fetch_html urls) with (fetch_html <$> urls) in Htask.
      rewrite list_lookup_fmap in Htask.
      destruct (urls !! i) eqn:Hu; [done|].
      apply lookup_ge_None in Hu.
      assert (Hlen : length slots = length urls)
        by (symmetry; by eapply Forall2_length).
      rewrite (proj2 (lookup_ge_None slots i)) by lia. done.
Qed.

Lemma slots_all_filled urls slots :
  slots_ok urls slots -> (forall i, filled slots i) ->
  omap id slots = List.map fetched urls.
Proof.
  intros Hok Hf. unfold Spec.slots_ok in Hok.
  induction Hok as [|u s urls slots Hs Hok IH]; [done|].
  destruct Hs as [->| ->].
  - by destruct (Hf 0%nat).
  - simpl. f_equal. apply IH. intros i. apply (Hf (S i)).
Qed.

(** The results of gathered fetches are those of the pages, in task
    order, whatever the order of completion. *)
Lemma gather_fetch urls sched log :
  exists log',
    gather (List.map fetch_html urls) sched log
    = (Ret (List.map fetched urls), log').
Proof.
  unfold gather, io_bind.
  destruct (run_in_order_spec urls
              (sched ++ seq 0 (length (List.map fetch_html urls)))
              (replicate (length (List.map fetch_html urls)) None) log)
    as (slots' & log' & -> & Hok & Hf).
  { unfold Spec.slots_ok. rewrite length_map.
    clear. induction urls; simpl; constructor; auto. }
  exists log'. unfold io_ret. f_equal. f_equal.
  apply slots_all_filled; [done|]. intros i.
  destruct (decide (i < length urls)%nat) as [Hi|Hi].
  - apply Hf. right. apply elem_of_app. right.
    rewrite length_map. apply elem_of_seq. lia.
  - unfold filled.
    assert (Hlen : length slots' = length urls)
      by (symmetry; by eapply Forall2_length).
    rewrite (proj2 (lookup_ge_None slots' i)) by lia. done.
Qed.

(** *** The log of gathered fetches *)

Lemma pending_insert urls slots i u (v : option string) :
  urls !! i = Some u -> slots !! i = Some None ->
  pending urls slots ≡ₚ u :: pending urls (<[i := Some v]> slots).
Proof.
  revert slots i. induction urls as [|u' urls IH]; intros slots i Hu Hs;
    [done|].
  destruct slots as [|s slots]; [done|].
  destruct i as [|i]; simpl in *.
  - injection Hu as ->. by injection Hs as ->.
  - destruct s as [w|].
    + by apply IH.
    + rewrite (IH slots i Hu Hs). apply Permutation_swap.
Qed.

Lemma pending_empty urls : pending urls (replicate (length urls) None) = urls.
Proof. induction urls as [|u urls IH]; simpl; [done|]. by rewrite IH. Qed.

Lemma pending_filled urls (slots : list (option (option string))) :
  (forall i, filled slots i) -> pending urls slots = [].
Proof.
  revert slots. induction urls as [|u urls IH]; intros slots Hf; [done|].
  destruct slots as [|s slots]; [done|]. simpl.
  destruct s as [w|]; [|by destruct (Hf 0%nat)].
  apply IH. intros i. apply (Hf (S i)).
Qed.

(** Every fetch that completes is one that was pending, and is logged
    once. *)
Lemma run_in_order_log urls sched slots log :
  exists slots' l,
    run_in_order (List.map fetch_html urls) sched slots log
    = (Ret slots', log ++ l)
    /\ l ++ pending urls slots' ≡ₚ pending urls slots.
Proof.
  revert slots log. induction sched as [|i sched IH]; intros slots log.
  - exists slots, []. by rewrite app_nil_r.
  - simpl.
    destruct (List.map fetch_html urls !! i) as [task|] eqn:Htask.
    + destruct (slots !! i) as [[v|]|] eqn:Hslot; [apply IH| |apply IH].
      change (List.map fetch_html urls) with (fetch_html <$> urls) in Htask.
      rewrite list_lookup_fmap in Htask.
      destruct (urls !! i) as [u|] eqn:Hu; [|done].
      injection Htask as <-.
      unfold io_bind. rewrite fetch_html_spec.
      destruct (IH (<[i := Some (fetched u)]> slots) (log ++ [u]))
        as (slots' & l & -> & Hl).
      exists slots', (u :: l). split.
      * by rewrite <- app_assoc.
      * rewrite (pending_insert urls slots i u (fetched u)) by done.
        simpl. by rewrite Hl.
    + destruct (IH slots log) as (slots' & l & Hrun & Hl).
      exists slots', l. split; [|done]. by destruct (slots !! i).
Qed.

(** Gathered fetches request every page once, in some order. *)
Lemma gather_log urls sched log :
  exists l,
    gather (List.map fetch_html urls) sched log
    = (Ret (List.map fetched urls), log ++ l)
    /\ l ≡ₚ urls.
Proof.
  pose proof (gather_fetch urls sched log) as [log' Hg].
  revert Hg. unfold gather, io_bind.
  set (sc := sched ++ seq 0 (length (List.map fetch_html urls))).
  set (sl := replicate (length (List.map fetch_html urls)) None).
  destruct (run_in_order_spec urls sc sl log)
    as (slots1 & log1 & Hrun1 & Hok & Hf).
  { unfold Spec.slots_ok, sl. rewrite length_map.
    clear. induction urls; simpl; constructor; auto. }
  destruct (run_in_order_log urls sc sl log) as (slots' & l & Hrun & Hl).
  rewrite Hrun. unfold io_ret. intros [= Hres <-].
  exists l. split; [by rewrite Hres|].
  rewrite Hrun in Hrun1. injection Hrun1 as <- _.
  unfold sl in Hl. rewrite length_map, pending_empty in Hl.
  rewrite pending_filled in Hl.
  - by rewrite app_nil_r in Hl.
  - intros i. destruct (decide (i < length urls)%nat) as [Hi|Hi].
    + apply Hf. right. unfold sc. apply elem_of_app. right.
      rewrite length_map. apply elem_of_seq. lia.
    + unfold filled.
      assert (Hlen : length slots' = length urls)
        by (symmetry; by eapply Forall2_length).
      rewrite (proj2 (lookup_ge_None slots' i)) by lia. done.
Qed.

(** *** The orchestrator *)

Lemma range_from_2_small last_page : last_page <= 1 -> range_from_2 last_page = [].
Proof.
  intros H. unfold range_from_2.
  by replace (Z.to_nat (last_page - 1)) with 0%nat by lia.
Qed.

Lemma range_from_2_not_first last_page k :
  k ∈ range_from_2 last_page -> (k =? 1) = false.
Proof.
  unfold range_from_2. intros Hk.
  apply list_elem_of_In, in_map_iff in Hk as (i & <- & _).
  apply Z.eqb_neq. lia.
Qed.

(** A scrape issues a request to the first page and one to every later
    page, in some order, and ends as the listing does, whatever the
    schedule. *)
Lemma scrape_closed articles_url sched :
  exists l,
    scrape_company_articles articles_url sched []
    = (listing_outcome articles_url, articles_url :: l)
    /\ l ≡ₚ later_urls articles_url.
Proof.
  unfold Habr.scrape_company_articles, io_bind, Traffic.listing_outcome,
    Traffic.later_urls.
  rewrite fetch_html_spec.
  destruct (fetched articles_url) as [html|]; [|by exists []].
  destruct (nonempty html) eqn:Hne; [|by exists []].
  unfold io_lift.
  destruct (parse_pagination_last_page BeautifulSoup html)
    as [last_page|e] eqn:Hlast; [|by exists []].
  cbn [exc_bind].
  destruct (parse_articles_list BeautifulSoup fromisoformat small_year html)
    as [rows|e] eqn:Hrows.
  - cbn [exc_bind].
    destruct (1 <? last_page) eqn:Hmany.
    + rewrite <- (List.map_map (page_url articles_url) fetch_html).
      destruct (gather_log
                  (List.map (page_url articles_url) (range_from_2 last_page))
                  sched ([] ++ [articles_url])) as (l & -> & Hl).
      by exists l.
    + exists []. unfold io_ret.
      rewrite range_from_2_small by lia. done.
  - destruct (last_page_inv BeautifulSoup html last_page Hlast) as [soup E].
    by rewrite (records_spec BeautifulSoup fromisoformat small_year
                  html soup E) in Hrows.
Qed.

Lemma scrape_first_page_fails articles_url sched :
  fetched articles_url = None ->
  scrape_company_articles articles_url sched [] = (Ret [], [articles_url]).
Proof.
  intros H. unfold Habr.scrape_company_articles, io_bind.
  by rewrite fetch_html_spec, H.
Qed.

(** *** The rows of the later pages *)

Lemma page_rows_complete page : Forall complete (page_rows page).
Proof.
  destruct page as [h|]; [|constructor]. unfold Traffic.page_rows.
  destruct (nonempty h); [apply records_complete|constructor].
Qed.

(** when the loop returns, every page it parsed gave its records *)
Lemma extend_rows_returned pages_html rows rows' :
  extend_rows BeautifulSoup fromisoformat small_year pages_html rows
  = Ret rows' ->
  rows' = rows ++ concat (List.map page_rows pages_html).
Proof.
  revert rows. induction pages_html as [|page rest IH]; intros rows; simpl.
  - rewrite app_nil_r. by intros [= <-].
  - destruct page as [html|]; [|apply IH].
    unfold Traffic.page_rows at 1.
    destruct (nonempty html); [|apply IH].
    destruct (parse_articles_list BeautifulSoup fromisoformat small_year html)
      as [more|e] eqn:E; [|done].
    cbn [exc_bind]. intros H%IH.
    rewrite (records_returned _ _ _ _ _ E). by rewrite H, <- app_assoc.
Qed.

(** the loop returns when the parser accepts every page it parses *)
Lemma extend_rows_accepted pages_html rows :
  Forall (fun page => forall html, page = Some html -> html <> "" ->
                        exists soup, BeautifulSoup html = Ret soup)
         pages_html ->
  extend_rows BeautifulSoup fromisoformat small_year pages_html rows
  = Ret (rows ++ concat (List.map page_rows pages_html)).
Proof.
  intros Hall. revert rows.
  induction Hall as [|page rest Hpage _ IH]; intros rows; simpl.
  - by rewrite app_nil_r.
  - destruct page as [html|]; [|apply IH].
    unfold Traffic.page_rows at 1.
    destruct html as [|c html]; [apply IH|]. cbn [nonempty].
    destruct (Hpage (String c html) eq_refl) as [soup E]; [done|].
    rewrite (records_spec _ _ _ _ soup E). cbn [exc_bind].
    by rewrite IH, <- app_assoc.
Qed.

(** the loop raises when the parser rejects one of the pages it parses *)
Lemma extend_rows_raises pages_html rows html e :
  Some html ∈ pages_html -> html <> "" -> BeautifulSoup html = Raise e ->
  exists e',
    extend_rows BeautifulSoup fromisoformat small_year pages_html rows
    = Raise e'.
Proof.
  intros Hin Hne E. revert rows.
  induction pages_html as [|page rest IH]; intros rows;
    [by apply elem_of_nil in Hin|].
  simpl. apply elem_of_cons in Hin as [<-|Hin].
  - apply nonempty_true in Hne. rewrite Hne.
    rewrite (parse_articles_list_rejected _ _ _ _ e E). by eexists.
  - destruct page as [h|]; [|by apply IH].
    destruct (nonempty h); [|by apply IH].
    destruct (parse_articles_list BeautifulSoup fromisoformat small_year h)
      as [more|e']; [|by eexists].
    cbn [exc_bind]. by apply IH.
Qed.

(** *** The listing *)

Lemma later_pages articles_url last_page :
  List.map (fun u => page_rows (fetched u))
           (List.map (page_url articles_url) (range_from_2 last_page))
  = List.map (page_records articles_url) (range_from_2 last_page).
Proof.
  rewrite List.map_map. apply List.map_ext_in. intros k Hk.
  unfold Spec.page_records, page_address, Traffic.page_rows.
  by rewrite (range_from_2_not_first last_page k)
    by (by apply list_elem_of_In).
Qed.

(** the rows of the listing are those of its pages, in the order of the
    page numbers *)
Lemma listing_rows_pages articles_url html last_page :
  fetched articles_url = Some html -> html <> "" ->
  parse_pagination_last_page BeautifulSoup html = Ret last_page ->
  later_urls articles_url
  = List.map (page_url articles_url) (range_from_2 last_page)
  /\ listing_rows articles_url
     = concat (List.map (page_records articles_url) (page_numbers last_page)).
Proof.
  intros Hfirst Hne%nonempty_true Hlast.
  assert (Hl : later_urls articles_url
               = List.map (page_url articles_url) (range_from_2 last_page)).
  { unfold Traffic.later_urls. by rewrite Hfirst, Hne, Hlast. }
  split; [done|].
  unfold Traffic.listing_rows, page_numbers. rewrite Hl.
  rewrite later_pages. cbn [List.map concat]. by f_equal.
Qed.

Lemma listing_rows_complete articles_url :
  Forall complete (listing_rows articles_url).
Proof.
  unfold Traffic.listing_rows. apply Forall_app.
  split; [apply page_rows_complete|].
  induction (later_urls articles_url) as [|u us IH]; simpl; [constructor|].
  apply Forall_app. split; [apply page_rows_complete|apply IH].
Qed.

(** when the listing returns, its rows are those of its pages *)
Lemma listing_outcome_returned articles_url rows :
  listing_outcome articles_url = Ret rows -> rows = listing_rows articles_url.
Proof.
  unfold Traffic.listing_outcome, Traffic.listing_rows, Traffic.later_urls.
  destruct (fetched articles_url) as [html|] eqn:Hfirst;
    [|by intros [= <-]].
  unfold Traffic.page_rows at 1.
  destruct (nonempty html) eqn:Hne; [|by intros [= <-]].
  destruct (parse_pagination_last_page BeautifulSoup html)
    as [last_page|e]; [|done].
  cbn [exc_bind].
  destruct (parse_articles_list BeautifulSoup fromisoformat small_year html)
    as [first|e] eqn:E; [|done].
  cbn [exc_bind]. intros H%extend_rows_returned.
  rewrite (records_returned _ _ _ _ _ E).
  by rewrite H, List.map_map.
Qed.

(** the listing returns when the parser accepts every page fetched *)
Lemma listing_outcome_accepted articles_url :
  (forall u html, u = articles_url \/ u ∈ later_urls articles_url ->
                  fetched u = Some html -> html <> "" ->
                  exists soup, BeautifulSoup html = Ret soup) ->
  listing_outcome articles_url = Ret (listing_rows articles_url).
Proof.
  intros Hacc. unfold Traffic.listing_outcome, Traffic.listing_rows.
  destruct (fetched articles_url) as [html|] eqn:Hfirst.
  2: { unfold Traffic.later_urls. by rewrite Hfirst. }
  unfold Traffic.page_rows at 1.
  destruct (nonempty html) eqn:Hne.
  - destruct (Hacc articles_url html) as [soup E];
      [by left|done|by apply nonempty_true|].
    destruct (last_page_accepted BeautifulSoup html soup E) as [n ->].
    rewrite (records_spec _ _ _ _ soup E). cbn [exc_bind].
    rewrite extend_rows_accepted; [by rewrite List.map_map|].
    apply Forall_forall. intros page Hpage h -> Hh.
    apply list_elem_of_In, in_map_iff in Hpage as (u & Hu & Hin).
    apply (Hacc u h); [right; by apply list_elem_of_In|done|done].
  - unfold Traffic.later_urls. by rewrite Hfirst, Hne.
Qed.

(** the listing raises when the parser rejects the first page, or a
    later page that was fetched *)
Lemma listing_outcome_first_rejected articles_url html e :
  fetched articles_url = Some html -> html <> "" ->
  BeautifulSoup html = Raise e ->
  listing_outcome articles_url = Raise e.
Proof.
  intros Hfirst Hne%nonempty_true E. unfold Traffic.listing_outcome.
  rewrite Hfirst, Hne. by rewrite (last_page_rejected _ html e E).
Qed.

Lemma listing_outcome_later_rejected articles_url html last_page k page e :
  fetched articles_url = Some html -> html <> "" ->
  parse_pagination_last_page BeautifulSoup html = Ret last_page ->
  k ∈ range_from_2 last_page ->
  fetched (page_url articles_url k) = Some page -> page <> "" ->
  BeautifulSoup page = Raise e ->
  exists e', listing_outcome articles_url = Raise e'.
Proof.
  intros Hfirst Hne Hlast Hk Hpage Hpne E.
  destruct (listing_rows_pages articles_url html last_page Hfirst Hne Hlast)
    as [Hl _].
  unfold Traffic.listing_outcome. rewrite Hfirst.
  apply nonempty_true in Hne. rewrite Hne, Hlast. cbn [exc_bind].
  destruct (parse_articles_list BeautifulSoup fromisoformat small_year html)
    as [rows|e']; [|by eexists].
  cbn [exc_bind]. apply (extend_rows_raises _ rows page e); [|done|done].
  rewrite Hl, <- Hpage. apply list_elem_of_In, in_map, in_map.
  by apply list_elem_of_In.
Qed.

End Scrape.
End ScraperFacts.


(** * The properties of the specification *)

(** ** URL normalizer *)

Section NormalizerClaims.
Import PyStr PyStrFacts UrlLib Canon CanonFacts UrlFacts NormalizerFacts.

Variable _check_bracketed_host : string -> exc unit.
Variable _checknetloc_nfkc : string -> exc unit.

Local Abbreviation urlparse := (urlparse _check_bracketed_host _checknetloc_nfkc).
Local Abbreviation canonical := (canonical _check_bracketed_host _checknetloc_nfkc).
Local Abbreviation normalize :=
  (normalize_company_articles_url _check_bracketed_host _checknetloc_nfkc).

(** C2. Normalization is idempotent: for every non-empty link,
    normalizing the normalized link gives what normalizing the link
    gives (the same address, or the same exception where the link is
    refused); and an address that normalization returned is returned
    unchanged. *)
Theorem normalize_idempotent (x : string) :
  x <> "" ->
  (let* y := normalize x in normalize y)%exc = normalize x
  /\ (forall y, normalize x = Ret y -> normalize y = Ret y).
Proof.
  intros _.
  assert (H : forall y, normalize x = Ret y -> normalize y = Ret y).
  { intros y (sc & nl & segs & -> & Hsc & Hnl & Hsegs)%normalize_inv.
    by apply normalize_fixpoint. }
  split; [|done].
  destruct (normalize x) as [y|e] eqn:E; [|done]. by apply H.
Qed.

(** C10. The address returned for a link carries neither its query nor
    its fragment: it is built from the scheme, the host and the path of
    the parsed link alone, it has no "?" and no "#", and it parses back
    into a scheme, a host and a path ending in a separator, with empty
    params, query and fragment. *)
Theorem normalize_drops_query_and_fragment (raw y : string) :
  normalize raw = Ret y ->
  (exists parsed,
      urlparse (strip isspace raw) = Ret parsed
      /\ y = address_of (mkParseResult (scheme parsed) (netloc parsed)
                                       (path parsed) "" "" ""))
  /\ contains "?" y = false /\ contains "#" y = false
  /\ (exists sc nl p,
         y = sc +:+ "://" +:+ nl +:+ p /\ endswith "/" p = true
         /\ urlparse y = Ret (mkParseResult sc nl p "" "" "")).
Proof.
  intros H.
  assert (Hne : raw <> "") by (by intros ->).
  destruct (urlparse (strip isspace raw)) as [parsed|e] eqn:Hp;
    [|by rewrite (normalize_raises _ _ _ _ Hne Hp) in H].
  rewrite (normalize_returns _ _ _ _ Hne Hp) in H. injection H as <-.
  pose proof (address_of_canonical _ _ _ _ Hp) as Hcanon.
  split; [by exists parsed|].
  destruct (canonical_no_query_fragment _ _ _ Hcanon) as [Hq Hf].
  split; [done|]. split; [done|].
  destruct Hcanon as (sc & nl & segs & Hy & Hsc & Hnl & Hsegs).
  exists sc, nl, (canon_path segs). split; [done|]. split.
  - destruct (canon_path_ends segs) as [t ->]. apply endswith_app.
  - rewrite Hy. by apply urlparse_canonical.
Qed.

(** C7, as amended. Normalization of the empty link fails with the
    ValueError of a missing link.  For a non-empty link it fails exactly
    when the URL parser refuses the trimmed link, with the parser's
    exception, and otherwise returns a canonical listing address.  It
    issues no request, and when it fails the entry point issues none
    either. *)
Theorem normalize_failure (raw : string) :
  (raw = "" -> normalize raw = Raise (ValueError LinkMissing))
  /\ (raw <> "" ->
      match urlparse (strip isspace raw) with
      | Raise e => normalize raw = Raise e
      | Ret parsed => exists y, normalize raw = Ret y /\ canonical y
      end)
  /\ (forall session_get BeautifulSoup fromisoformat small_year
             generated_at page_open page_source page_table page_total
             page_close script_dir write_text output sched e,
        normalize raw = Raise e ->
        main_async session_get BeautifulSoup fromisoformat small_year
                   _check_bracketed_host _checknetloc_nfkc
                   generated_at page_open page_source page_table page_total
                   page_close script_dir write_text raw output sched []
        = (Ret None, [])).
Proof.
  split; [by intros ->|]. split.
  - intros Hne.
    destruct (urlparse (strip isspace raw)) as [parsed|e] eqn:Hp.
    + exists (address_of parsed). split; [by apply normalize_returns|].
      by eapply address_of_canonical.
    + by apply normalize_raises.
  - intros ? ? ? ? ? ? ? ? ? ? ? ? ? ? e H. unfold main_async. by rewrite H.
Qed.
End NormalizerClaims.

(** A profile link and a listing link of a company normalize to one
    address, and that address normalizes to itself. *)
Lemma normalize_idempotent_witness :
  "habr.com//ru/companies/acme/?utm=1#top" <> ""
  /\ normalize_company_articles_url Sample.host_ok Sample.host_ok
       "https://habr.com/ru/companies/acme/"
     = Ret "https://habr.com/ru/companies/acme/articles/"
  /\ normalize_company_articles_url Sample.host_ok Sample.host_ok
       "https://habr.com/ru/companies/acme/articles/"
     = Ret "https://habr.com/ru/companies/acme/articles/"
  /\ (let* y := normalize_company_articles_url Sample.host_ok Sample.host_ok
                  "habr.com//ru/companies/acme/?utm=1#top" in
      normalize_company_articles_url Sample.host_ok Sample.host_ok y)%exc
     = normalize_company_articles_url Sample.host_ok Sample.host_ok
         "habr.com//ru/companies/acme/?utm=1#top".
Proof.
  split; [done|]. split; [vm_compute; reflexivity|].
  split; [vm_compute; reflexivity|].
  destruct (normalize_idempotent Sample.host_ok Sample.host_ok
              "habr.com//ru/companies/acme/?utm=1#top") as [H _]; [done|].
  exact H.
Defined.

Lemma normalize_drops_query_and_fragment_witness :
  normalize_company_articles_url Sample.host_ok Sample.host_ok
    "https://habr.com/ru/companies/acme/?page=2#comments"
  = Ret "https://habr.com/ru/companies/acme/articles/"
  /\ PyStr.contains "?" "https://habr.com/ru/companies/acme/articles/" = false
  /\ PyStr.contains "#" "https://habr.com/ru/companies/acme/articles/" = false.
Proof.
  assert (H : normalize_company_articles_url Sample.host_ok Sample.host_ok
                "https://habr.com/ru/companies/acme/?page=2#comments"
              = Ret "https://habr.com/ru/companies/acme/articles/")
    by (vm_compute; reflexivity).
  split; [exact H|].
  destruct (normalize_drops_query_and_fragment _ _ _ _ H) as (_ & Hq & Hf & _).
  split; [exact Hq|exact Hf].
Defined.

Lemma normalize_failure_witness :
  normalize_company_articles_url Sample.host_ok Sample.host_ok ""
  = Raise (ValueError LinkMissing)
  /\ main_async Sample.session_get Sample.BeautifulSoup Sample.fromisoformat
       Sample.small_year Sample.host_ok Sample.host_ok
       "2024-03-05 14:30:00" "<html>" "<a>" "<table>" "<span>" "</html>"
       "/srv/habr" Sample.disk_ok "" "report.html" [] []
     = (Ret None, [])
  /\ exists y,
       normalize_company_articles_url Sample.host_ok Sample.host_ok
         "habr.com/ru/companies/acme" = Ret y
       /\ Canon.canonical Sample.host_ok Sample.host_ok y.
Proof.
  destruct (normalize_failure Sample.host_ok Sample.host_ok "")
    as (H1 & _ & H3).
  split; [by apply H1|]. split; [by eapply H3, H1|].
  destruct (normalize_failure Sample.host_ok Sample.host_ok
              "habr.com/ru/companies/acme") as (_ & H2 & _).
  assert (Hne : "habr.com/ru/companies/acme" <> "") by done.
  specialize (H2 Hne).
  assert (Hp : UrlLib.urlparse Sample.host_ok Sample.host_ok
                 (PyStr.strip PyStr.isspace "habr.com/ru/companies/acme")
               = Ret (UrlLib.mkParseResult "" "" "habr.com/ru/companies/acme"
                                           "" "" ""))
    by (vm_compute; reflexivity).
  rewrite Hp in H2. exact H2.
Defined.

(** C7, as stated, fails: a link whose host opens a bracket it never
    closes is not empty, and normalization raises on it. *)
Lemma normalize_failure_counterexample :
  "//[" <> ""
  /\ forall _check_bracketed_host _checknetloc_nfkc,
       normalize_company_articles_url _check_bracketed_host _checknetloc_nfkc
         "//["
       = Raise (ValueError InvalidIPv6URL).
Proof. split; [done|]. intros ? ?. reflexivity. Qed.


(** ** Record extractor and pagination detector *)

Module FallbackFacts.
Import PyStr PyStrFacts CanonFacts Spec.

Lemma split_head c s :
  exists l, split c s = before (fun x => eqc x c) s :: l.
Proof.
  induction s as [|x s [l IH]]; simpl; [by eexists|].
  destruct (eqc x c); [by eexists|]. rewrite IH. by eexists.
Qed.

Lemma fallback_time_none iso : contains "T" iso = false -> fallback_time iso = NA.
Proof. intros H. unfold fallback_time. by rewrite split_lacks. Qed.

Lemma fallback_time_after day rest :
  contains "T" day = false ->
  fallback_time (day +:+ String "T" rest)
  = take 5 (before (fun x => eqc x "T") rest).
Proof.
  intros H. unfold fallback_time. rewrite split_app_sep by done.
  by destruct (split_head "T" rest) as [l ->].
Qed.

Lemma take_before n p s :
  all (fun x => negb (p x)) (take n s) = true ->
  take n (before p s) = take n s.
Proof.
  revert s. induction n as [|n IH]; intros [|c s]; simpl; try done.
  intros [Hc Hs]%andb_true_iff. apply negb_true_iff in Hc. rewrite Hc.
  simpl. by rewrite IH.
Qed.

Lemma drop_app s t : drop (String.length s) (s +:+ t) = t.
Proof. induction s as [|c s IH]; simpl; [by destruct t|done]. Qed.

(** with the "T" in its place, the time is characters 11 to 16 *)
Lemma fallback_time_in_place day rest :
  String.length day = 10%nat -> contains "T" day = false ->
  contains "T" (take 5 rest) = false ->
  fallback_time (day +:+ String "T" rest)
  = take 5 (drop 11 (day +:+ String "T" rest)).
Proof.
  intros Hlen Hday Hrest. rewrite fallback_time_after by done.
  rewrite take_before by (by apply contains_false).
  f_equal. change 11%nat with (S 10). rewrite <- Hlen.
  change (day +:+ String "T" rest) with (day +:+ ("T" +:+ rest)).
  rewrite <- str_app_assoc.
  replace (S (String.length day)) with (String.length (day +:+ "T")).
  - by rewrite drop_app.
  - clear. induction day as [|c day IH]; simpl; [done|]. by rewrite IH.
Qed.
End FallbackFacts.

Section ExtractorClaims.
Import PyStr PyStrFacts Bs4 Datetime Spec ExtractorFacts FallbackFacts.

Variable BeautifulSoup : string -> exc node.
Variable fromisoformat : string -> exc datetime.
Variable small_year : Z -> string.

Local Abbreviation parse_article_block :=
  (parse_article_block fromisoformat small_year).
Local Abbreviation parse_articles_list :=
  (parse_articles_list BeautifulSoup fromisoformat small_year).
Local Abbreviation parse_pagination_last_page :=
  (parse_pagination_last_page BeautifulSoup).

(** C3, as amended. For an article whose time element has a non-empty
    timestamp attribute, let iso be the attribute without surrounding
    whitespace.  When datetime.fromisoformat accepts iso, every "Z" of it
    read as "+00:00", the date of the record is that instant printed as
    %Y-%m-%d (YYYY-MM-DD from the year 1000 on) and its time is that
    instant printed as %H:%M (HH:MM).  When it does not, the date is the
    first 10 characters of iso, and the time is the first five characters
    of what stands between the first "T" of iso and the next: characters
    11 to 16 when the first "T" is the 11th character and no other follows
    within five characters, and the sentinel when iso has no "T". *)
Theorem datetime_extraction (article_block te : node) (attribute : string) :
  find article_block (mkStrainer "time" None []) = Some te ->
  get te "datetime" = Some attribute -> attribute <> "" ->
  let iso := strip isspace attribute in
  exists row d t,
    parse_article_block article_block = Ret row
    /\ row !! "date" = Some d /\ row !! "time" = Some t
    /\ (forall dt, fromisoformat (replace_Z iso) = Ret dt ->
          d = fmt_Y small_year (year dt) +:+ "-" +:+ pad2 (month dt)
              +:+ "-" +:+ pad2 (day dt)
          /\ t = pad2 (hour dt) +:+ ":" +:+ pad2 (minute dt))
    /\ (forall e, fromisoformat (replace_Z iso) = Raise e ->
          d = take 10 iso /\ t = fallback_time iso
          /\ (contains "T" iso = false -> t = NA)
          /\ (forall day rest,
                iso = day +:+ String "T" rest -> contains "T" day = false ->
                t = take 5 (before (fun x => eqc x "T") rest)
                /\ (String.length day = 10%nat ->
                    contains "T" (take 5 rest) = false ->
                    t = take 5 (drop 11 iso)))).
Proof.
  intros Hte Ha Hne iso.
  destruct (parse_article_block_date_time fromisoformat small_year
              _ _ _ Hte Ha Hne) as (d & t & row & Hdt & Hrow & Hd & Ht).
  exists row, d, t. split; [done|]. split; [done|]. split; [done|]. split.
  - intros dt Hp.
    rewrite (datetime_parsed _ _ _ _ Hp) in Hdt. by injection Hdt as <- <-.
  - intros e Hp.
    rewrite (datetime_failed _ _ _ _ Hp) in Hdt. injection Hdt as <- <-.
    split; [done|]. split; [done|]. split; [apply fallback_time_none|].
    intros day rest Hiso Hday. fold iso. rewrite Hiso. split.
    + by apply fallback_time_after.
    + intros. by apply fallback_time_in_place.
Qed.

(** C4. Every record the extractor produces, for every markup, has the
    nine fields url, title, author, date, time, votes, comments,
    bookmarks and views, and no other, each bound to a string: the rows
    of a page are such records whenever the extraction of the page
    returns, which it does when the HTML parser accepts the markup; and
    the extraction of a block always produces such a record. *)
Theorem record_fields_present (html : string) :
  (forall rows, parse_articles_list html = Ret rows -> Forall complete rows)
  /\ (forall soup, BeautifulSoup html = Ret soup ->
        exists rows, parse_articles_list html = Ret rows
                     /\ Forall complete rows)
  /\ (forall article_block,
        exists row, parse_article_block article_block = Ret row
                    /\ dom row = list_to_set FIELDS
                    /\ Forall (fun k => exists v : string, row !! k = Some v)
                              FIELDS).
Proof.
  split; [|split].
  - intros rows. apply parse_articles_list_complete.
  - intros soup E. eexists.
    split; [by apply (parse_articles_list_accepted _ _ _ html soup)|].
    apply block_rows_complete.
  - intros article_block.
    destruct (parse_article_block_complete fromisoformat small_year
                article_block) as (row & Hrow & Hdom & Hall).
    exists row. done.
Qed.


End ExtractorClaims.


(** A timestamp of the site gives its date and its time; a text that is
    no timestamp and has no "T" gives its first 10 characters and the
    sentinel. *)
Lemma datetime_extraction_witness :
  (exists row,
      parse_article_block Sample.fromisoformat Sample.small_year
        (Sample.article [Sample.time_tag "2024-03-05T14:30:00Z"]) = Ret row
      /\ row !! "date" = Some "2024-03-05" /\ row !! "time" = Some "14:30")
  /\ (exists row,
         parse_article_block Sample.fromisoformat Sample.small_year
           (Sample.article [Sample.time_tag "not-a-date"]) = Ret row
         /\ row !! "date" = Some "not-a-date" /\ row !! "time" = Some NA).
Proof.
  split.
  - destruct (datetime_extraction Sample.fromisoformat Sample.small_year
                (Sample.article [Sample.time_tag "2024-03-05T14:30:00Z"])
                (Sample.time_tag "2024-03-05T14:30:00Z")
                "2024-03-05T14:30:00Z")
      as (row & d & t & Hrow & Hd & Ht & Hparsed & _);
      [reflexivity|reflexivity|done|].
    destruct (Hparsed (Datetime.mkDatetime 2024 3 5 14 30 0 0 (Some 0)))
      as [Hd' Ht']; [vm_compute; reflexivity|].
    vm_compute in Hd', Ht'. subst d t. by exists row.
  - destruct (datetime_extraction Sample.fromisoformat Sample.small_year
                (Sample.article [Sample.time_tag "not-a-date"])
                (Sample.time_tag "not-a-date") "not-a-date")
      as (row & d & t & Hrow & Hd & Ht & _ & Hfailed);
      [reflexivity|reflexivity|done|].
    destruct (Hfailed (ValueError InvalidLiteral))
      as (Hd' & _ & Ht' & _); [vm_compute; reflexivity|].
    specialize (Ht' eq_refl). vm_compute in Hd'. subst d t. by exists row.
Defined.

(** C3, as stated, fails: this attribute does not parse, the time taken
    from it is neither its characters 11 to 16, counted from 0 or from 1,
    nor the sentinel. *)
Lemma datetime_extraction_counterexample :
  let attribute := "Tuesday 2024-03-05T14:30" in
  Sample.fromisoformat (replace_Z attribute) = Raise (ValueError InvalidLiteral)
  /\ parse_datetime_attribute Sample.fromisoformat Sample.small_year attribute
     = Ret ("Tuesday 20", "uesda")
  /\ PyStr.take 5 (PyStr.drop 11 attribute) = "4-03-"
  /\ PyStr.take 6 (PyStr.drop 10 attribute) = "24-03-"
  /\ "uesda" <> "4-03-" /\ "uesda" <> "24-03-" /\ "uesda" <> NA.
Proof.
  cbv zeta. repeat split; try (vm_compute; reflexivity); discriminate.
Qed.





Lemma record_fields_present_witness :
  (exists rows,
      parse_articles_list Sample.BeautifulSoup Sample.fromisoformat
        Sample.small_year Sample.page3_html = Ret rows
      /\ Forall Spec.complete rows)
  /\ exists row,
       parse_article_block Sample.fromisoformat Sample.small_year
         (Sample.article []) = Ret row
       /\ dom row = list_to_set Spec.FIELDS
       /\ row !! "views" = Some NA.
Proof.
  destruct (record_fields_present Sample.BeautifulSoup Sample.fromisoformat
              Sample.small_year Sample.page3_html) as (_ & H2 & H).
  split.
  - apply (H2 (Sample.document
                 [Sample.article [Sample.time_tag "not-a-date"];
                  Sample.article []])).
    reflexivity.
  - destruct (H (Sample.article [])) as (row & Hrow & Hdom & _).
    exists row. split; [exact Hrow|]. split; [exact Hdom|].
    vm_compute in Hrow. injection Hrow as <-. reflexivity.
Defined.

(** ** Page fetcher and orchestrator *)

Section ScraperClaims.
Import PyStr PyStrFacts Bs4 Spec Traffic ExtractorFacts ScraperFacts.

Variable session_get : string -> exc response.
Variable BeautifulSoup : string -> exc node.
Variable fromisoformat : string -> exc Datetime.datetime.
Variable small_year : Z -> string.

Local Abbreviation fetch_html := (fetch_html session_get).
Local Abbreviation fetched := (fetched session_get).
Local Abbreviation records := (records BeautifulSoup fromisoformat small_year).
Local Abbreviation page_records :=
  (page_records session_get BeautifulSoup fromisoformat small_year).
Local Abbreviation page_accepted := (page_accepted session_get BeautifulSoup).
Local Abbreviation parse_pagination_last_page :=
  (parse_pagination_last_page BeautifulSoup).
Local Abbreviation scrape_company_articles :=
  (scrape_company_articles session_get BeautifulSoup fromisoformat small_year).

(** C6, as amended. For every URL and every outcome of the request, the
    fetch issues that one request and returns without raising: it
    returns the failure value when the request raises (a network error
    or a timeout), when the response has a status of 400 or above, and
    when reading its body raises; it returns the body of a response
    whose status is below 400. *)
Theorem fetch_html_never_raises (url : string) (log : list string) :
  (exists result, fetch_html url log = (Ret result, log ++ [url]))
  /\ (forall e, session_get url = Raise e ->
        fetch_html url log = (Ret None, log ++ [url]))
  /\ (forall resp, session_get url = Ret resp -> 400 <= status resp ->
        fetch_html url log = (Ret None, log ++ [url]))
  /\ (forall resp e, session_get url = Ret resp -> body_text resp = Raise e ->
        fetch_html url log = (Ret None, log ++ [url]))
  /\ (forall resp html,
        session_get url = Ret resp -> status resp < 400 ->
        body_text resp = Ret html ->
        fetch_html url log = (Ret (Some html), log ++ [url])).
Proof.
  rewrite fetch_html_spec. unfold Spec.fetched.
  split; [by eexists|]. split; [by intros e ->|]. split; [|split].
  - intros resp -> Hs. apply Z.leb_le in Hs. by rewrite Hs.
  - intros resp e -> He. rewrite He. by destruct (400 <=? status resp).
  - intros resp html -> Hs Hb. rewrite Hb.
    by replace (400 <=? status resp) with false by lia.
Qed.


(** C5. For every scrape whose fetch of page 1 fails, the scrape returns
    the empty sequence, and the request for page 1 is the only one it
    issues. *)
Theorem scrape_first_page_failure (articles_url : string) (sched : list nat) :
  fetched articles_url = None ->
  outcome (scrape_company_articles articles_url sched) = Ret []
  /\ requests (scrape_company_articles articles_url sched) = [articles_url].
Proof.
  intros H. unfold outcome, requests.
  by rewrite (scrape_first_page_fails _ _ _ _ _ _ H).
Qed.
End ScraperClaims.

Lemma fetch_html_never_raises_witness :
  fetch_html Sample.session_get (Sample.listing +:+ "page2/") []
  = (Ret None, [Sample.listing +:+ "page2/"])
  /\ fetch_html Sample.session_get "https://habr.com/404" []
     = (Ret None, ["https://habr.com/404"])
  /\ fetch_html Sample.session_get Sample.listing []
     = (Ret (Some Sample.page1_html), [Sample.listing]).
Proof.
  split; [|split].
  - destruct (fetch_html_never_raises Sample.session_get
                (Sample.listing +:+ "page2/") []) as (_ & H & _).
    apply (H TimeoutError). reflexivity.
  - destruct (fetch_html_never_raises Sample.session_get
                "https://habr.com/404" []) as (_ & _ & H & _).
    apply (H (mkResponse 404 (Ret ""))); [reflexivity|simpl; lia].
  - destruct (fetch_html_never_raises Sample.session_get Sample.listing [])
      as (_ & _ & _ & _ & H).
    apply (H (mkResponse 200 (Ret Sample.page1_html)));
      [reflexivity|simpl; lia|reflexivity].
Defined.

(** C6, as stated, fails: a response with status 300 is not a 2xx
    response, and the fetch returns its body, not the failure value. *)
Lemma fetch_html_never_raises_counterexample :
  Sample.multiple_choices "https://habr.com/"
  = Ret (mkResponse 300 (Ret Sample.choices_html))
  /\ ~ (200 <= 300 < 300)
  /\ outcome (fetch_html Sample.multiple_choices "https://habr.com/")
     = Ret (Some Sample.choices_html).
Proof. split; [reflexivity|]. split; [lia|reflexivity]. Qed.



Lemma scrape_first_page_failure_witness :
  Spec.fetched Sample.site_down Sample.listing = None
  /\ outcome (scrape_company_articles Sample.site_down Sample.BeautifulSoup
                Sample.fromisoformat Sample.small_year Sample.listing [1%nat; 0%nat])
     = Ret []
  /\ requests (scrape_company_articles Sample.site_down Sample.BeautifulSoup
                 Sample.fromisoformat Sample.small_year Sample.listing [1%nat; 0%nat])
     = [Sample.listing].
Proof.
  split; [reflexivity|].
  apply (scrape_first_page_failure Sample.site_down Sample.BeautifulSoup
           Sample.fromisoformat Sample.small_year Sample.listing [1%nat; 0%nat]).
  reflexivity.
Defined.


(** * Further properties of the program *)

(** ** Links as they are typed *)

Module LinkFacts.
Import PyStr PyStrFacts UrlLib Canon CharFacts CanonFacts PathFacts UrlFacts
       ParseFacts NormalizerFacts Links.

Lemma printable_not_space c : printable c = true -> negb (isspace c) = true.
Proof. by_char c. Qed.

Lemma printable_not_c0 c : printable c = true -> is_c0_control_or_space c = false.
Proof. by_char c. Qed.

Lemma printable_safe c : printable c = true -> safe c = true.
Proof. by_char c. Qed.

Lemma printable_ascii c : printable c = true -> isascii c = true.
Proof. by_char c. Qed.

Lemma link_char_printable c : link_char c = true -> printable c = true.
Proof. by_char c. Qed.

Lemma link_char_path c : link_char c = true -> path_char c = true.
Proof. by_char c. Qed.

Lemma link_char_not_colon c : link_char c = true -> negb (eqc c ":") = true.
Proof. by_char c. Qed.

Lemma link_char_not_semicolon c : link_char c = true -> negb (eqc c ";") = true.
Proof. by_char c. Qed.

Lemma name_char_link c : name_char c = true -> link_char c = true.
Proof. by_char c. Qed.

Lemma name_char_not_slash c : name_char c = true -> negb (eqc c "/") = true.
Proof. by_char c. Qed.

Lemma scheme_char_printable c : is_scheme_char c = true -> printable c = true.
Proof. by_char c. Qed.

Lemma question_no_scheme c :
  eqc c "?" || eqc c "#" = true -> is_scheme_char c = false.
Proof. by_char c. Qed.

Lemma question_delim c :
  eqc c "?" || eqc c "#" = true -> is_netloc_delim c = true.
Proof. by_char c. Qed.

Lemma slash_delim c : eqc c "/" = true -> is_netloc_delim c = true.
Proof. by_char c. Qed.

Lemma eqc_true a b : eqc a b = true -> a = b.
Proof. apply Ascii.eqb_eq. Qed.

(** *** Stripping *)

Lemma lstrip_all p s : all (fun c => negb (p c)) s = true -> lstrip p s = s.
Proof.
  destruct s as [|c s]; simpl; [done|].
  intros [Hc _]%andb_true_iff. apply negb_true_iff in Hc. by rewrite Hc.
Qed.

Lemma rstrip_all p s : all (fun c => negb (p c)) s = true -> rstrip p s = s.
Proof.
  induction s as [|c s IH]; simpl; [done|].
  intros [Hc Hs]%andb_true_iff. apply negb_true_iff in Hc.
  rewrite IH by done. rewrite Hc. by destruct s.
Qed.

Lemma strip_all p s : all (fun c => negb (p c)) s = true -> strip p s = s.
Proof. intros H. unfold strip. by rewrite lstrip_all, rstrip_all. Qed.

Lemma lstrip_rstrip_head p s :
  lstrip p s = s -> lstrip p (rstrip p s) = rstrip p s.
Proof.
  destruct s as [|c s]; [done|]. simpl.
  destruct (p c) eqn:Hc.
  - intros H. exfalso.
    assert (Hlen : forall t, (String.length (lstrip p t) <= String.length t)%nat).
    { clear. induction t as [|x t IH]; simpl; [lia|].
      destruct (p x); simpl; lia. }
    specialize (Hlen s). rewrite H in Hlen. simpl in Hlen. lia.
  - intros _. destruct (rstrip p s); simpl; by rewrite Hc.
Qed.

Lemma lstrip_idem p s : lstrip p (lstrip p s) = lstrip p s.
Proof.
  induction s as [|c s IH]; simpl; [done|].
  destruct (p c) eqn:Hc; [done|]. simpl. by rewrite Hc.
Qed.

Lemma rstrip_idem p s : rstrip p (rstrip p s) = rstrip p s.
Proof.
  induction s as [|c s IH]; simpl; [done|].
  destruct (rstrip p s) as [|x r] eqn:Hr.
  - destruct (p c) eqn:Hc; [done|]. simpl. by rewrite Hc.
  - change (rstrip p (String c (String x r))) with
      (match rstrip p (String x r) with
       | EmptyString => if p c then EmptyString else String c EmptyString
       | r' => String c r'
       end).
    by rewrite IH.
Qed.

Lemma strip_idem p s : strip p (strip p s) = strip p s.
Proof.
  unfold strip. rewrite (lstrip_rstrip_head p (lstrip p s)) by apply lstrip_idem.
  apply rstrip_idem.
Qed.

(** *** Cutting at the separators *)

Lemma before_all p s : all (fun c => negb (p c)) s = true -> before p s = s.
Proof.
  induction s as [|c s IH]; simpl; [done|].
  intros [Hc Hs]%andb_true_iff. apply negb_true_iff in Hc.
  by rewrite Hc, IH.
Qed.

Lemma from_all p s : all (fun c => negb (p c)) s = true -> from p s = "".
Proof.
  induction s as [|c s IH]; simpl; [done|].
  intros [Hc Hs]%andb_true_iff. apply negb_true_iff in Hc.
  by rewrite Hc, IH.
Qed.

Lemma before_app_keep p s t :
  all (fun c => negb (p c)) s = true -> before p (s +:+ t) = s +:+ before p t.
Proof.
  induction s as [|c s IH]; simpl; [done|].
  intros [Hc Hs]%andb_true_iff. apply negb_true_iff in Hc.
  by rewrite Hc, IH.
Qed.

(** a string cut at the start of what follows it *)
Lemma before_app_start p s t :
  all (fun c => negb (p c)) s = true ->
  match t with EmptyString => true | String c _ => p c end = true ->
  before p (s +:+ t) = s /\ from p (s +:+ t) = t.
Proof.
  intros Hs Ht. destruct t as [|c t].
  - rewrite str_app_nil_r. by rewrite before_all, from_all.
  - by rewrite before_app, from_app.
Qed.

Lemma contains_eqc c s :
  all (fun x => negb (eqc x c)) s = true -> contains c s = false.
Proof. apply contains_false. Qed.

Lemma all_flip c s :
  all (fun x => negb (eqc x c)) s = true -> all (fun x => negb (eqc c x)) s = true.
Proof. apply all_impl. intros x. by rewrite eqc_sym. Qed.

(** the path of a typed link is what precedes its query and fragment *)
Lemma cut_trailer p t :
  all link_char p = true -> trailer t = true ->
  let url := p +:+ t in
  let url3 := if contains "#" url then before (eqc "#") url else url in
  (if contains "?" url3 then before (eqc "?") url3 else url3) = p.
Proof.
  intros Hp Ht.
  assert (Hq : all (fun x => negb (eqc x "?")) p = true)
    by (eapply all_impl; [|exact Hp]; intros c Hc;
        by apply path_char_not_question, link_char_path).
  assert (Hh : all (fun x => negb (eqc x "#")) p = true)
    by (eapply all_impl; [|exact Hp]; intros c Hc;
        by apply path_char_not_hash, link_char_path).
  pose proof (contains_eqc _ _ Hq) as Hq'.
  pose proof (contains_eqc _ _ Hh) as Hh'.
  cbv zeta. destruct t as [|c t].
  - rewrite str_app_nil_r. by rewrite Hh', Hq'.
  - simpl in Ht. apply andb_true_iff in Ht as [Hc _].
    apply orb_true_iff in Hc as [Hc|Hc]; apply eqc_true in Hc; subst c.
    + (* a query, and perhaps a fragment after it *)
      assert (Hcut : forall u, before (eqc "?") (p +:+ String "?" u) = p)
        by (intros u; apply before_app; [by apply all_flip|done]).
      assert (Hin : forall u, contains "?" (p +:+ String "?" u) = true)
        by (intros u; apply contains_mid).
      destruct (contains "#" (p +:+ String "?" t)) eqn:E.
      * assert (Hb : before (eqc "#") (p +:+ String "?" t)
                     = p +:+ String "?" (before (eqc "#") t)).
        { rewrite before_app_keep by (by apply all_flip).
          f_equal. }
        by rewrite Hb, Hin, Hcut.
      * by rewrite Hin, Hcut.
    + rewrite contains_mid.
      rewrite before_app by (by apply all_flip || done). by rewrite Hq'.
Qed.
End LinkFacts.


Module TypedLinkFacts.
Import PyStr PyStrFacts UrlLib Canon CharFacts CanonFacts PathFacts UrlFacts
       ParseFacts NormalizerFacts Links LinkFacts.

Lemma scheme_like_spec sc :
  scheme_like sc = true <->
  exists c0 r, sc = String c0 r /\ isascii_alpha c0 = true
               /\ all is_scheme_char sc = true.
Proof.
  unfold scheme_like. destruct sc as [|c0 r].
  - split; [done|]. by intros (? & ? & ? & _).
  - rewrite andb_true_iff. split.
    + intros [? ?]. by exists c0, r.
    + intros (? & ? & [= <- <-] & ? & ?). done.
Qed.

Lemma lowered_scheme_good sc :
  scheme_like sc = true -> good_scheme (map lower_char sc) = true.
Proof.
  intros (c0 & r & -> & Ha & Hall)%scheme_like_spec.
  apply good_scheme_spec. exists (lower_char c0), (map lower_char r).
  repeat split.
  - by apply alpha_lower.
  - change (all is_scheme_char (map lower_char (String c0 r)) = true).
    rewrite all_map. eapply all_impl; [apply scheme_char_lower|done].
  - change (map lower_char (map lower_char (String c0 r))
            = map lower_char (String c0 r)).
    apply map_lower_idem.
Qed.

Lemma split_scheme_typed sc rest :
  scheme_like sc = true ->
  split_scheme (sc +:+ String ":" rest) = (map lower_char sc, rest).
Proof.
  intros (c0 & r & -> & Ha & Hall)%scheme_like_spec.
  unfold split_scheme.
  assert (Hnc : all (fun x => negb (eqc ":" x)) (String c0 r) = true)
    by (eapply all_impl; [apply scheme_char_not_colon|done]).
  rewrite contains_mid, before_app by done.
  rewrite Ha, Hall. cbn [andb].
  unfold after. by rewrite from_app.
Qed.

(** a path and a trailer: nothing, or something that starts with a
    separator *)
Lemma rooted_trailer_start p t :
  rooted p = true -> trailer t = true ->
  match p +:+ t with
  | EmptyString => true
  | String c _ => is_netloc_delim c
  end = true.
Proof.
  intros Hp Ht. destruct p as [|c p]; simpl in *.
  - destruct t as [|c t]; [done|]. simpl in *.
    apply andb_true_iff in Ht as [Hc _]. by apply question_delim.
  - by apply slash_delim.
Qed.

Lemma take_2_relative p t :
  p <> "" -> String.eqb (take 2 p) "//" = false -> trailer t = true ->
  String.eqb (take 2 (p +:+ t)) "//" = false.
Proof.
  intros Hne Hp Ht. destruct p as [|a [|b p]]; [done| |done].
  destruct t as [|c t]; [done|]. simpl in Ht.
  apply andb_true_iff in Ht as [Hc _].
  change (take 2 ("" +:+ String a "" +:+ String c t))
    with (String a (String c "")).
  apply String.eqb_neq. intros [= -> ->]. done.
Qed.

Section Parse.
Variable _check_bracketed_host : string -> exc unit.
Variable _checknetloc_nfkc : string -> exc unit.

Local Abbreviation urlsplit := (urlsplit _check_bracketed_host _checknetloc_nfkc).
Local Abbreviation urlparse := (urlparse _check_bracketed_host _checknetloc_nfkc).
Local Abbreviation good_netloc := (good_netloc _check_bracketed_host _checknetloc_nfkc).
Local Abbreviation typed_host := (typed_host _check_bracketed_host).
Local Abbreviation normalize :=
  (normalize_company_articles_url _check_bracketed_host _checknetloc_nfkc).

Lemma typed_host_good nl : typed_host nl -> good_netloc nl.
Proof.
  intros (Hne & Hp & Hd & Hbr). split; [done|]. split.
  - apply all_host_char; [done|].
    eapply all_impl; [apply printable_safe|done].
  - split; [done|]. unfold _checknetloc.
    by rewrite (all_impl _ _ _ printable_ascii Hp), orb_true_r.
Qed.

(** the last step of urlsplit on a path followed by a trailer *)
Lemma split_path_trailer sc nl p t :
  all link_char p = true -> trailer t = true ->
  _checknetloc _checknetloc_nfkc nl = Ret tt ->
  exists q f,
    (let '(url, fragment) :=
       if contains "#" (p +:+ t)
       then (before (eqc "#") (p +:+ t), after (eqc "#") (p +:+ t))
       else (p +:+ t, "") in
     let '(url, query) :=
       if contains "?" url
       then (before (eqc "?") url, after (eqc "?") url) else (url, "") in
     (_checknetloc _checknetloc_nfkc nl ;;;
      Ret (mkParseResult sc nl url "" query fragment))%exc)
    = Ret (mkParseResult sc nl p "" q f).
Proof.
  intros Hp Ht Hck. pose proof (cut_trailer p t Hp Ht) as Hcut.
  cbv zeta in Hcut.
  destruct (contains "#" (p +:+ t)).
  - destruct (contains "?" (before (eqc "#") (p +:+ t)));
      rewrite Hck; cbn [exc_bind]; rewrite Hcut; by eexists _, _.
  - destruct (contains "?" (p +:+ t));
      rewrite Hck; cbn [exc_bind]; rewrite Hcut; by eexists _, _.
Qed.

Lemma typed_not_c0 s :
  all printable s = true -> all (fun c => negb (is_unsafe_url_byte c)) s = true.
Proof. apply all_impl. apply printable_safe. Qed.

Lemma trailer_printable t : trailer t = true -> all printable t = true.
Proof. destruct t; [done|]. simpl. by intros [_ ?]%andb_true_iff. Qed.

Lemma link_printable p : all link_char p = true -> all printable p = true.
Proof. apply all_impl, link_char_printable. Qed.

Lemma urlsplit_absolute sc nl p t :
  scheme_like sc = true -> typed_host nl ->
  all link_char p = true -> rooted p = true -> trailer t = true ->
  exists q f,
    urlsplit (sc +:+ "://" +:+ nl +:+ p +:+ t)
    = Ret (mkParseResult (map lower_char sc) nl p "" q f).
Proof.
  intros Hsc Hnl Hp Hroot Ht.
  pose proof (typed_host_good _ Hnl) as (_ & _ & _ & Hck).
  destruct Hnl as (Hne & Hpr & Hd & Hbr).
  pose proof Hsc as (c0 & r & -> & Ha & Hall)%scheme_like_spec.
  unfold UrlLib.urlsplit.
  rewrite lstrip_app_head by (by apply alpha_not_c0).
  rewrite remove_id.
  2:{ apply typed_not_c0. rewrite !all_app.
      rewrite (all_impl _ _ _ scheme_char_printable Hall), Hpr.
      by rewrite (link_printable _ Hp), (trailer_printable _ Ht). }
  change (String c0 r +:+ "://" +:+ nl +:+ p +:+ t)
    with (String c0 r +:+ String ":" (String "/" (String "/"
           (nl +:+ p +:+ t)))).
  rewrite split_scheme_typed by done.
  cbn [take]. rewrite String.eqb_refl.
  unfold _splitnetloc. cbn [drop].
  destruct (before_app_start is_netloc_delim nl (p +:+ t) Hd
              (rooted_trailer_start _ _ Hroot Ht)) as [-> ->].
  rewrite Hbr. cbn [exc_bind].
  by apply split_path_trailer.
Qed.

Lemma urlparse_absolute sc nl p t :
  scheme_like sc = true -> typed_host nl ->
  all link_char p = true -> rooted p = true -> trailer t = true ->
  exists q f,
    urlparse (sc +:+ "://" +:+ nl +:+ p +:+ t)
    = Ret (mkParseResult (map lower_char sc) nl p "" q f).
Proof.
  intros Hsc Hnl Hp Hroot Ht. unfold UrlLib.urlparse.
  destruct (urlsplit_absolute sc nl p t) as (q & f & ->); [done..|].
  cbn [exc_bind scheme path]. exists q, f.
  assert (H : contains ";" p = false).
  { apply contains_eqc. eapply all_impl; [apply link_char_not_semicolon|done]. }
  by rewrite H, andb_false_r.
Qed.

Lemma urlsplit_relative p t :
  p <> "" -> all link_char p = true ->
  String.eqb (take 2 p) "//" = false -> trailer t = true ->
  exists q f, urlsplit (p +:+ t) = Ret (mkParseResult "" "" p "" q f).
Proof.
  intros Hne Hp H2 Ht. unfold UrlLib.urlsplit.
  assert (Hall : all printable (p +:+ t) = true)
    by (by rewrite all_app, (link_printable _ Hp), (trailer_printable _ Ht)).
  rewrite lstrip_all.
  2:{ eapply all_impl; [|exact Hall]. intros c Hc.
      by rewrite (printable_not_c0 _ Hc). }
  rewrite remove_id by (by apply typed_not_c0).
  assert (Hss : split_scheme (p +:+ t) = ("", p +:+ t)).
  { unfold split_scheme. destruct (contains ":" (p +:+ t)) eqn:E; [|done].
    assert (Hpc : all (fun x => negb (eqc ":" x)) p = true).
    { apply all_flip. eapply all_impl; [apply link_char_not_colon|done]. }
    rewrite before_app_keep by done.
    destruct t as [|c t].
    { rewrite str_app_nil_r in E.
      rewrite (contains_eqc ":" p) in E; [done|].
      eapply all_impl; [apply link_char_not_colon|done]. }
    simpl in Ht. apply andb_true_iff in Ht as [Hc _].
    assert (Hbad : all is_scheme_char (p +:+ before (eqc ":") (String c t))
                   = false).
    { rewrite all_app. apply andb_false_iff. right.
      apply orb_true_iff in Hc as [Hc|Hc]; apply eqc_true in Hc; by subst c. }
    destruct (p +:+ before (eqc ":") (String c t)) as [|c0 s]; [done|].
    by rewrite Hbad, andb_false_r. }
  rewrite Hss, take_2_relative by done. cbn [exc_bind].
  by apply split_path_trailer.
Qed.

Lemma urlparse_relative p t :
  p <> "" -> all link_char p = true ->
  String.eqb (take 2 p) "//" = false -> trailer t = true ->
  exists q f, urlparse (p +:+ t) = Ret (mkParseResult "" "" p "" q f).
Proof.
  intros Hne Hp H2 Ht. unfold UrlLib.urlparse.
  destruct (urlsplit_relative p t) as (q & f & ->); [done..|].
  cbn [exc_bind scheme path]. exists q, f.
  assert (H : contains ";" p = false).
  { apply contains_eqc. eapply all_impl; [apply link_char_not_semicolon|done]. }
  by rewrite H, andb_false_r.
Qed.

Lemma typed_strip s :
  all printable s = true -> strip isspace s = s.
Proof.
  intros H. apply strip_all. eapply all_impl; [apply printable_not_space|done].
Qed.

Lemma segments_or_root p : segments (or_else p "/") = segments p.
Proof. by destruct p. Qed.

(** normalization of an absolute link *)
Lemma normalize_absolute sc nl p t :
  scheme_like sc = true -> typed_host nl ->
  all link_char p = true -> rooted p = true -> trailer t = true ->
  normalize (sc +:+ "://" +:+ nl +:+ p +:+ t)
  = Ret (listing_address (map lower_char sc) nl (final_segments (segments p))).
Proof.
  intros Hsc Hnl Hp Hroot Ht.
  destruct (urlparse_absolute sc nl p t) as (q & f & Hparse); [done..|].
  pose proof Hsc as (c0 & r & -> & Ha & Hall)%scheme_like_spec.
  rewrite (normalize_returns _ _ _ (mkParseResult
             (map lower_char (String c0 r)) nl p "" q f)).
  - unfold address_of. cbn [scheme netloc path]. rewrite segments_or_root.
    destruct Hnl as (Hne & _). unfold or_else at 2. rewrite Hne. done.
  - done.
  - rewrite typed_strip; [done|].
    destruct Hnl as (_ & Hpr & _). rewrite !all_app.
    rewrite (all_impl _ _ _ scheme_char_printable Hall), Hpr.
    by rewrite (link_printable _ Hp), (trailer_printable _ Ht).
Qed.

(** normalization of a link without scheme and host *)
Lemma normalize_relative p t :
  p <> "" -> all link_char p = true ->
  String.eqb (take 2 p) "//" = false -> trailer t = true ->
  normalize (p +:+ t)
  = Ret (listing_address "https" "habr.com" (final_segments (segments p))).
Proof.
  intros Hne Hp H2 Ht.
  destruct (urlparse_relative p t) as (q & f & Hparse); [done..|].
  rewrite (normalize_returns _ _ _ (mkParseResult "" "" p "" q f)).
  - unfold address_of. cbn [scheme netloc path]. by rewrite segments_or_root.
  - by destruct p.
  - rewrite typed_strip; [done|].
    by rewrite all_app, (link_printable _ Hp), (trailer_printable _ Ht).
Qed.
End Parse.
End TypedLinkFacts.


(** ** URL normalizer: typed links *)

Section NormalizerExtras.
Import PyStr PyStrFacts UrlLib Canon CanonFacts UrlFacts NormalizerFacts
       Links LinkFacts TypedLinkFacts.

Variable _check_bracketed_host : string -> exc unit.
Variable _checknetloc_nfkc : string -> exc unit.

Local Abbreviation urlparse := (urlparse _check_bracketed_host _checknetloc_nfkc).
Local Abbreviation typed_host := (typed_host _check_bracketed_host).
Local Abbreviation normalize :=
  (normalize_company_articles_url _check_bracketed_host _checknetloc_nfkc).


(** X2. A link [p] followed by [t], where [p] is not empty, is made of
    visible ASCII characters other than "?", "#", ";" and ":", and does
    not start with "//", and [t] is empty or a query or fragment in
    visible ASCII (it starts with "?" or "#"), is read as a path: it gets
    the scheme https and the host habr.com, and the non-empty segments of
    [p], each followed by one "/", become the path (the first three and
    "articles" for a profile path without an "articles" segment).  A
    host name typed in such a link, without a port, is a path segment
    of the result. *)
Theorem schemeless_link_normalized (p t : string) :
  p <> "" -> all link_char p = true ->
  String.eqb (take 2 p) "//" = false -> trailer t = true ->
  normalize (p +:+ t)
  = Ret ("https://habr.com" +:+ canon_path (final_segments (segments p))).
Proof. apply normalize_relative. Qed.



(** X5. A link that is not empty but holds whitespace only is not refused:
    the check for a missing link precedes the trimming, and the link is
    normalized to the root of the site. *)
Theorem blank_link_normalized (raw : string) :
  raw <> "" -> strip isspace raw = "" ->
  normalize raw = Ret "https://habr.com/".
Proof.
  intros Hne Hblank.
  rewrite (normalize_returns _ _ raw (mkParseResult "" "" "" "" "" ""));
    [done|done|]. by rewrite Hblank.
Qed.

(** X6. Whitespace around a link does not count: a link that is not blank
    is normalized as the link without the whitespace before and after
    it. *)
Theorem surrounding_whitespace_ignored (raw : string) :
  strip isspace raw <> "" ->
  normalize raw = normalize (strip isspace raw).
Proof.
  intros Hne.
  assert (Hraw : raw <> "") by (intros ->; by apply Hne).
  unfold normalize_company_articles_url.
  apply nonempty_true in Hne, Hraw. rewrite Hne, Hraw.
  by rewrite strip_idem.
Qed.
End NormalizerExtras.


Lemma schemeless_link_normalized_witness :
  normalize_company_articles_url Sample.host_ok Sample.host_ok
    "habr.com/ru/companies/acme"
  = Ret "https://habr.com/habr.com/ru/companies/acme/"
  /\ normalize_company_articles_url Sample.host_ok Sample.host_ok
       "/ru/companies/acme#about"
     = Ret "https://habr.com/ru/companies/acme/articles/".
Proof.
  split.
  - apply (schemeless_link_normalized Sample.host_ok Sample.host_ok
             "habr.com/ru/companies/acme" ""); try reflexivity. done.
  - apply (schemeless_link_normalized Sample.host_ok Sample.host_ok
             "/ru/companies/acme" "#about"); try reflexivity. done.
Defined.



Lemma blank_link_normalized_witness :
  normalize_company_articles_url Sample.host_ok Sample.host_ok "   "
  = Ret "https://habr.com/".
Proof.
  apply (blank_link_normalized Sample.host_ok Sample.host_ok "   ");
    [done|reflexivity].
Defined.

Lemma surrounding_whitespace_ignored_witness :
  normalize_company_articles_url Sample.host_ok Sample.host_ok
    "  https://habr.com/ru/companies/acme  "
  = normalize_company_articles_url Sample.host_ok Sample.host_ok
      "https://habr.com/ru/companies/acme".
Proof.
  apply (surrounding_whitespace_ignored Sample.host_ok Sample.host_ok
           "  https://habr.com/ru/companies/acme  ").
  vm_compute. discriminate.
Defined.


(** ** Record extractor: the values of the fields *)

Module FieldFacts.
Import PyStr PyStrFacts CharFacts Bs4 Datetime Spec ExtractorFacts LinkFacts
       Fields.

Lemma unbreak_space c : isspace (unbreak c) = isspace c.
Proof. by_char c. Qed.

Lemma unbreak_idem c : unbreak (unbreak c) = unbreak c.
Proof. by_char c. Qed.

Lemma unbreak_not_nbsp c : negb (eqc (unbreak c) nbsp) = true.
Proof. by_char c. Qed.

Lemma lstrip_map p f s :
  (forall c, p (f c) = p c) -> lstrip p (map f s) = map f (lstrip p s).
Proof.
  intros Hf. induction s as [|c s IH]; simpl; [done|].
  rewrite Hf. by destruct (p c).
Qed.

Lemma rstrip_map p f s :
  (forall c, p (f c) = p c) -> rstrip p (map f s) = map f (rstrip p s).
Proof.
  intros Hf. induction s as [|c s IH]; simpl; [done|].
  rewrite IH, Hf. destruct (rstrip p s); simpl; [by destruct (p c)|done].
Qed.

Lemma strip_map p f s :
  (forall c, p (f c) = p c) -> strip p (map f s) = map f (strip p s).
Proof. intros Hf. unfold strip. by rewrite lstrip_map, rstrip_map. Qed.

Lemma map_map f s : (forall c, f (f c) = f c) -> map f (map f s) = map f s.
Proof.
  intros Hf. induction s as [|c s IH]; simpl; [done|]. by rewrite Hf, IH.
Qed.

Lemma map_nonempty f s : nonempty (map f s) = nonempty s.
Proof. by destruct s. Qed.

Lemma format_number_nonempty text :
  text <> "" ->
  format_number text = map unbreak (strip isspace text).
Proof. intros H%nonempty_true. unfold format_number. by rewrite H. Qed.

Lemma format_number_trimmed text : trimmed (format_number text).
Proof.
  unfold trimmed. destruct text as [|c text]; [done|].
  rewrite format_number_nonempty by done.
  rewrite strip_map by apply unbreak_space. by rewrite strip_idem.
Qed.

Lemma format_number_no_nbsp text : contains nbsp (format_number text) = false.
Proof.
  destruct text as [|c text]; [done|].
  rewrite format_number_nonempty by done. apply contains_false.
  rewrite all_map. generalize (strip isspace (String c text)).
  induction s as [|x s IH]; simpl; [done|].
  by rewrite unbreak_not_nbsp, IH.
Qed.

Lemma strip_trimmed s : trimmed (strip isspace s).
Proof. apply strip_idem. Qed.

Lemma NA_trimmed : trimmed NA.
Proof. reflexivity. Qed.

Lemma no_element_find block f :
  forallb is_text (descendants block) = true -> find block f = None.
Proof.
  intros H. unfold find, find_all.
  induction (descendants block) as [|n l IH]; [done|].
  simpl in H. apply andb_true_iff in H as [Hn Hl]. simpl.
  destruct n; [done|]. simpl. by apply IH.
Qed.
End FieldFacts.


(** X7. What format_number returns has no whitespace before or after it
    and no non-breaking space in it, whatever text it is given. *)
Theorem format_number_clean (text : string) :
  PyStr.strip PyStr.isspace (format_number text) = format_number text
  /\ PyStr.contains nbsp (format_number text) = false.
Proof.
  split; [apply FieldFacts.format_number_trimmed
         |apply FieldFacts.format_number_no_nbsp].
Qed.



(** the value of a row literal at a key *)
Ltac lookup_row k :=
  match goal with
  | |- context [?m !! k] =>
      lazymatch m with
      | context [k] =>
          let H := fresh "Hrow" in
          eassert (H : m !! k = Some _) by reflexivity;
          rewrite H; clear H
      end
  end.

Section ExtractorExtras.
Import PyStr PyStrFacts Bs4 Datetime Spec ExtractorFacts LinkFacts Fields
       FieldFacts FallbackFacts CanonFacts.

Variable fromisoformat : string -> exc datetime.
Variable small_year : Z -> string.

Local Abbreviation parse_article_block :=
  (parse_article_block fromisoformat small_year).

(** X9. The title, the author, the votes, the comments, the bookmarks and
    the views of every record have no whitespace before or after them. *)
Theorem text_fields_trimmed (article_block : node) (row : gmap string string) :
  parse_article_block article_block = Ret row ->
  Forall (fun k => exists v, row !! k = Some v /\ trimmed v) TEXT_FIELDS.
Proof.
  unfold Habr.parse_article_block. cbv zeta.
  destruct (block_datetime_returns fromisoformat small_year article_block)
    as (d & t & ->).
  cbn [exc_bind]. intros Hrow. injection Hrow as <-.
  unfold TEXT_FIELDS. repeat apply Forall_cons_2; [..|apply Forall_nil_2];
    eexists; (split; [reflexivity|]);
    repeat match goal with
           | |- trimmed (match ?x with _ => _ end) => destruct x
           | |- trimmed (if ?x then _ else _) => destruct x
           end;
    first [apply NA_trimmed | apply strip_trimmed | apply format_number_trimmed].
Qed.

(** X10. The url of a record is the sentinel, or the origin of the site
    followed by the non-empty href of the title link: the href is never
    used alone. *)
Theorem url_field_rooted (article_block : node) (row : gmap string string) :
  parse_article_block article_block = Ret row ->
  row !! "url" = Some NA
  \/ exists link href,
       find article_block (field_search "url") = Some link
       /\ get link "href" = Some href /\ href <> ""
       /\ row !! "url" = Some ("https://habr.com" +:+ href).
Proof.
  unfold Habr.parse_article_block. cbv zeta.
  destruct (block_datetime_returns fromisoformat small_year article_block)
    as (d & t & ->).
  cbn [exc_bind]. intros Hrow. injection Hrow as <-.
  lookup_row "url".
  change (field_search "url")
    with (mkStrainer "a" (Some "tm-title__link")
            [("data-article-link", "true");
             ("data-test-id", "article-snippet-title-link")]).
  destruct (find article_block _) as [link|]; [|by left].
  destruct (get link "href") as [href|] eqn:Hh; [|by left].
  destruct (nonempty href) eqn:Hne; [|by left].
  right. exists link, href. apply nonempty_true in Hne. done.
Qed.

(** X11. A container with no element below it gives the record of nine
    sentinels. *)
Theorem bare_block_all_sentinel (article_block : node) :
  forallb is_text (descendants article_block) = true ->
  exists row,
    parse_article_block article_block = Ret row
    /\ Forall (fun k => row !! k = Some NA) FIELDS.
Proof.
  intros H. unfold Habr.parse_article_block. cbv zeta.
  rewrite !(no_element_find article_block) by done.
  cbn [exc_bind]. eexists. split; [reflexivity|].
  unfold FIELDS. repeat constructor.
Qed.

(** X12. Each field of a record depends on one search only: two containers
    in which the search of a field finds the same element give the same
    value for that field, whatever else they hold. *)
Theorem field_independence
    (block1 block2 : node) (row1 row2 : gmap string string) (k : string) :
  parse_article_block block1 = Ret row1 ->
  parse_article_block block2 = Ret row2 ->
  k ∈ FIELDS ->
  find block1 (field_search k) = find block2 (field_search k) ->
  row1 !! k = row2 !! k.
Proof.
  unfold Habr.parse_article_block. cbv zeta.
  intros H1 H2 Hk Hfind.
  destruct (match find block1 (mkStrainer "time" None []) with
            | Some te => _ | None => _ end) as [[d1 t1]|] eqn:E1; [|done].
  destruct (match find block2 (mkStrainer "time" None []) with
            | Some te => _ | None => _ end) as [[d2 t2]|] eqn:E2; [|done].
  cbn [exc_bind] in H1, H2. injection H1 as <-. injection H2 as <-.
  unfold FIELDS in Hk.
  repeat (apply elem_of_cons in Hk as [->|Hk]);
    [..|by apply elem_of_nil in Hk];
    cbv [field_search String.eqb Ascii.eqb Bool.eqb] in Hfind;
    match goal with
    | |- _ !! ?k = _ => lookup_row k; lookup_row k
    end;
    rewrite ?Hfind; try reflexivity;
    rewrite Hfind in E1; rewrite E1 in E2; by injection E2 as -> ->.
Qed.
End ExtractorExtras.


Lemma text_fields_trimmed_witness :
  exists row,
    parse_article_block Sample.fromisoformat Sample.small_year
      Showcase.full_article = Ret row
    /\ row !! "title" = Some "Hello, Habr" /\ row !! "votes" = Some "+7"
    /\ Forall (fun k => exists v, row !! k = Some v /\ Fields.trimmed v)
              Fields.TEXT_FIELDS.
Proof.
  eexists. split; [reflexivity|]. split; [reflexivity|].
  split; [reflexivity|].
  apply (text_fields_trimmed Sample.fromisoformat Sample.small_year
           Showcase.full_article).
  reflexivity.
Defined.

Lemma url_field_rooted_witness :
  exists row,
    parse_article_block Sample.fromisoformat Sample.small_year
      Showcase.full_article = Ret row
    /\ (row !! "url" = Some NA
        \/ exists link href,
             Bs4.find Showcase.full_article (Fields.field_search "url")
             = Some link
             /\ Bs4.get link "href" = Some href /\ href <> ""
             /\ row !! "url" = Some ("https://habr.com" +:+ href)).
Proof.
  eexists. split; [reflexivity|].
  apply (url_field_rooted Sample.fromisoformat Sample.small_year
           Showcase.full_article).
  reflexivity.
Defined.

Lemma bare_block_all_sentinel_witness :
  exists row,
    parse_article_block Sample.fromisoformat Sample.small_year
      Showcase.text_article = Ret row
    /\ Forall (fun k => row !! k = Some NA) Spec.FIELDS.
Proof.
  apply (bare_block_all_sentinel Sample.fromisoformat Sample.small_year
           Showcase.text_article).
  reflexivity.
Defined.

(** The views of the article with everything and of the article with the
    views only are the same, the exact number of the title attribute. *)
Lemma field_independence_witness :
  exists row1 row2,
    parse_article_block Sample.fromisoformat Sample.small_year
      Showcase.full_article = Ret row1
    /\ parse_article_block Sample.fromisoformat Sample.small_year
         Showcase.views_only_article = Ret row2
    /\ row1 !! "views" = row2 !! "views"
    /\ row2 !! "views" = Some "12345" /\ row2 !! "title" = Some NA
    /\ row1 !! "title" = Some "Hello, Habr".
Proof.
  eexists _, _. split; [reflexivity|]. split; [reflexivity|].
  split; [|repeat split; reflexivity].
  apply (field_independence Sample.fromisoformat Sample.small_year
           Showcase.full_article Showcase.views_only_article _ _ "views");
    try reflexivity.
  apply list_elem_of_In. simpl. do 8 right. by left.
Defined.


(** ** The traffic of a scrape *)

Module TrafficFacts.
Import PyStr PyStrFacts Bs4 Spec Traffic ExtractorFacts ScraperFacts.

Section Scrape.
Variable session_get : string -> exc response.
Variable BeautifulSoup : string -> exc node.

Local Abbreviation fetched := (fetched session_get).
Local Abbreviation later_urls := (later_urls session_get BeautifulSoup).

(** *** The addresses of the pages *)

Lemma str_app_inv_tail (s t : string) (c : ascii) :
  s +:+ String c "" = t +:+ String c "" -> s = t.
Proof.
  revert t. induction s as [|a s IH]; intros [|b t]; simpl; try done.
  - destruct t; simpl; intros [=].
  - destruct s; simpl; intros [=].
  - intros [= -> H]. f_equal. by apply IH.
Qed.

Lemma str_inj (a b : Z) : PyInt.str a = PyInt.str b -> a = b.
Proof.
  unfold PyInt.str. intros H.
  apply (f_equal NilZero.int_of_string) in H.
  assert (Hnil : forall z, Z.to_int z <> Decimal.Pos Decimal.Nil
                           /\ Z.to_int z <> Decimal.Neg Decimal.Nil).
  { intros [|p|p]; simpl; split; try done.
    - intros [= Hp]. by destruct (DecimalPos.Unsigned.to_uint_nonnil p).
    - intros [= Hp]. by destruct (DecimalPos.Unsigned.to_uint_nonnil p). }
  rewrite !NilZero.isi in H by apply Hnil.
  injection H as H. by apply DecimalZ.to_int_inj.
Qed.

Lemma page_url_inj articles_url (a b : Z) :
  page_url articles_url a = page_url articles_url b -> a = b.
Proof.
  unfold page_url. intros H.
  apply (inj (String.app articles_url)) in H.
  apply (inj (String.app "page")) in H.
  apply str_app_inv_tail in H. by apply str_inj.
Qed.

Lemma page_url_other articles_url (k : Z) : page_url articles_url k <> articles_url.
Proof.
  unfold page_url. intros H.
  rewrite <- (str_app_nil_r articles_url) in H at 2.
  by apply (inj (String.app articles_url)) in H.
Qed.

Lemma range_from_2_NoDup last_page : NoDup (range_from_2 last_page).
Proof.
  unfold range_from_2. apply NoDup_ListNoDup, List.NoDup_map_NoDup_ForallPairs.
  - intros a b _ _ H. lia.
  - apply List.seq_NoDup.
Qed.

Lemma later_urls_NoDup articles_url :
  NoDup (later_urls articles_url) /\ articles_url ∉ later_urls articles_url.
Proof.
  unfold Traffic.later_urls.
  destruct (fetched articles_url) as [html|];
    [|split; [constructor|apply not_elem_of_nil]].
  destruct (nonempty html); [|split; [constructor|apply not_elem_of_nil]].
  destruct (parse_pagination_last_page BeautifulSoup html) as [last_page|e];
    [|split; [constructor|apply not_elem_of_nil]].
  split.
  - apply NoDup_ListNoDup, List.NoDup_map_NoDup_ForallPairs.
    + intros a b _ _. apply page_url_inj.
    + apply NoDup_ListNoDup, range_from_2_NoDup.
  - intros (k & Hk & _)%list_elem_of_In%in_map_iff.
    by apply page_url_other in Hk.
Qed.
End Scrape.
End TrafficFacts.


(** ** Scrape orchestrator, further *)

Section ScraperExtras.
Import PyStr Bs4 Spec Traffic ExtractorFacts ScraperFacts TrafficFacts.

Variable session_get : string -> exc response.
Variable BeautifulSoup : string -> exc node.
Variable fromisoformat : string -> exc Datetime.datetime.
Variable small_year : Z -> string.

Local Abbreviation fetched := (fetched session_get).
Local Abbreviation parse_pagination_last_page :=
  (parse_pagination_last_page BeautifulSoup).
Local Abbreviation scrape_company_articles :=
  (scrape_company_articles session_get BeautifulSoup fromisoformat small_year).

(** X13. The outcome of a scrape, its rows or the exception it raises,
    does not depend on the order in which the fetches of the later pages
    complete; and when the HTML parser accepts every body that a fetch
    returns, the scrape returns rows, whatever the site answers and
    whatever the timestamp parser does. *)
Theorem scrape_returns_schedule_free
    (articles_url : string) (sched1 sched2 : list nat) :
  outcome (scrape_company_articles articles_url sched1)
  = outcome (scrape_company_articles articles_url sched2)
  /\ ((forall u html, fetched u = Some html ->
                      exists soup, BeautifulSoup html = Ret soup) ->
      exists rows,
        outcome (scrape_company_articles articles_url sched1) = Ret rows).
Proof.
  destruct (scrape_closed session_get BeautifulSoup fromisoformat small_year
              articles_url sched1) as (l1 & H1 & _).
  destruct (scrape_closed session_get BeautifulSoup fromisoformat small_year
              articles_url sched2) as (l2 & H2 & _).
  unfold outcome. rewrite H1, H2. split; [done|].
  intros Hacc. eexists. cbn [fst]. apply listing_outcome_accepted.
  intros u html _ Hf _. by apply (Hacc u).
Qed.

(** X14. When page 1 is fetched with a non-empty body and its pagination
    gives [last_page], the requests of the scrape are the one for page 1,
    which is the first, and one for each of the pages 2 to [last_page],
    in some order: every page is requested exactly once, and nothing
    else is, whether the scrape then returns or raises. *)
Theorem scrape_requests_each_page_once
    (articles_url : string) (sched : list nat) (html : string)
    (last_page : Z) :
  fetched articles_url = Some html ->
  html <> "" ->
  parse_pagination_last_page html = Ret last_page ->
  exists later,
    requests (scrape_company_articles articles_url sched)
    = articles_url :: later
    /\ later ≡ₚ List.map (page_url articles_url) (range_from_2 last_page).
Proof.
  intros Hfirst Hne Hlast.
  destruct (scrape_closed session_get BeautifulSoup fromisoformat small_year
              articles_url sched) as (l & Hrun & Hl).
  exists l. unfold requests. rewrite Hrun. split; [done|].
  revert Hl. unfold Traffic.later_urls. rewrite Hfirst.
  destruct html as [|c html]; [done|]. cbn [nonempty]. by rewrite Hlast.
Qed.

(** X15. No address is requested twice in a scrape. *)
Theorem scrape_requests_distinct (articles_url : string) (sched : list nat) :
  NoDup (requests (scrape_company_articles articles_url sched)).
Proof.
  destruct (scrape_closed session_get BeautifulSoup fromisoformat small_year
              articles_url sched) as (l & Hrun & Hl).
  unfold requests. rewrite Hrun. cbn [snd].
  destruct (later_urls_NoDup session_get BeautifulSoup articles_url)
    as [Hnd Hnot].
  apply NoDup_cons. split; by rewrite Hl.
Qed.

(** X16. When page 1 is fetched with an empty body, the scrape returns no
    rows and issues no further request, without handing the body to the
    HTML parser. *)
Theorem scrape_empty_first_page (articles_url : string) (sched : list nat) :
  fetched articles_url = Some "" ->
  outcome (scrape_company_articles articles_url sched) = Ret []
  /\ requests (scrape_company_articles articles_url sched) = [articles_url].
Proof.
  intros H. unfold outcome, requests, Habr.scrape_company_articles, io_bind.
  by rewrite fetch_html_spec, H.
Qed.

(** X17. Every row a scrape returns has the nine fields of an article
    record. *)
Theorem scrape_rows_complete
    (articles_url : string) (sched : list nat)
    (rows : list (gmap string string)) :
  outcome (scrape_company_articles articles_url sched) = Ret rows ->
  Forall complete rows.
Proof.
  destruct (scrape_closed session_get BeautifulSoup fromisoformat small_year
              articles_url sched) as (l & Hrun & _).
  unfold outcome. rewrite Hrun. cbn [fst].
  intros ->%listing_outcome_returned. apply listing_rows_complete.
Qed.
End ScraperExtras.

Lemma scrape_returns_schedule_free_witness :
  exists rows,
    outcome (scrape_company_articles Sample.session_get Sample.BeautifulSoup
               Sample.fromisoformat Sample.small_year Sample.listing
               [1%nat; 0%nat])
    = Ret rows.
Proof.
  apply (scrape_returns_schedule_free Sample.session_get Sample.BeautifulSoup
           Sample.fromisoformat Sample.small_year Sample.listing
           [1%nat; 0%nat] []).
  intros u html. unfold Spec.fetched, Sample.session_get.
  destruct (String.eqb u Sample.listing);
    [intros [= <-]; eexists; reflexivity|].
  destruct (String.eqb u (Sample.listing +:+ "page2/")); [discriminate|].
  destruct (String.eqb u (Sample.listing +:+ "page3/"));
    [intros [= <-]; eexists; reflexivity|discriminate].
Defined.

Lemma scrape_requests_each_page_once_witness :
  exists later,
    requests (scrape_company_articles Sample.session_get Sample.BeautifulSoup
                Sample.fromisoformat Sample.small_year Sample.listing
                [1%nat; 0%nat])
    = Sample.listing :: later
    /\ later ≡ₚ [Sample.listing +:+ "page2/"; Sample.listing +:+ "page3/"].
Proof.
  apply (scrape_requests_each_page_once Sample.session_get
           Sample.BeautifulSoup Sample.fromisoformat Sample.small_year
           Sample.listing [1%nat; 0%nat] Sample.page1_html 3);
    [reflexivity|discriminate|reflexivity].
Defined.

Lemma scrape_empty_first_page_witness :
  outcome (scrape_company_articles Traffic.empty_site Sample.BeautifulSoup
             Sample.fromisoformat Sample.small_year Sample.listing [])
  = Ret []
  /\ requests (scrape_company_articles Traffic.empty_site Sample.BeautifulSoup
                 Sample.fromisoformat Sample.small_year Sample.listing [])
     = [Sample.listing].
Proof.
  apply (scrape_empty_first_page Traffic.empty_site Sample.BeautifulSoup
           Sample.fromisoformat Sample.small_year Sample.listing []).
  reflexivity.
Defined.

Lemma scrape_rows_complete_witness :
  Forall Spec.complete
    (Spec.records Sample.BeautifulSoup Sample.fromisoformat Sample.small_year
       Sample.page1_html
     ++ Spec.records Sample.BeautifulSoup Sample.fromisoformat
          Sample.small_year Sample.page3_html).
Proof.
  apply (scrape_rows_complete Sample.session_get Sample.BeautifulSoup
           Sample.fromisoformat Sample.small_year Sample.listing
           [1%nat; 0%nat]).
  vm_compute. reflexivity.
Defined.

(** ** The report *)

Module RenderFacts.
Import PyStr Spec Renderer.

Lemma getitem_agree (r r' : gmap string string) k :
  r !! k = r' !! k -> getitem r k = getitem r' k.
Proof. unfold getitem. by intros ->. Qed.

Lemma table_row_returns r : has_fields r -> exists s, table_row r = Ret s.
Proof.
  unfold has_fields, FIELDS. rewrite !Forall_cons.
  intros ([u Hu] & [t Ht] & [a Ha] & [d Hd] & [ti Hti] & [v Hv] & [c Hc]
          & [b Hb] & [w Hw] & _).
  unfold table_row, getitem.
  rewrite Hu, Ht, Ha, Hd, Hti, Hv, Hc, Hb, Hw. cbn [exc_bind]. by eexists.
Qed.

Lemma table_row_raises r :
  ~ has_fields r -> table_row r = Raise (OtherException "KeyError").
Proof.
  intros Hno. unfold table_row, getitem.
  destruct (r !! "url") as [u|] eqn:Hu; [|done].
  destruct (r !! "title") as [t|] eqn:Ht; [|done].
  destruct (r !! "author") as [a|] eqn:Ha; [|done].
  destruct (r !! "date") as [d|] eqn:Hd; [|done].
  destruct (r !! "time") as [ti|] eqn:Hti; [|done].
  destruct (r !! "votes") as [v|] eqn:Hv; [|done].
  destruct (r !! "comments") as [c|] eqn:Hc; [|done].
  destruct (r !! "bookmarks") as [b|] eqn:Hb; [|done].
  destruct (r !! "views") as [w|] eqn:Hw; [|done].
  destruct Hno. unfold has_fields, FIELDS.
  rewrite !Forall_cons, Hu, Ht, Ha, Hd, Hti, Hv, Hc, Hb, Hw.
  repeat (split; [by eexists|]). constructor.
Qed.

Lemma has_fields_dec r : has_fields r \/ ~ has_fields r.
Proof.
  unfold has_fields.
  destruct (decide (Forall (fun k => is_Some (r !! k)) FIELDS)); auto.
Qed.

Lemma table_rows_returns rows :
  Forall has_fields rows -> exists l, table_rows rows = Ret l.
Proof.
  induction 1 as [|r rows Hr _ [l IH]]; simpl; [by eexists|].
  destruct (table_row_returns r Hr) as [s ->]. rewrite IH. by eexists.
Qed.

Lemma table_rows_raises rows :
  ~ Forall has_fields rows ->
  table_rows rows = Raise (OtherException "KeyError").
Proof.
  induction rows as [|r rows IH]; intros Hno; [by destruct Hno|]. simpl.
  destruct (has_fields_dec r) as [Hr|Hr].
  - destruct (table_row_returns r Hr) as [s ->]. cbn [exc_bind].
    rewrite IH; [done|]. intros Hrest. apply Hno. by constructor.
  - by rewrite (table_row_raises r Hr).
Qed.

Lemma complete_has_fields r : complete r -> has_fields r.
Proof. by intros [_ H]. Qed.
End RenderFacts.

Section RendererExtras.
Import PyStr Spec Traffic Renderer ScraperFacts TrafficFacts RenderFacts.

Variable generated_at : string.
Variable page_open page_source page_table page_total page_close : string.

Local Abbreviation render_html_table :=
  (render_html_table generated_at page_open page_source page_table
                     page_total page_close).

(** X19. The renderer returns a page exactly when every row has each of
    the nine fields, whatever the source address and the time of the
    clock; when some row lacks one, it raises KeyError.  Fields beyond
    the nine do not matter. *)
Theorem render_returns_iff_fields
    (rows : list (gmap string string)) (source_url : string) :
  ((exists html, render_html_table rows source_url = Ret html)
   <-> Forall (fun r => Forall (fun k => is_Some (r !! k)) FIELDS) rows)
  /\ (forall e, render_html_table rows source_url = Raise e ->
                e = OtherException "KeyError").
Proof.
  unfold Renderer.render_html_table.
  destruct (decide (Forall has_fields rows)) as [Hall|Hno].
  - destruct (table_rows_returns rows Hall) as [l ->]. cbn [exc_bind].
    split; [|done]. split; [done|]. by eexists.
  - rewrite (table_rows_raises rows Hno). cbn [exc_bind].
    split; [|by intros e [= <-]]. split; [by intros [html H]|done].
Qed.

(** X20. Two records that agree on the nine fields give the same table
    row: nothing else of a record is read. *)
Theorem table_row_fields_only (r r' : gmap string string) :
  Forall (fun k => r !! k = r' !! k) FIELDS ->
  table_row r = table_row r'.
Proof.
  unfold FIELDS. rewrite !Forall_cons.
  intros (Hu & Ht & Ha & Hd & Hti & Hv & Hc & Hb & Hw & _).
  unfold table_row.
  by rewrite (getitem_agree r r' "url"), (getitem_agree r r' "title"),
    (getitem_agree r r' "author"), (getitem_agree r r' "date"),
    (getitem_agree r r' "time"), (getitem_agree r r' "votes"),
    (getitem_agree r r' "comments"), (getitem_agree r r' "bookmarks"),
    (getitem_agree r r' "views").
Qed.

Variable session_get : string -> exc response.
Variable BeautifulSoup : string -> exc Bs4.node.
Variable fromisoformat : string -> exc Datetime.datetime.
Variable small_year : Z -> string.

(** X21. The rows a scrape returns are always rendered: the renderer
    raises on none of them, whatever the site answered and whatever
    source address is shown. *)
Theorem scraped_rows_render
    (articles_url : string) (sched : list nat)
    (rows : list (gmap string string)) (source_url : string) :
  outcome (scrape_company_articles session_get BeautifulSoup fromisoformat
             small_year articles_url sched) = Ret rows ->
  exists html, render_html_table rows source_url = Ret html.
Proof.
  destruct (scrape_closed session_get BeautifulSoup fromisoformat small_year
              articles_url sched) as (l & Hrun & _).
  unfold outcome. rewrite Hrun. cbn [fst].
  intros ->%listing_outcome_returned.
  unfold Renderer.render_html_table.
  destruct (table_rows_returns
              (listing_rows session_get BeautifulSoup fromisoformat
                 small_year articles_url)) as [built ->].
  - eapply Forall_impl; [apply listing_rows_complete|].
    apply complete_has_fields.
  - cbn [exc_bind]. by eexists.
Qed.
End RendererExtras.

Lemma render_returns_iff_fields_witness :
  (exists html,
      Renderer.render_html_table "2024-03-05 14:30:00" "<html>" "<a>" "<table>"
        "<span>" "</html>" [Showcase.labelled_row] Sample.listing = Ret html)
  /\ Renderer.render_html_table "2024-03-05 14:30:00" "<html>" "<a>" "<table>"
       "<span>" "</html>" [Showcase.labelled_row; delete "time" Showcase.labelled_row]
       Sample.listing
     = Raise (OtherException "KeyError").
Proof.
  split.
  - apply (render_returns_iff_fields "2024-03-05 14:30:00" "<html>" "<a>"
             "<table>" "<span>" "</html>" [Showcase.labelled_row]
             Sample.listing).
    repeat constructor; by eexists.
  - destruct (Renderer.render_html_table "2024-03-05 14:30:00" "<html>" "<a>"
                "<table>" "<span>" "</html>"
                [Showcase.labelled_row; delete "time" Showcase.labelled_row]
                Sample.listing) as [html|e] eqn:E.
    + vm_compute in E. discriminate E.
    + f_equal.
      destruct (render_returns_iff_fields "2024-03-05 14:30:00" "<html>"
                  "<a>" "<table>" "<span>" "</html>"
                  [Showcase.labelled_row; delete "time" Showcase.labelled_row]
                  Sample.listing) as [_ H].
      apply (H e E).
Defined.

Lemma table_row_fields_only_witness :
  Renderer.table_row Showcase.labelled_row
  = Renderer.table_row (delete "label" Showcase.labelled_row).
Proof.
  apply (table_row_fields_only Showcase.labelled_row
           (delete "label" Showcase.labelled_row)).
  repeat constructor.
Defined.

Lemma scraped_rows_render_witness :
  exists html,
    Renderer.render_html_table "2024-03-05 14:30:00" "<html>" "<a>" "<table>"
      "<span>" "</html>"
      (Spec.records Sample.BeautifulSoup Sample.fromisoformat Sample.small_year
         Sample.page1_html
       ++ Spec.records Sample.BeautifulSoup Sample.fromisoformat
            Sample.small_year Sample.page3_html)
      Sample.listing
    = Ret html.
Proof.
  apply (scraped_rows_render "2024-03-05 14:30:00" "<html>" "<a>" "<table>"
           "<span>" "</html>" Sample.session_get Sample.BeautifulSoup
           Sample.fromisoformat Sample.small_year Sample.listing
           [1%nat; 0%nat]).
  vm_compute. reflexivity.
Defined.


(** ** Entry point *)

Section EntryExtras.
Import PyStr Bs4 Spec Traffic Renderer ExtractorFacts ScraperFacts
  TrafficFacts RenderFacts.

Variable session_get : string -> exc response.
Variable BeautifulSoup : string -> exc node.
Variable fromisoformat : string -> exc Datetime.datetime.
Variable small_year : Z -> string.
Variable _check_bracketed_host : string -> exc unit.
Variable _checknetloc_nfkc : string -> exc unit.
Variable generated_at : string.
Variable page_open page_source page_table page_total page_close : string.
Variable script_dir : string.
Variable write_text : string -> string -> exc unit.

Local Abbreviation normalize :=
  (normalize_company_articles_url _check_bracketed_host _checknetloc_nfkc).
Local Abbreviation scrape_company_articles :=
  (scrape_company_articles session_get BeautifulSoup fromisoformat small_year).
Local Abbreviation render_html_table :=
  (render_html_table generated_at page_open page_source page_table
                     page_total page_close).
Local Abbreviation main_async :=
  (main_async session_get BeautifulSoup fromisoformat small_year
              _check_bracketed_host _checknetloc_nfkc
              generated_at page_open page_source page_table page_total
              page_close script_dir write_text).

(** X18. For a run whose link normalizes: its first request goes to the
    normalized address and every other request to a page [page<k>/]
    below it, with k at least 2.  The run raises when the scrape raises
    and when the write of the file raises, with that exception, and not
    otherwise: the rows of a scrape that returns are always rendered,
    with the normalized address as the source address, and when the
    write succeeds the page is the file written, at the path joined
    from the directory of the script and the output argument. *)
Theorem main_async_report
    (link output : string) (sched : list nat) (articles_url : string) :
  normalize link = Ret articles_url ->
  (exists later,
      requests (main_async link output sched) = articles_url :: later
      /\ Forall (fun u => exists k, 2 <= k /\ u = page_url articles_url k)
                later)
  /\ (forall e,
        outcome (scrape_company_articles articles_url sched) = Raise e ->
        outcome (main_async link output sched) = Raise e)
  /\ (forall rows,
        outcome (scrape_company_articles articles_url sched) = Ret rows ->
        exists html,
          render_html_table rows articles_url = Ret html
          /\ match write_text (OsPath.join script_dir output) html with
             | Ret _ =>
                 outcome (main_async link output sched)
                 = Ret (Some (OsPath.join script_dir output, html))
             | Raise e => outcome (main_async link output sched) = Raise e
             end).
Proof.
  intros Hn. unfold outcome, requests, Habr.main_async. rewrite Hn.
  unfold io_bind, io_lift.
  destruct (scrape_closed session_get BeautifulSoup fromisoformat small_year
              articles_url sched) as (l & Hrun & Hl).
  rewrite Hrun. cbn [fst snd].
  destruct (listing_outcome session_get BeautifulSoup fromisoformat
              small_year articles_url) as [rows|e] eqn:Hout.
  - apply listing_outcome_returned in Hout as Hrows.
    destruct (table_rows_returns rows) as [built Hbuilt].
    { rewrite Hrows. eapply Forall_impl; [apply listing_rows_complete|].
      apply complete_has_fields. }
    assert (Hrender : exists html, render_html_table rows articles_url
                                   = Ret html).
    { unfold Renderer.render_html_table. rewrite Hbuilt. by eexists. }
    destruct Hrender as [html Hrender]. rewrite Hrender.
    split; [|split].
    + exists l.
      split; [by destruct (write_text (OsPath.join script_dir output) html)|].
      rewrite Hl. unfold Traffic.later_urls.
      destruct (Spec.fetched session_get articles_url) as [h|]; [|constructor].
      destruct (nonempty h); [|constructor].
      destruct (parse_pagination_last_page BeautifulSoup h) as [n|e];
        [|constructor].
      apply Forall_forall. intros u (k & <- & Hk)%list_elem_of_In%in_map_iff.
      exists k. split; [|done].
      unfold range_from_2 in Hk. apply in_map_iff in Hk as (i & <- & _). lia.
    + done.
    + intros rows' [= <-]. exists html. split; [done|].
      by destruct (write_text (OsPath.join script_dir output) html).
  - split; [|split].
    + exists l. split; [done|].
      rewrite Hl. unfold Traffic.later_urls.
      destruct (Spec.fetched session_get articles_url) as [h|]; [|constructor].
      destruct (nonempty h); [|constructor].
      destruct (parse_pagination_last_page BeautifulSoup h) as [n|e'];
        [|constructor].
      apply Forall_forall. intros u (k & <- & Hk)%list_elem_of_In%in_map_iff.
      exists k. split; [|done].
      unfold range_from_2 in Hk. apply in_map_iff in Hk as (i & <- & _). lia.
    + by intros e' [= <-].
    + done.
Qed.
End EntryExtras.

(** A profile link gives the report of the listing; a disk that takes no
    file makes the run raise. *)
Lemma main_async_report_witness :
  (exists html,
      outcome (main_async Sample.session_get Sample.BeautifulSoup
                 Sample.fromisoformat Sample.small_year Sample.host_ok
                 Sample.host_ok "2024-03-05 14:30:00" "<html>" "<a>"
                 "<table>" "<span>" "</html>" "/srv/habr" Sample.disk_ok
                 " https://habr.com/ru/companies/acme?utm=1 " "report.html"
                 [1%nat; 0%nat])
      = Ret (Some ("/srv/habr/report.html", html)))
  /\ outcome (main_async Sample.session_get Sample.BeautifulSoup
                Sample.fromisoformat Sample.small_year Sample.host_ok
                Sample.host_ok "2024-03-05 14:30:00" "<html>" "<a>"
                "<table>" "<span>" "</html>" "/srv/habr" Sample.disk_full
                " https://habr.com/ru/companies/acme?utm=1 " "report.html"
                [1%nat; 0%nat])
     = Raise (OtherException "OSError").
Proof.
  split.
  - destruct (main_async_report Sample.session_get Sample.BeautifulSoup
                Sample.fromisoformat Sample.small_year Sample.host_ok
                Sample.host_ok "2024-03-05 14:30:00" "<html>" "<a>"
                "<table>" "<span>" "</html>" "/srv/habr" Sample.disk_ok
                " https://habr.com/ru/companies/acme?utm=1 " "report.html"
                [1%nat; 0%nat] Sample.listing) as (_ & _ & H);
      [vm_compute; reflexivity|].
    destruct (H (Spec.records Sample.BeautifulSoup Sample.fromisoformat
                   Sample.small_year Sample.page1_html
                 ++ Spec.records Sample.BeautifulSoup Sample.fromisoformat
                      Sample.small_year Sample.page3_html))
      as (html & _ & Hw); [vm_compute; reflexivity|].
    exists html. exact Hw.
  - destruct (main_async_report Sample.session_get Sample.BeautifulSoup
                Sample.fromisoformat Sample.small_year Sample.host_ok
                Sample.host_ok "2024-03-05 14:30:00" "<html>" "<a>"
                "<table>" "<span>" "</html>" "/srv/habr" Sample.disk_full
                " https://habr.com/ru/companies/acme?utm=1 " "report.html"
                [1%nat; 0%nat] Sample.listing) as (_ & _ & H);
      [vm_compute; reflexivity|].
    destruct (H (Spec.records Sample.BeautifulSoup Sample.fromisoformat
                   Sample.small_year Sample.page1_html
                 ++ Spec.records Sample.BeautifulSoup Sample.fromisoformat
                      Sample.small_year Sample.page3_html))
      as (html & _ & Hw); [vm_compute; reflexivity|].
    exact Hw.
Defined.


(** ** Counters of a record *)

Section CounterExtras.
Import PyStr PyStrFacts Bs4 Spec Fields ExtractorFacts LinkFacts FieldFacts.

Variable fromisoformat : string -> exc Datetime.datetime.
Variable small_year : Z -> string.

Local Abbreviation parse_article_block :=
  (parse_article_block fromisoformat small_year).

(** X22. The views are read from the title attribute of the counter when
    it has a non-empty one, whatever the text of the counter, and from
    the text otherwise. *)
Theorem views_title_first
    (article_block parent counter : node) (row : gmap string string) :
  find article_block (field_search "views") = Some parent ->
  find parent (mkStrainer "span" (Some "tm-icon-counter__value") [])
  = Some counter ->
  parse_article_block article_block = Ret row ->
  (forall title, get counter "title" = Some title -> title <> "" ->
     row !! "views" = Some (format_number title))
  /\ (get counter "title" = None \/ get counter "title" = Some "" ->
      row !! "views" = Some (format_number (text counter))).
Proof.
  intros Hp Hc. unfold Habr.parse_article_block. cbv zeta.
  destruct (block_datetime_returns fromisoformat small_year article_block)
    as (d & t & ->).
  cbn [exc_bind]. intros Hrow. injection Hrow as <-.
  lookup_row "views".
  change (field_search "views")
    with (mkStrainer "span" (Some "tm-icon-counter tm-data-icons__item") [])
    in Hp.
  rewrite Hp, Hc. split.
  - intros title -> Hne. cbn [default]. unfold or_else.
    by destruct title.
  - by intros [-> | ->].
Qed.

(** X23. The bookmarks are read from the text of the counter when it is
    not blank, and from the title attribute otherwise, each without
    its surrounding whitespace; they are the sentinel when both are
    blank or missing. *)
Theorem bookmarks_text_first
    (article_block button counter : node) (row : gmap string string) :
  find article_block (field_search "bookmarks") = Some button ->
  find button (mkStrainer "span" (Some "bookmarks-button__counter") [])
  = Some counter ->
  parse_article_block article_block = Ret row ->
  let title := default "" (get counter "title") in
  (strip isspace (text counter) <> "" ->
     row !! "bookmarks"
     = Some (PyStr.map unbreak (strip isspace (text counter))))
  /\ (strip isspace (text counter) = "" -> strip isspace title <> "" ->
      row !! "bookmarks" = Some (PyStr.map unbreak (strip isspace title)))
  /\ (strip isspace (text counter) = "" -> strip isspace title = "" ->
      row !! "bookmarks" = Some NA).
Proof.
  intros Hb Hc. unfold Habr.parse_article_block. cbv zeta.
  destruct (block_datetime_returns fromisoformat small_year article_block)
    as (d & t & ->).
  cbn [exc_bind]. intros Hrow. injection Hrow as <-.
  set (title := default "" (get counter "title")).
  lookup_row "bookmarks".
  change (field_search "bookmarks")
    with (mkStrainer "button" (Some "bookmarks-button tm-data-icons__item") [])
    in Hb.
  rewrite Hb, Hc. fold title.
  assert (Htext : (if nonempty (text counter)
                   then strip isspace (text counter) else "")
                  = strip isspace (text counter)).
  { by destruct (text counter). }
  rewrite Htext. unfold or_else.
  split; [|split].
  - intros Hne. destruct (strip isspace (text counter)) as [|c s] eqn:E;
      [done|]. cbn [nonempty].
    rewrite format_number_nonempty by done. by rewrite <- E, strip_idem.
  - intros -> Hne. cbn [nonempty].
    rewrite format_number_nonempty by done. by rewrite strip_idem.
  - by intros -> ->.
Qed.

(** X24. The url and the bookmarks of a record are never the empty
    string: where there is nothing to show they are the sentinel. *)
Theorem url_bookmarks_never_empty
    (article_block : node) (row : gmap string string) :
  parse_article_block article_block = Ret row ->
  row !! "url" <> Some "" /\ row !! "bookmarks" <> Some "".
Proof.
  unfold Habr.parse_article_block. cbv zeta.
  destruct (block_datetime_returns fromisoformat small_year article_block)
    as (d & t & ->).
  cbn [exc_bind]. intros Hrow. injection Hrow as <-. split.
  - lookup_row "url".
    destruct (find article_block _) as [le|]; [|done].
    destruct (get le "href") as [href|]; [|done].
    by destruct (nonempty href).
  - lookup_row "bookmarks".
    destruct (find article_block
                (mkStrainer "button"
                   (Some "bookmarks-button tm-data-icons__item") []))
      as [bb|]; [|done].
    destruct (find bb _) as [counter|]; [|done].
    set (tv := if nonempty (text counter)
               then strip isspace (text counter) else "").
    set (av := strip isspace (default "" (get counter "title"))).
    assert (Htv : strip isspace tv = tv).
    { unfold tv. destruct (nonempty (text counter)); [apply strip_idem|done]. }
    assert (Hav : strip isspace av = av) by apply strip_idem.
    assert (Hor : strip isspace (or_else tv av) = or_else tv av).
    { unfold or_else. by destruct (nonempty tv). }
    destruct (or_else tv av) as [|c s] eqn:E; [done|].
    rewrite format_number_nonempty by done. rewrite Hor. done.
Qed.
End CounterExtras.

Lemma views_title_first_witness :
  exists row,
    parse_article_block Sample.fromisoformat Sample.small_year
      Showcase.full_article = Ret row
    /\ row !! "views" = Some "12345".
Proof.
  eexists. split; [reflexivity|].
  destruct (views_title_first Sample.fromisoformat Sample.small_year
              Showcase.full_article Showcase.views_counter
              (Showcase.element "span" ["tm-icon-counter__value"]
                 [("title", "12345")] [Bs4.NavigableString "12K"])
              _ eq_refl eq_refl eq_refl) as [H _].
  apply (H "12345"); [reflexivity|discriminate].
Defined.

Lemma bookmarks_text_first_witness :
  exists row,
    parse_article_block Sample.fromisoformat Sample.small_year
      Showcase.blank_counters_article = Ret row
    /\ row !! "bookmarks" = Some "5".
Proof.
  eexists. split; [reflexivity|].
  destruct (bookmarks_text_first Sample.fromisoformat Sample.small_year
              Showcase.blank_counters_article
              (Showcase.bookmarks_button "  " " 5 ")
              (Showcase.bookmarks_counter "  " " 5 ")
              _ eq_refl eq_refl eq_refl) as (_ & H & _).
  apply H; [reflexivity|discriminate].
Defined.

Lemma url_bookmarks_never_empty_witness :
  exists row,
    parse_article_block Sample.fromisoformat Sample.small_year
      Showcase.blank_counters_article = Ret row
    /\ row !! "views" = Some ""
    /\ row !! "url" <> Some "" /\ row !! "bookmarks" <> Some "".
Proof.
  eexists. split; [reflexivity|]. split; [reflexivity|].
  apply (url_bookmarks_never_empty Sample.fromisoformat Sample.small_year
           Showcase.blank_counters_article).
  reflexivity.
Defined.
